(** * Accounts: role ledger and token lifecycle of lll_backend

    A shallow embedding of [accounts/models.py], [accounts/serializers.py],
    [accounts/views.py] and the [SIMPLE_JWT] block of [lll_backend/settings.py].

    Tables are lists of rows in insertion order, primary keys are [Z],
    timestamps are seconds as [Z], strings are UTF-8 byte sequences.  The
    foreign keys of accounts_userrole and accounts_profile are checked on
    every write.  Python exceptions are values of [Exn];
    a handler runs in the state/exception monad [M].  The database runs in
    autocommit mode (settings.DATABASES, no ATOMIC_REQUESTS), so whatever a
    handler has written before an exception propagates stays written: [M]
    returns the world together with the raised exception. *)

From Stdlib Require Import ZArith List String Ascii Bool Lia.
From Stdlib Require Import Permutation Sorted.
Import ListNotations.
Local Open Scope string_scope.
Local Open Scope Z_scope.

Definition Time := Z.

(** ** Rows (accounts/models.py and django.contrib.auth's User) *)

Module User.
Record t := mk {
  id : Z;
  username : string;
  email : string;
  password : string;          (* the encoded password, never the raw one *)
  first_name : string;
  last_name : string;
  is_active : bool }.
End User.

Module Role.
(** [pk] is [None] for an instance that was never saved.  The audit
    columns created_at / updated_at are not read by any operation below
    and are left out. *)
Record t := mk {
  pk : option Z;
  name : string;
  slug : string;
  description : option string;
  is_active : bool }.
End Role.

Module Profile.
Record t := mk {
  user : Z;
  phone : option string;
  bio : option string }.
End Profile.

Module UserRole.
Record t := mk {
  id : Z;
  user : Z;
  role : Z;
  is_active : bool;
  assigned_at : Time;
  revoked_at : option Time;
  assigned_by : option Z;
  note : option string }.

Definition set_is_active (b : bool) (x : t) : t :=
  mk (id x) (user x) (role x) b (assigned_at x) (revoked_at x) (assigned_by x) (note x).
Definition set_assigned_at (v : Time) (x : t) : t :=
  mk (id x) (user x) (role x) (is_active x) v (revoked_at x) (assigned_by x) (note x).
Definition set_revoked_at (v : option Time) (x : t) : t :=
  mk (id x) (user x) (role x) (is_active x) (assigned_at x) v (assigned_by x) (note x).
Definition set_assigned_by (v : option Z) (x : t) : t :=
  mk (id x) (user x) (role x) (is_active x) (assigned_at x) (revoked_at x) v (note x).
Definition set_note (v : option string) (x : t) : t :=
  mk (id x) (user x) (role x) (is_active x) (assigned_at x) (revoked_at x) (assigned_by x) v.
End UserRole.

(** ** Tokens (rest_framework_simplejwt) *)

Inductive TokenType := Refresh | Access.

Module Token.
(** A token is kept decoded; signing is the trusted library's business.
    [claims] holds the username / email / role-slug snapshot that
    [get_token] adds. *)
Record t := mk {
  token_type : TokenType;
  jti : Z;
  user_id : Z;
  exp : Time;
  claims : option (string * string * list string) }.
End Token.

(** ** The world: database tables, the uuid source and the clock position *)

Record World := mkWorld {
  auth_user : list User.t;
  accounts_profile : list Profile.t;
  accounts_role : list Role.t;
  accounts_userrole : list UserRole.t;
  blacklistedtoken : list Z;      (* jti of every blacklisted refresh token *)
  jti_next : Z;                   (* next fresh token identifier *)
  ticks : nat                     (* how many times the clock has been read *)
}.

Definition with_auth_user (v : list User.t) (w : World) : World :=
  mkWorld v (accounts_profile w) (accounts_role w) (accounts_userrole w)
          (blacklistedtoken w) (jti_next w) (ticks w).
Definition with_accounts_profile (v : list Profile.t) (w : World) : World :=
  mkWorld (auth_user w) v (accounts_role w) (accounts_userrole w)
          (blacklistedtoken w) (jti_next w) (ticks w).
Definition with_accounts_userrole (v : list UserRole.t) (w : World) : World :=
  mkWorld (auth_user w) (accounts_profile w) (accounts_role w) v
          (blacklistedtoken w) (jti_next w) (ticks w).
Definition with_blacklistedtoken (v : list Z) (w : World) : World :=
  mkWorld (auth_user w) (accounts_profile w) (accounts_role w) (accounts_userrole w)
          v (jti_next w) (ticks w).
Definition with_jti_next (v : Z) (w : World) : World :=
  mkWorld (auth_user w) (accounts_profile w) (accounts_role w) (accounts_userrole w)
          (blacklistedtoken w) v (ticks w).
Definition with_ticks (v : nat) (w : World) : World :=
  mkWorld (auth_user w) (accounts_profile w) (accounts_role w) (accounts_userrole w)
          (blacklistedtoken w) (jti_next w) v.

(** ** Exceptions and the handler monad *)

Inductive ModelName := UserModel | RoleModel | ProfileModel | UserRoleModel.

Inductive Exn :=
| ValueError (msg : string)
| ValidationError (errors : list (string * string))   (* field, message *)
| DoesNotExist (m : ModelName)
| MultipleObjectsReturned (m : ModelName)
| IntegrityError (m : ModelName)
| AttributeError
| AuthenticationFailed
| InvalidToken.

Inductive Result (A : Type) :=
| Ok (a : A)
| Raise (e : Exn).
Arguments Ok {A} a.
Arguments Raise {A} e.

Definition M (A : Type) : Type := World -> Result A * World.

Definition ret {A} (a : A) : M A := fun w => (Ok a, w).
Definition raise {A} (e : Exn) : M A := fun w => (Raise e, w).
Definition bind {A B} (m : M A) (k : A -> M B) : M B :=
  fun w => match m w with
           | (Ok a, w') => k a w'
           | (Raise e, w') => (Raise e, w')
           end.
Definition gets {A} (f : World -> A) : M A := fun w => (Ok (f w), w).
Definition modify (f : World -> World) : M unit := fun w => (Ok tt, f w).

(** [try: m except handles: h] *)
Definition try_except {A} (m : M A) (handles : Exn -> bool) (h : M A) : M A :=
  fun w => match m w with
           | (Raise e, w') => if handles e then h w' else (Raise e, w')
           | r => r
           end.

Declare Scope monad_scope.
Delimit Scope monad_scope with monad.
Notation "x <- m ;; k" := (bind m (fun x => k))
  (at level 61, m at next level, right associativity) : monad_scope.
Notation "m ;;; k" := (bind m (fun _ => k))
  (at level 61, right associativity) : monad_scope.
Local Open Scope monad_scope.

(** ** Small helpers *)

(** The id an auto-increment column hands out next. *)
Definition next_pk (ids : list Z) : Z := Z.succ (fold_right Z.max 0 ids).

(** ["@" in s] *)
Fixpoint contains_at (s : string) : bool :=
  match s with
  | EmptyString => false
  | String c s' => Ascii.eqb c "@"%char || contains_at s'
  end.

(** Python's [str.strip()], which the serializer's character fields apply
    to what the request carries.  Strings are UTF-8 byte sequences; the
    characters removed are those of [str.isspace]. *)
Definition in_range (lo hi : N) (c : ascii) : bool :=
  (lo <=? N_of_ascii c)%N && (N_of_ascii c <=? hi)%N.
Definition is_byte (n : N) (c : ascii) : bool := (N_of_ascii c =? n)%N.

(** U+0009..U+000D and U+001C..U+0020 *)
Definition space1 (a : ascii) : bool := in_range 9 13 a || in_range 28 32 a.
(** U+0085 and U+00A0 *)
Definition space2 (a b : ascii) : bool :=
  is_byte 194 a && (is_byte 133 b || is_byte 160 b).
(** U+1680, U+2000..U+200A, U+2028, U+2029, U+202F, U+205F and U+3000 *)
Definition space3 (a b c : ascii) : bool :=
  (is_byte 225 a && is_byte 154 b && is_byte 128 c)
  || (is_byte 226 a && is_byte 128 b
      && (in_range 128 138 c || is_byte 168 c || is_byte 169 c || is_byte 175 c))
  || (is_byte 226 a && is_byte 129 b && is_byte 159 c)
  || (is_byte 227 a && is_byte 128 b && is_byte 128 c).

(** Drop the whitespace characters a byte list starts with; [back] reads
    the list as a reversed string. *)
Fixpoint drop_spaces (back : bool) (l : list ascii) : list ascii :=
  match l with
  | [] => []
  | a :: r =>
      if space1 a then drop_spaces back r else
      match r with
      | [] => l
      | b :: r2 =>
          if (if back then space2 b a else space2 a b) then drop_spaces back r2 else
          match r2 with
          | [] => l
          | c :: r3 =>
              if (if back then space3 c b a else space3 a b c)
              then drop_spaces back r3 else l
          end
      end
  end.

Definition strip (s : string) : string :=
  string_of_list_ascii
    (rev (drop_spaces true (rev (drop_spaces false (list_ascii_of_string s))))).

(** Python truthiness of the values [add_role] tests. *)
Definition truthy_pk (pk : option Z) : bool :=
  match pk with Some k => negb (k =? 0) | None => false end.
Definition truthy_str (s : option string) : bool :=
  match s with Some v => negb (v =? "")%string | None => false end.

(** [a or b] on optional model instances: instances are always truthy. *)
Definition py_or {A} (a b : option A) : option A :=
  match a with Some _ => a | None => b end.

Definition pk_is (k : Z) (pk : option Z) : bool :=
  match pk with Some j => j =? k | None => false end.

(** ORDER BY name, as [Role.Meta.ordering] asks: a stable insertion sort. *)
Fixpoint insert_by_name (r : Role.t) (l : list Role.t) : list Role.t :=
  match l with
  | [] => [r]
  | x :: l' => if String.leb (Role.name r) (Role.name x) then r :: l
               else x :: insert_by_name r l'
  end.
Definition order_by_name (l : list Role.t) : list Role.t :=
  fold_right insert_by_name [] l.

(** ** lll_backend/settings.py *)

Module SimpleJWT.
Record t := mk {
  ACCESS_TOKEN_LIFETIME : Z;
  REFRESH_TOKEN_LIFETIME : Z;
  ROTATE_REFRESH_TOKENS : bool;
  BLACKLIST_AFTER_ROTATION : bool }.
End SimpleJWT.

Definition SIMPLE_JWT : SimpleJWT.t :=
  SimpleJWT.mk (30 * 60) (24 * 60 * 60) true true.

(** ["rest_framework_simplejwt.token_blacklist" in INSTALLED_APPS] *)
Definition token_blacklist_installed : bool := true.

(** ** Requests and responses (accounts/serializers.py, accounts/views.py) *)

Module RegisterData.
Record t := mk {
  username : string;
  email : string;
  password : string;
  password2 : string;
  first_name : string;
  last_name : string }.
End RegisterData.

(** [Serializer.to_internal_value] of [RegisterSerializer]: every field is
    a character field with [trim_whitespace] left at its default, so each
    value reaches [validate] and [create] stripped. *)
Definition to_internal_value (data : RegisterData.t) : RegisterData.t :=
  RegisterData.mk (strip (RegisterData.username data))
                  (strip (RegisterData.email data))
                  (strip (RegisterData.password data))
                  (strip (RegisterData.password2 data))
                  (strip (RegisterData.first_name data))
                  (strip (RegisterData.last_name data)).

(** The two strings of a login: as the request carries them, and as the
    serializer's fields hand them to [validate]. *)
Module LoginAttrs.
Record t := mk {
  username : string;
  password : string }.
End LoginAttrs.

(** [request.data] of the logout endpoint: a JSON object, with or without
    a ["refresh"] entry, or any other JSON value (an array, a string, a
    number), which has no [get]. *)
Inductive RequestData :=
| Dict (refresh : option Token.t)
| NotADict.

Inductive Body :=
| RegisterBody (refresh access : Token.t) (username email : string) (roles : list string)
| TokenBody (refresh access : Token.t)
| RefreshBody (access : Token.t) (refresh : option Token.t)
| DetailBody (detail : string).

Record Response := mkResponse {
  status_code : Z;
  data : Body }.

Definition HTTP_201_CREATED : Z := 201.
Definition HTTP_205_RESET_CONTENT : Z := 205.
Definition HTTP_400_BAD_REQUEST : Z := 400.

Section Accounts.

(** The wall clock: [clock k] is what the k-th call of [timezone.now()]
    returns.  Nothing is assumed about it. *)
Variable clock : nat -> Time.

Definition timezone_now : M Time :=
  fun w => (Ok (clock (ticks w)), with_ticks (S (ticks w)) w).

(** ** accounts/models.py *)

(** The foreign keys of accounts_userrole (user, role, assigned_by), which
    the database checks on every INSERT and UPDATE of a row. *)
Definition user_stored (k : Z) (w : World) : bool :=
  existsb (fun u => User.id u =? k) (auth_user w).
Definition role_stored (k : Z) (w : World) : bool :=
  existsb (fun r => pk_is k (Role.pk r)) (accounts_role w).
Definition assigner_stored (assigned_by : option Z) (w : World) : bool :=
  match assigned_by with Some a => user_stored a w | None => true end.
Definition fk_ok (ur : UserRole.t) (w : World) : bool :=
  user_stored (UserRole.user ur) w
  && role_stored (UserRole.role ur) w
  && assigner_stored (UserRole.assigned_by ur) w.

Definition userrole_for (u r : Z) (x : UserRole.t) : bool :=
  (UserRole.user x =? u) && (UserRole.role x =? r).

(** [UserRole.objects.get_or_create(user=u, role=r, defaults={...})]: the
    INSERT of the missing row is refused when one of its foreign keys
    points nowhere, and the IntegrityError leaves the call. *)
Definition get_or_create (u r : Z) (assigned_by : option Z) (note : option string)
    (is_active : bool) (assigned_at : Time) : M (UserRole.t * bool) :=
  rows <- gets accounts_userrole ;;
  match filter (userrole_for u r) rows with
  | [] =>
      let ur := UserRole.mk (next_pk (map UserRole.id rows)) u r
                            is_active assigned_at None assigned_by note in
      ok <- gets (fk_ok ur) ;;
      if ok then
        modify (with_accounts_userrole (rows ++ [ur])) ;;;
        ret (ur, true)
      else raise (IntegrityError UserRoleModel)
  | [ur] => ret (ur, false)
  | _ :: _ :: _ => raise (MultipleObjectsReturned UserRoleModel)
  end.

(** [ur.save()] on an instance that carries a primary key: UPDATE the row
    with that key, INSERT when no row has it; either statement writes the
    three foreign-key columns and is refused when one points nowhere. *)
Definition save (ur : UserRole.t) : M unit :=
  ok <- gets (fk_ok ur) ;;
  if ok then
    rows <- gets accounts_userrole ;;
    if existsb (fun x => UserRole.id x =? UserRole.id ur) rows
    then modify (with_accounts_userrole
                   (map (fun x => if UserRole.id x =? UserRole.id ur then ur else x) rows))
    else modify (with_accounts_userrole (rows ++ [ur]))
  else raise (IntegrityError UserRoleModel).

(** [Profile.has_role] *)
Definition has_role (self : Profile.t) (role_slug : string) (w : World) : bool :=
  existsb (fun x =>
    (UserRole.user x =? Profile.user self)
    && UserRole.is_active x
    && existsb (fun r => pk_is (UserRole.role x) (Role.pk r)
                         && (Role.slug r =? role_slug)%string
                         && Role.is_active r)
               (accounts_role w))
    (accounts_userrole w).

(** [Profile.get_active_roles]: one result per joined mapping row (the
    queryset carries no [distinct()]), roles in name order. *)
Definition get_active_roles (self : Profile.t) (w : World) : list Role.t :=
  flat_map (fun r =>
    if Role.is_active r then
      map (fun _ => r)
          (filter (fun x => (UserRole.user x =? Profile.user self)
                            && UserRole.is_active x
                            && pk_is (UserRole.role x) (Role.pk r))
                  (accounts_userrole w))
    else [])
    (order_by_name (accounts_role w)).

(** [Profile.add_role] *)
Definition add_role (self : Profile.t) (role : Role.t)
    (assigned_by : option Z) (note : option string) : M UserRole.t :=
  if negb (truthy_pk (Role.pk role)) then
    raise (ValueError "role must be saved (have a primary key) before assigning")
  else if negb (Role.is_active role) then
    raise (ValueError "cannot assign an inactive Role")
  else
    match Role.pk role with
    | None => raise (ValueError "role must be saved (have a primary key) before assigning")
    | Some rid =>
        now <- timezone_now ;;
        p <- get_or_create (Profile.user self) rid assigned_by note true now ;;
        let '(ur, created) := p in
        if negb created then
          let ur := UserRole.set_is_active true ur in
          let ur := UserRole.set_assigned_by (py_or assigned_by (UserRole.assigned_by ur)) ur in
          let ur := if truthy_str note then UserRole.set_note note ur else ur in
          now' <- timezone_now ;;
          let ur := UserRole.set_assigned_at now' ur in
          save ur ;;;
          ret ur
        else ret ur
    end.

(** [Profile.remove_role]: one UPDATE over the filtered rows.  The filter
    [role=role] is built first, and the ORM refuses an instance without a
    primary key there, before [timezone.now()] is evaluated. *)
Definition remove_role (self : Profile.t) (role : Role.t) : M unit :=
  match Role.pk role with
  | None => raise (ValueError "Model instances passed to related filters must be saved.")
  | Some _ =>
      now <- timezone_now ;;
      rows <- gets accounts_userrole ;;
      modify (with_accounts_userrole
        (map (fun x =>
                if (UserRole.user x =? Profile.user self)
                   && pk_is (UserRole.role x) (Role.pk role)
                   && UserRole.is_active x
                then UserRole.set_revoked_at (Some now) (UserRole.set_is_active false x)
                else x)
             rows))
  end.

(** [UserRole.revoke] and [UserRole.activate] *)
Definition revoke (self : UserRole.t) (by_ : option Z) : M UserRole.t :=
  let ur := UserRole.set_is_active false self in
  now <- timezone_now ;;
  let ur := UserRole.set_revoked_at (Some now) ur in
  let ur := match by_ with Some _ => UserRole.set_assigned_by by_ ur | None => ur end in
  save ur ;;;
  ret ur.

Definition activate (self : UserRole.t) (by_ : option Z) : M UserRole.t :=
  let ur := UserRole.set_is_active true self in
  now <- timezone_now ;;
  let ur := UserRole.set_assigned_at now ur in
  let ur := UserRole.set_revoked_at None ur in
  let ur := match by_ with Some _ => UserRole.set_assigned_by by_ ur | None => ur end in
  save ur ;;;
  ret ur.

(** ** django.contrib.auth and rest_framework_simplejwt, as far as the
    handlers lean on them *)

(** The password hasher.  Nothing is assumed about it. *)
Variable make_password : string -> string.

Definition check_password (raw encoded : string) : bool :=
  (make_password raw =? encoded)%string.

(** The field-level checks of the REST toolkit's serializer (required
    fields, formats, the password validators of settings.py, the unique
    username): the list of (field, message) pairs they report. *)
Variable field_errors : list User.t -> RegisterData.t -> list (string * string).

Definition uuid4 : M Z :=
  fun w => (Ok (jti_next w), with_jti_next (Z.succ (jti_next w)) w).

(** [user.profile] *)
Definition user_profile (user : User.t) : M Profile.t :=
  ps <- gets accounts_profile ;;
  match find (fun p => Profile.user p =? User.id user) ps with
  | Some p => ret p
  | None => raise (DoesNotExist ProfileModel)
  end.

(** [Role.objects.get(id=k)] *)
Definition Role_objects_get (k : Z) : M Role.t :=
  rs <- gets accounts_role ;;
  match filter (fun r => pk_is k (Role.pk r)) rs with
  | [] => raise (DoesNotExist RoleModel)
  | [r] => ret r
  | _ :: _ :: _ => raise (MultipleObjectsReturned RoleModel)
  end.

(** [User.objects.get(email=e)] *)
Definition User_objects_get_email (e : string) : M User.t :=
  us <- gets auth_user ;;
  match filter (fun u => (User.email u =? e)%string) us with
  | [] => raise (DoesNotExist UserModel)
  | [u] => ret u
  | _ :: _ :: _ => raise (MultipleObjectsReturned UserModel)
  end.

(** [RefreshToken.for_user(user)]: the token and the instant it was built
    at, which [access_token] reuses. *)
Definition RefreshToken_for_user (cfg : SimpleJWT.t) (user : User.t) : M (Token.t * Time) :=
  now <- timezone_now ;;
  j <- uuid4 ;;
  ret (Token.mk Refresh j (User.id user)
                (now + SimpleJWT.REFRESH_TOKEN_LIFETIME cfg) None, now).

(** [refresh.access_token] *)
Definition access_token (cfg : SimpleJWT.t) (refresh : Token.t * Time) : M Token.t :=
  j <- uuid4 ;;
  ret (Token.mk Access j (Token.user_id (fst refresh))
                (snd refresh + SimpleJWT.ACCESS_TOKEN_LIFETIME cfg)
                (Token.claims (fst refresh))).

(** [django.contrib.auth.authenticate] with the model backend *)
Definition authenticate (username password : string) : M (option User.t) :=
  us <- gets auth_user ;;
  match find (fun u => (User.username u =? username)%string) us with
  | Some u => if check_password password (User.password u) && User.is_active u
              then ret (Some u) else ret None
  | None => ret None
  end.

(** ** accounts/serializers.py *)

(** [RegisterSerializer.validate] *)
Definition RegisterSerializer_validate (attrs : RegisterData.t) : M RegisterData.t :=
  if negb (RegisterData.password attrs =? RegisterData.password2 attrs)%string then
    raise (ValidationError [("password", "Password fields didn’t match.")])
  else
    us <- gets auth_user ;;
    if existsb (fun u => (User.email u =? RegisterData.email attrs)%string) us then
      raise (ValidationError [("email", "Email already registered.")])
    else ret attrs.

(** [serializer.is_valid(raise_exception=True)]: field-level errors are
    reported first, and [validate] only runs when there are none, on the
    values the fields return, which are the stripped ones. *)
Definition is_valid (data : RegisterData.t) : M RegisterData.t :=
  us <- gets auth_user ;;
  match field_errors us data with
  | [] => RegisterSerializer_validate (to_internal_value data)
  | errs => raise (ValidationError errs)
  end.

(** [Profile.objects.create(user=instance)]: the INSERT is refused when the
    user already has a profile (the one-to-one column is unique) or when
    the user row is not stored (the foreign key). *)
Definition Profile_objects_create (instance : User.t) : M unit :=
  ps <- gets accounts_profile ;;
  stored <- gets (user_stored (User.id instance)) ;;
  if existsb (fun p => Profile.user p =? User.id instance) ps || negb stored
  then raise (IntegrityError ProfileModel)
  else modify (with_accounts_profile (ps ++ [Profile.mk (User.id instance) None None])).

(** [create_or_ensure_profile], the post_save receiver *)
Definition create_or_ensure_profile (instance : User.t) (created : bool) : M unit :=
  if created then Profile_objects_create instance
  else
    ps <- gets accounts_profile ;;
    if existsb (fun p => Profile.user p =? User.id instance) ps then ret tt
    else Profile_objects_create instance.

(** [RegisterSerializer.create]: build the user, hash the password, INSERT
    (usernames are unique in auth_user), then the post_save signal. *)
Definition RegisterSerializer_create (validated_data : RegisterData.t) : M User.t :=
  us <- gets auth_user ;;
  if existsb (fun u => (User.username u =? RegisterData.username validated_data)%string) us then
    raise (IntegrityError UserModel)
  else
    let user := User.mk (next_pk (map User.id us))
                        (RegisterData.username validated_data)
                        (RegisterData.email validated_data)
                        (make_password (RegisterData.password validated_data))
                        (RegisterData.first_name validated_data)
                        (RegisterData.last_name validated_data)
                        true in
    modify (with_auth_user (us ++ [user])) ;;;
    create_or_ensure_profile user true ;;;
    ret user.

(** ** accounts/views.py *)

Definition is_Role_DoesNotExist (e : Exn) : bool :=
  match e with DoesNotExist RoleModel => true | _ => false end.
Definition is_User_DoesNotExist (e : Exn) : bool :=
  match e with DoesNotExist UserModel => true | _ => false end.

(** [RegisterView.create] *)
Definition RegisterView_create (request_data : RegisterData.t) : M Response :=
  attrs <- is_valid request_data ;;
  user <- RegisterSerializer_create attrs ;;
  try_except
    (default_role <- Role_objects_get 2 ;;
     profile <- user_profile user ;;
     add_role profile default_role None None ;;;
     ret tt)
    is_Role_DoesNotExist
    (ret tt) ;;;
  refresh <- RefreshToken_for_user SIMPLE_JWT user ;;
  access <- access_token SIMPLE_JWT refresh ;;
  profile <- user_profile user ;;
  roles <- gets (get_active_roles profile) ;;
  ret (mkResponse HTTP_201_CREATED
         (RegisterBody (fst refresh) access (User.username user) (User.email user)
                       (map Role.slug roles))).

(** [CustomTokenObtainPairSerializer.get_token] *)
Definition get_token (user : User.t) : M (Token.t * Time) :=
  token <- RefreshToken_for_user SIMPLE_JWT user ;;
  profile <- user_profile user ;;
  roles <- gets (get_active_roles profile) ;;
  let t := fst token in
  ret (Token.mk (Token.token_type t) (Token.jti t) (Token.user_id t) (Token.exp t)
                (Some (User.username user, User.email user, map Role.slug roles)),
       snd token).

(** [TokenObtainPairSerializer.validate], the parent the custom serializer
    hands its credentials to. *)
Definition TokenObtainPairSerializer_validate (username password : string) : M Response :=
  found <- authenticate username password ;;
  match found with
  | None => raise AuthenticationFailed
  | Some user =>
      refresh <- get_token user ;;
      access <- access_token SIMPLE_JWT refresh ;;
      ret (mkResponse 200 (TokenBody (fst refresh) access))
  end.

(** [CustomTokenObtainPairSerializer.validate] *)
Definition CustomTokenObtainPairSerializer_validate (attrs : LoginAttrs.t) : M Response :=
  let username := LoginAttrs.username attrs in
  username <-
    (if negb (username =? "")%string && contains_at username then
       try_except
         (user <- User_objects_get_email username ;;
          ret (User.username user))
         is_User_DoesNotExist
         (ret username)
     else ret username) ;;
  TokenObtainPairSerializer_validate username (LoginAttrs.password attrs).

(** Modelled from the spec: [RefreshToken(raw)] of the token library, which
    is not part of the repository.  A refresh token is accepted when it is
    a refresh token, has not expired and is not in the blacklist store;
    every failure is the same invalid-token error.  Returns the instant
    the token object was built at. *)
Definition RefreshToken_init (raw : Token.t) : M Time :=
  now <- timezone_now ;;
  bl <- gets blacklistedtoken ;;
  match Token.token_type raw with
  | Access => raise InvalidToken
  | Refresh =>
      if Token.exp raw <=? now then raise InvalidToken
      else if token_blacklist_installed && existsb (Z.eqb (Token.jti raw)) bl
      then raise InvalidToken
      else ret now
  end.

(** Modelled from the spec: [token.blacklist()], which records the token in
    the blacklist store (once). *)
Definition blacklist (tok : Token.t) : M unit :=
  bl <- gets blacklistedtoken ;;
  if existsb (Z.eqb (Token.jti tok)) bl then ret tt
  else modify (with_blacklistedtoken (bl ++ [Token.jti tok])).

(** Modelled from the spec: the refresh operation behind [RefreshTokenView],
    the token library's view, driven by the repository's [SIMPLE_JWT]
    settings: a valid, non-blacklisted refresh token buys a new access
    token; under rotation the old refresh token is blacklisted (when
    BLACKLIST_AFTER_ROTATION is set and the blacklist app is installed) and
    a new refresh token is issued. *)
Definition TokenRefreshSerializer_validate (cfg : SimpleJWT.t) (raw : Token.t) : M Response :=
  now <- RefreshToken_init raw ;;
  access <- access_token cfg (raw, now) ;;
  if SimpleJWT.ROTATE_REFRESH_TOKENS cfg then
    (if SimpleJWT.BLACKLIST_AFTER_ROTATION cfg && token_blacklist_installed
     then blacklist raw else ret tt) ;;;
    j <- uuid4 ;;
    ret (mkResponse 200
           (RefreshBody access
              (Some (Token.mk Refresh j (Token.user_id raw)
                              (now + SimpleJWT.REFRESH_TOKEN_LIFETIME cfg)
                              (Token.claims raw)))))
  else ret (mkResponse 200 (RefreshBody access None)).

(** [RefreshTokenView] *)
Definition RefreshTokenView_post (raw : Token.t) : M Response :=
  TokenRefreshSerializer_validate SIMPLE_JWT raw.

(** The fields of the login serializer belong to the token library.  The
    identifier is a plain character field, so it reaches [validate]
    stripped; [password_field] is what the library's password field makes
    of the password of the request, and [login_field_errors] are the
    field-level errors (a missing or blank field).  Nothing is assumed
    about either. *)
Variable password_field : string -> string.
Variable login_field_errors : LoginAttrs.t -> list (string * string).

(** [ObtainTokenPairView]: the library's view with the custom serializer;
    [validate] runs on what the fields return. *)
Definition ObtainTokenPairView_post (request_data : LoginAttrs.t) : M Response :=
  match login_field_errors request_data with
  | [] =>
      CustomTokenObtainPairSerializer_validate
        (LoginAttrs.mk (strip (LoginAttrs.username request_data))
                       (password_field (LoginAttrs.password request_data)))
  | errs => raise (ValidationError errs)
  end.

(** [LogoutView.post]: [request.data.get("refresh")] is evaluated before
    the [try] and fails on a body that is no JSON object; inside the [try],
    [except Exception] catches everything. *)
Definition LogoutView_post (request_data : RequestData) : M Response :=
  match request_data with
  | NotADict => raise AttributeError
  | Dict None =>
      ret (mkResponse HTTP_400_BAD_REQUEST (DetailBody "Refresh token required."))
  | Dict (Some raw) =>
      try_except
        (RefreshToken_init raw ;;;
         blacklist raw ;;;
         ret (mkResponse HTTP_205_RESET_CONTENT (DetailBody "Successfully logged out.")))
        (fun _ => true)
        (ret (mkResponse HTTP_400_BAD_REQUEST (DetailBody "Invalid or expired token.")))
  end.

(** ** accounts/urls.py: the endpoints that write *)

Inductive Request :=
| PostRegister (body : RegisterData.t)
| PostLogin (body : LoginAttrs.t)
| PostTokenRefresh (refresh : Token.t)
| PostLogout (body : RequestData).

Definition urlpatterns (rq : Request) : M Response :=
  match rq with
  | PostRegister body => RegisterView_create body
  | PostLogin body => ObtainTokenPairView_post body
  | PostTokenRefresh raw => RefreshTokenView_post raw
  | PostLogout raw => LogoutView_post raw
  end.

(** The world after a sequence of requests, whatever each one answered. *)
Fixpoint serve (rqs : list Request) (w : World) : World :=
  match rqs with
  | [] => w
  | rq :: rest => serve rest (snd (urlpatterns rq w))
  end.

(** ** accounts/admin.py *)

Definition with_accounts_role (v : list Role.t) (w : World) : World :=
  mkWorld (auth_user w) (accounts_profile w) v (accounts_userrole w)
          (blacklistedtoken w) (jti_next w) (ticks w).

Definition Role_set_is_active (b : bool) (r : Role.t) : Role.t :=
  Role.mk (Role.pk r) (Role.name r) (Role.slug r) (Role.description r) b.

(** Whether a role row belongs to the rows an administrator selected. *)
Definition role_selected (selected : list Z) (r : Role.t) : bool :=
  match Role.pk r with
  | Some k => existsb (Z.eqb k) selected
  | None => false
  end.

(** [queryset.update(is_active=b)] on the selected roles: the number of
    rows matched, which the action reports to the administrator. *)
Definition roles_update (selected : list Z) (b : bool) : M Z :=
  rs <- gets accounts_role ;;
  modify (with_accounts_role
            (map (fun r => if role_selected selected r
                           then Role_set_is_active b r else r) rs)) ;;;
  ret (Z.of_nat (List.length (filter (role_selected selected) rs))).

(** [RoleAdmin.activate_roles] and [RoleAdmin.deactivate_roles] *)
Definition activate_roles (selected : list Z) : M Z := roles_update selected true.
Definition deactivate_roles (selected : list Z) : M Z := roles_update selected false.

(** The loop both UserRole actions share:
    [for ur in queryset: if test(ur): method(ur, by=request.user); count += 1].
    The queryset is the list of row instances fetched when the loop starts. *)
Fixpoint for_each_mapping (test : UserRole.t -> bool)
    (method : UserRole.t -> option Z -> M UserRole.t)
    (request_user : Z) (queryset : list UserRole.t) (count : Z) : M Z :=
  match queryset with
  | [] => ret count
  | ur :: rest =>
      if test ur then
        method ur (Some request_user) ;;;
        for_each_mapping test method request_user rest (count + 1)
      else for_each_mapping test method request_user rest count
  end.

(** [UserRoleAdmin.revoke_mappings] *)
Definition revoke_mappings (request_user : Z) (queryset : list UserRole.t) : M Z :=
  for_each_mapping UserRole.is_active revoke request_user queryset 0.

(** [UserRoleAdmin.activate_mappings] *)
Definition activate_mappings (request_user : Z) (queryset : list UserRole.t) : M Z :=
  for_each_mapping (fun ur => negb (UserRole.is_active ur)) activate
                   request_user queryset 0.

(** ** [Role.save] (accounts/models.py) *)

Definition Role_set_slug (s : string) (r : Role.t) : Role.t :=
  Role.mk (Role.pk r) (Role.name r) s (Role.description r) (Role.is_active r).

Definition Role_set_pk (k : option Z) (r : Role.t) : Role.t :=
  Role.mk k (Role.name r) (Role.slug r) (Role.description r) (Role.is_active r).

(** The primary keys in use in accounts_role. *)
Definition role_pks (rs : list Role.t) : list Z :=
  flat_map (fun r => match Role.pk r with Some k => [k] | None => [] end) rs.

(** [name] and [slug] are both declared [unique=True]. *)
Definition role_clashes (self r : Role.t) : bool :=
  (Role.name r =? Role.name self)%string || (Role.slug r =? Role.slug self)%string.

Section RoleRegistry.

(** [django.utils.text.slugify].  Nothing is assumed about it. *)
Variable slugify : string -> string.

(** [Role.save]: fill in the slug when it is empty, then [Model.save]:
    an instance without primary key is INSERTed under a fresh key; one with
    a key is UPDATEd, or INSERTed when no row has the key.  A row that
    would repeat another row's name or slug is refused by the database. *)
Definition Role_save (self : Role.t) : M Role.t :=
  let self := if (Role.slug self =? "")%string
              then Role_set_slug (slugify (Role.name self)) self else self in
  rs <- gets accounts_role ;;
  match Role.pk self with
  | Some k =>
      if existsb (role_clashes self)
                 (filter (fun r => negb (pk_is k (Role.pk r))) rs)
      then raise (IntegrityError RoleModel)
      else if existsb (fun r => pk_is k (Role.pk r)) rs
      then modify (with_accounts_role
                     (map (fun r => if pk_is k (Role.pk r) then self else r) rs)) ;;;
           ret self
      else modify (with_accounts_role (rs ++ [self])) ;;; ret self
  | None =>
      if existsb (role_clashes self) rs then raise (IntegrityError RoleModel)
      else
        let r := Role_set_pk (Some (next_pk (role_pks rs))) self in
        modify (with_accounts_role (rs ++ [r])) ;;; ret r
  end.

End RoleRegistry.

(** ** Integrity constraints of the tables *)

(** Primary key of accounts_userrole. *)
Definition pk_unique (rows : list UserRole.t) : Prop :=
  NoDup (map UserRole.id rows).

(** [UserRole.Meta.unique_together = ("user", "role")] *)
Definition unique_together (rows : list UserRole.t) : Prop :=
  forall u r, (List.length (filter (userrole_for u r) rows) <= 1)%nat.

(** Foreign key accounts_profile.user_id -> auth_user.id *)
Definition profile_fk (w : World) : Prop :=
  forall p, In p (accounts_profile w) ->
            exists u, In u (auth_user w) /\ User.id u = Profile.user p.

(** What the update branch of [add_role] leaves in the row it found. *)
Definition reactivated (now : Time) (assigned_by : option Z) (note : option string)
    (ur : UserRole.t) : UserRole.t :=
  UserRole.mk (UserRole.id ur) (UserRole.user ur) (UserRole.role ur)
              true now (UserRole.revoked_at ur)
              (py_or assigned_by (UserRole.assigned_by ur))
              (if truthy_str note then note else UserRole.note ur).

Definition replace_row (ur : UserRole.t) (x : UserRole.t) : UserRole.t :=
  if UserRole.id x =? UserRole.id ur then ur else x.

(** ** Specification vocabulary *)

(** Both constraints of accounts_userrole. *)
Definition wf_ledger (rows : list UserRole.t) : Prop :=
  pk_unique rows /\ unique_together rows.

(** The foreign keys of accounts_userrole hold of every stored row. *)
Definition ledger_fk (w : World) : Prop :=
  forall x, In x (accounts_userrole w) -> fk_ok x w = true.

(** The row function of [remove_role]'s UPDATE. *)
Definition revoke_matching (u : Z) (pk : option Z) (now : Time) (x : UserRole.t) : UserRole.t :=
  if (UserRole.user x =? u) && pk_is (UserRole.role x) pk && UserRole.is_active x
  then UserRole.set_revoked_at (Some now) (UserRole.set_is_active false x)
  else x.

(** Any interleaving of assignments and revocations. *)
Inductive LedgerOp :=
| Assign (self : Profile.t) (role : Role.t) (assigned_by : option Z) (note : option string)
| Revoke (self : Profile.t) (role : Role.t).

Definition ledger_step (op : LedgerOp) (w : World) : World :=
  match op with
  | Assign self role assigned_by note => snd (add_role self role assigned_by note w)
  | Revoke self role => snd (remove_role self role w)
  end.

Definition ledger_run (ops : list LedgerOp) (w : World) : World :=
  fold_left (fun w op => ledger_step op w) ops w.

(** The user row [RegisterSerializer.create] inserts. *)
Definition new_user (data : RegisterData.t) (w : World) : User.t :=
  User.mk (next_pk (map User.id (auth_user w)))
          (RegisterData.username data) (RegisterData.email data)
          (make_password (RegisterData.password data))
          (RegisterData.first_name data) (RegisterData.last_name data) true.

(** The world once the user and, through the signal, the profile exist. *)
Definition registered (data : RegisterData.t) (w : World) : World :=
  with_accounts_profile
    (accounts_profile w ++ [Profile.mk (User.id (new_user data w)) None None])
    (with_auth_user (auth_user w ++ [new_user data w]) w).

(** Input that passes every check of [is_valid] and the unique username:
    no field-level error, and the stripped values agree on the password
    and name no stored email or username. *)
Definition valid_registration (data : RegisterData.t) (w : World) : Prop :=
  field_errors (auth_user w) data = [] /\
  strip (RegisterData.password data) = strip (RegisterData.password2 data) /\
  (forall u, In u (auth_user w) -> User.email u <> strip (RegisterData.email data)) /\
  (forall u, In u (auth_user w) -> User.username u <> strip (RegisterData.username data)).

(** A handler under which the blacklist store only grows. *)
Definition grows {A} (m : M A) : Prop :=
  forall w, incl (blacklistedtoken w) (blacklistedtoken (snd (m w))).

(** A handler that leaves the user, profile and role tables alone. *)
Definition keeps_accounts {A} (m : M A) : Prop :=
  forall w, auth_user (snd (m w)) = auth_user w /\
            accounts_profile (snd (m w)) = accounts_profile w /\
            accounts_role (snd (m w)) = accounts_role w.

(** Foreign key accounts_userrole.user_id -> auth_user.id *)
Definition userrole_fk (w : World) : Prop :=
  forall x, In x (accounts_userrole w) ->
            exists u, In u (auth_user w) /\ User.id u = UserRole.user x.

(** The account tables as registration leaves them: ids, usernames and
    emails are unique and users and profiles are in one-to-one
    correspondence. *)
Definition accounts_ok (w : World) : Prop :=
  NoDup (map User.id (auth_user w)) /\
  NoDup (map User.username (auth_user w)) /\
  NoDup (map User.email (auth_user w)) /\
  profile_fk w /\
  NoDup (map Profile.user (accounts_profile w)) /\
  (forall u, In u (auth_user w) ->
             exists p, In p (accounts_profile w) /\ Profile.user p = User.id u).

(** The constraints of accounts_role: primary key, unique name, unique
    slug. *)
Definition roles_ok (rs : list Role.t) : Prop :=
  NoDup (map Role.pk rs) /\
  (forall r, In r rs -> Role.pk r <> None) /\
  NoDup (map Role.name rs) /\
  NoDup (map Role.slug rs).

(** Name order of [Role.Meta.ordering]. *)
Definition name_le (r1 r2 : Role.t) : Prop :=
  String.leb (Role.name r1) (Role.name r2) = true.

(** ** Sample data *)

Definition clock0 (k : nat) : Time := 1000 + Z.of_nat k.
Definition hasher0 (raw : string) : string := ("pbkdf2$" ++ raw)%string.
Definition field_errors0 (us : list User.t) (data : RegisterData.t)
    : list (string * string) :=
  if existsb (fun u => (User.username u =? strip (RegisterData.username data))%string) us
  then [("username", "A user with that username already exists.")]
  else [].

(** Stand-ins for the login serializer's fields: a password field that
    strips like any character field, and the blank-field errors. *)
Definition password_field0 (raw : string) : string := strip raw.
Definition login_field_errors0 (data : LoginAttrs.t) : list (string * string) :=
  if (strip (LoginAttrs.username data) =? "")%string
  then [("username", "This field may not be blank.")]
  else if (password_field0 (LoginAttrs.password data) =? "")%string
       then [("password", "This field may not be blank.")]
       else [].

Definition role_member : Role.t := Role.mk (Some 2) "Member" "member" None true.
Definition role_member_off : Role.t := Role.mk (Some 2) "Member" "member" None false.
Definition role_unsaved : Role.t := Role.mk None "Draft" "draft" None true.

Definition alice : User.t :=
  User.mk 1 "alice" "alice@x.io" (hasher0 "pa") "Alice" "" true.
Definition profile_alice : Profile.t := Profile.mk 1 None None.
(** Two administrators: the one who assigned alice's role and another. *)
Definition root : User.t :=
  User.mk 7 "root" "root@x.io" (hasher0 "pr") "" "" true.
Definition sam : User.t :=
  User.mk 9 "sam" "sam@x.io" (hasher0 "ps") "" "" true.
Definition users0 : list User.t := [alice; root; sam].
Definition profiles0 : list Profile.t :=
  [profile_alice; Profile.mk 7 None None; Profile.mk 9 None None].

(** Alice's mapping to role 2, revoked at time 5. *)
Definition row_revoked : UserRole.t :=
  UserRole.mk 1 1 2 false 3 (Some 5) (Some 7) (Some "old").
Definition row_active : UserRole.t :=
  UserRole.mk 1 1 2 true 3 None (Some 7) None.

Definition world_revoked : World :=
  mkWorld users0 profiles0 [role_member] [row_revoked] [] 1 0.
Definition world_active : World :=
  mkWorld users0 profiles0 [role_member] [row_active] [] 1 0.
(** The role was deactivated after the mapping was made. *)
Definition world_role_off : World :=
  mkWorld users0 profiles0 [role_member_off] [row_active] [] 1 0.
Definition world_no_roles : World :=
  mkWorld [alice] [profile_alice] [] [] [] 1 0.
(** Role 2 exists and nobody has it yet. *)
Definition world_unassigned : World :=
  mkWorld users0 profiles0 [role_member] [] [] 1 0.

Definition signup_bob : RegisterData.t :=
  RegisterData.mk "bob" "bob@x.io" "pb" "pb" "Bob" "".
Definition signup_taken_email : RegisterData.t :=
  RegisterData.mk "bob" "alice@x.io" "pb" "pb" "Bob" "".
(** The two passwords differ by a trailing blank only, the email comes
    with blanks around it. *)
Definition signup_blanks : RegisterData.t :=
  RegisterData.mk "bob" " bob@x.io " "pb " "pb" "Bob" "".

(** Two accounts made through registration: the first one's username is
    the second one's email. *)
Definition carol : User.t :=
  User.mk 1 "a@x.io" "carol@y.io" (hasher0 "pc") "" "" true.
Definition dave : User.t :=
  User.mk 2 "dave" "a@x.io" (hasher0 "pd") "" "" true.
Definition world_shadowed : World :=
  mkWorld [carol; dave] [Profile.mk 1 None None; Profile.mk 2 None None] [] [] [] 1 0.

Definition refresh_alice : Token.t := Token.mk Refresh 40 1 90000 None.

Definition role_editor : Role.t :=
  Role.mk (Some 3) "Content Editor" "content-editor" None true.
Definition role_admin : Role.t := Role.mk (Some 4) "Admin" "admin" None true.
(** Alice holds three roles, stored in another order than by name. *)
Definition world_three_roles : World :=
  mkWorld users0 profiles0 [role_member; role_editor; role_admin]
          [row_active;
           UserRole.mk 2 1 3 true 4 None (Some 7) None;
           UserRole.mk 3 1 4 true 6 None (Some 9) None;
           UserRole.mk 4 7 4 true 2 None None None]
          [] 1 0.
(** A role about to be created, slug left to be derived. *)
Definition role_new : Role.t := Role.mk None "Content Editor" "" None true.

(** A stand-in slug function for ASCII names: lower case, blanks to
    hyphens. *)
Definition slug_char (c : ascii) : ascii :=
  let n := nat_of_ascii c in
  if (Nat.leb 65 n && Nat.leb n 90)%bool then ascii_of_nat (n + 32)
  else if Nat.eqb n 32 then "-"%char else c.
Fixpoint slugify0 (s : string) : string :=
  match s with
  | EmptyString => EmptyString
  | String c s' => String (slug_char c) (slugify0 s')
  end.

(** A user row whose profile row is missing. *)
Definition world_orphan : World := mkWorld [alice] [] [] [] [] 1 0.

(** Two accounts entered with the same email. *)
Definition erin : User.t := User.mk 1 "erin" "team@x.io" (hasher0 "pe") "" "" true.
Definition frank : User.t := User.mk 2 "frank" "team@x.io" (hasher0 "pf") "" "" true.
Definition world_shared_email : World :=
  mkWorld [erin; frank] [Profile.mk 1 None None; Profile.mk 2 None None] [] [] [] 1 0.

(** * Properties *)

(** ** List and key facts *)

Lemma next_pk_above (ids : list Z) (k : Z) : In k ids -> k < next_pk ids.
Proof.
  unfold next_pk. induction ids as [|i ids IH]; simpl; [tauto|].
  intros [->|Hin]; [lia|]. specialize (IH Hin). lia.
Qed.

Lemma next_pk_fresh (ids : list Z) : ~ In (next_pk ids) ids.
Proof. intros Hin. apply next_pk_above in Hin. lia. Qed.

Lemma filter_map_commute {A} (p : A -> bool) (f : A -> A) (l : list A) :
  (forall x, In x l -> p (f x) = p x) ->
  filter p (map f l) = map f (filter p l).
Proof.
  induction l as [|a l IH]; simpl; intros Hp; [reflexivity|].
  rewrite (Hp a (or_introl eq_refl)).
  rewrite IH by (intros x Hx; apply Hp; now right).
  now destruct (p a).
Qed.

Lemma pk_unique_inj (rows : list UserRole.t) (x y : UserRole.t) :
  pk_unique rows -> In x rows -> In y rows ->
  UserRole.id x = UserRole.id y -> x = y.
Proof.
  unfold pk_unique. induction rows as [|a rows IH]; simpl; [tauto|].
  intros Hnd Hx Hy Hid. inversion Hnd as [|? ? Hnotin Hnd']; subst.
  destruct Hx as [->|Hx], Hy as [->|Hy]; trivial.
  - exfalso. apply Hnotin. rewrite Hid. now apply in_map.
  - exfalso. apply Hnotin. rewrite <- Hid. now apply in_map.
  - now apply IH.
Qed.

Lemma filter_singleton_In {A} (p : A -> bool) (l : list A) (x : A) :
  filter p l = [x] -> In x l /\ p x = true.
Proof.
  intros H. apply filter_In. rewrite H. now left.
Qed.

Lemma existsb_id_In (rows : list UserRole.t) (ur : UserRole.t) (k : Z) :
  In ur rows -> UserRole.id ur = k ->
  existsb (fun x => UserRole.id x =? k) rows = true.
Proof.
  intros Hin Hid. apply existsb_exists. exists ur. split; [assumption|].
  now apply Z.eqb_eq.
Qed.

(** Replacing a row by one with the same key, user and role leaves every
    (user, role) filter flag as it was. *)
Lemma replace_row_pair (rows : list UserRole.t) (ur ur' : UserRole.t) (u r : Z) :
  pk_unique rows -> In ur rows ->
  UserRole.id ur' = UserRole.id ur ->
  UserRole.user ur' = UserRole.user ur ->
  UserRole.role ur' = UserRole.role ur ->
  forall x, In x rows ->
    userrole_for u r (replace_row ur' x) = userrole_for u r x.
Proof.
  intros Hpk Hin Hid Hu Hr x Hx. unfold replace_row.
  destruct (UserRole.id x =? UserRole.id ur') eqn:E; [|reflexivity].
  apply Z.eqb_eq in E. rewrite Hid in E.
  assert (x = ur) by (eapply pk_unique_inj; eauto). subst x.
  unfold userrole_for. now rewrite Hu, Hr.
Qed.

Lemma map_replace_row_id (rows : list UserRole.t) (ur' : UserRole.t) :
  map UserRole.id (map (replace_row ur') rows) = map UserRole.id rows.
Proof.
  rewrite map_map. apply map_ext. intros x. unfold replace_row.
  destruct (UserRole.id x =? UserRole.id ur') eqn:E; [|reflexivity].
  apply Z.eqb_eq in E. now rewrite E.
Qed.

(** ** How [add_role] runs *)

Lemma add_role_raises_unsaved self role ab note w :
  truthy_pk (Role.pk role) = false ->
  add_role self role ab note w =
    (Raise (ValueError "role must be saved (have a primary key) before assigning"), w).
Proof. intros H. unfold add_role. now rewrite H. Qed.

Lemma add_role_raises_inactive self role ab note w :
  truthy_pk (Role.pk role) = true -> Role.is_active role = false ->
  add_role self role ab note w =
    (Raise (ValueError "cannot assign an inactive Role"), w).
Proof. intros H1 H2. unfold add_role. now rewrite H1, H2. Qed.

(** The foreign keys look at the user and role tables only. *)
Lemma fk_ok_frame ur w w' :
  auth_user w' = auth_user w -> accounts_role w' = accounts_role w ->
  fk_ok ur w' = fk_ok ur w.
Proof.
  intros Hu Hr. unfold fk_ok, assigner_stored, user_stored, role_stored.
  now rewrite Hu, Hr.
Qed.

Lemma user_stored_frame k w w' :
  auth_user w' = auth_user w -> user_stored k w' = user_stored k w.
Proof. intros Hu. unfold user_stored. now rewrite Hu. Qed.

Lemma role_stored_frame k w w' :
  accounts_role w' = accounts_role w -> role_stored k w' = role_stored k w.
Proof. intros Hr. unfold role_stored. now rewrite Hr. Qed.

Lemma assigner_stored_frame ab w w' :
  auth_user w' = auth_user w -> assigner_stored ab w' = assigner_stored ab w.
Proof. intros Hu. destruct ab; simpl; [now apply user_stored_frame | reflexivity]. Qed.

Lemma fk_ok_true ur w :
  fk_ok ur w = true <->
  user_stored (UserRole.user ur) w = true /\
  role_stored (UserRole.role ur) w = true /\
  assigner_stored (UserRole.assigned_by ur) w = true.
Proof. unfold fk_ok. rewrite !andb_true_iff. tauto. Qed.

Lemma assigner_stored_py_or a b w :
  assigner_stored a w = true -> assigner_stored b w = true ->
  assigner_stored (py_or a b) w = true.
Proof. now destruct a. Qed.

Lemma add_role_guards self role rid ab note w :
  Role.pk role = Some rid -> rid <> 0 -> Role.is_active role = true ->
  add_role self role ab note w =
    (now <- timezone_now ;;
     p <- get_or_create (Profile.user self) rid ab note true now ;;
     let '(ur, created) := p in
     if negb created then
       let ur := UserRole.set_is_active true ur in
       let ur := UserRole.set_assigned_by (py_or ab (UserRole.assigned_by ur)) ur in
       let ur := if truthy_str note then UserRole.set_note note ur else ur in
       now' <- timezone_now ;;
       let ur := UserRole.set_assigned_at now' ur in
       save ur ;;;
       ret ur
     else ret ur) w.
Proof.
  intros Hpk Hnz Hact. unfold add_role. rewrite Hpk, Hact. simpl.
  assert ((rid =? 0) = false) as -> by now apply Z.eqb_neq.
  reflexivity.
Qed.

Lemma add_role_created self role rid ab note w :
  Role.pk role = Some rid -> rid <> 0 -> Role.is_active role = true ->
  filter (userrole_for (Profile.user self) rid) (accounts_userrole w) = [] ->
  let ur := UserRole.mk (next_pk (map UserRole.id (accounts_userrole w)))
                        (Profile.user self) rid true (clock (ticks w)) None ab note in
  fk_ok ur w = true ->
  add_role self role ab note w =
    (Ok ur, with_accounts_userrole (accounts_userrole w ++ [ur])
              (with_ticks (S (ticks w)) w)).
Proof.
  intros Hpk Hnz Hact Hnone ur Hfk.
  rewrite (add_role_guards _ _ rid) by assumption.
  unfold bind, timezone_now, get_or_create, bind, gets. simpl.
  rewrite Hnone. simpl.
  rewrite (fk_ok_frame _ w) by (now destruct w). fold ur. rewrite Hfk.
  destruct w; reflexivity.
Qed.

(** The INSERT refused: the clock has been read, nothing is stored. *)
Lemma add_role_created_refused self role rid ab note w :
  Role.pk role = Some rid -> rid <> 0 -> Role.is_active role = true ->
  filter (userrole_for (Profile.user self) rid) (accounts_userrole w) = [] ->
  fk_ok (UserRole.mk (next_pk (map UserRole.id (accounts_userrole w)))
                     (Profile.user self) rid true (clock (ticks w)) None ab note) w
    = false ->
  add_role self role ab note w =
    (Raise (IntegrityError UserRoleModel), with_ticks (S (ticks w)) w).
Proof.
  intros Hpk Hnz Hact Hnone Hfk.
  rewrite (add_role_guards _ _ rid) by assumption.
  unfold bind, timezone_now, get_or_create, bind, gets. simpl.
  rewrite Hnone. simpl.
  rewrite (fk_ok_frame _ w) by (now destruct w).
  destruct w; simpl in *. now rewrite Hfk.
Qed.

Lemma add_role_existing self role rid ab note w ur :
  Role.pk role = Some rid -> rid <> 0 -> Role.is_active role = true ->
  filter (userrole_for (Profile.user self) rid) (accounts_userrole w) = [ur] ->
  let ur' := reactivated (clock (S (ticks w))) ab note ur in
  fk_ok ur' w = true ->
  add_role self role ab note w =
    (Ok ur', with_accounts_userrole (map (replace_row ur') (accounts_userrole w))
               (with_ticks (S (S (ticks w))) w)).
Proof.
  intros Hpk Hnz Hact Hone ur' Hfk.
  rewrite (add_role_guards _ _ rid) by assumption.
  unfold bind, timezone_now, get_or_create, bind, gets. simpl.
  rewrite Hone. unfold ret, save, bind, gets, modify. simpl.
  destruct (filter_singleton_In _ _ _ Hone) as [Hin _].
  assert (Hex : forall v : UserRole.t, UserRole.id v = UserRole.id ur ->
            existsb (fun x => UserRole.id x =? UserRole.id v) (accounts_userrole w) = true).
  { intros v Hv. eapply existsb_id_In; eauto. }
  assert (Hfk' : forall v w', UserRole.user v = UserRole.user ur' ->
            UserRole.role v = UserRole.role ur' ->
            UserRole.assigned_by v = UserRole.assigned_by ur' ->
            auth_user w' = auth_user w -> accounts_role w' = accounts_role w ->
            fk_ok v w' = true).
  { intros v w' Hu Hr Ha Hau Har. rewrite (fk_ok_frame _ w) by assumption.
    rewrite <- Hfk. unfold fk_ok. now rewrite Hu, Hr, Ha. }
  subst ur'. unfold reactivated in *.
  destruct (truthy_str note); simpl;
    (rewrite Hfk' by (destruct w; reflexivity)); rewrite Hex by reflexivity;
    destruct w, ur; reflexivity.
Qed.

(** The UPDATE refused: both clock readings are taken, nothing is written. *)
Lemma add_role_existing_refused self role rid ab note w ur :
  Role.pk role = Some rid -> rid <> 0 -> Role.is_active role = true ->
  filter (userrole_for (Profile.user self) rid) (accounts_userrole w) = [ur] ->
  fk_ok (reactivated (clock (S (ticks w))) ab note ur) w = false ->
  add_role self role ab note w =
    (Raise (IntegrityError UserRoleModel), with_ticks (S (S (ticks w))) w).
Proof.
  intros Hpk Hnz Hact Hone Hfk.
  rewrite (add_role_guards _ _ rid) by assumption.
  unfold bind, timezone_now, get_or_create, bind, gets. simpl.
  rewrite Hone. unfold ret, save, bind, gets, modify. simpl.
  assert (Hfk' : forall v w', UserRole.user v = UserRole.user ur ->
            UserRole.role v = UserRole.role ur ->
            UserRole.assigned_by v = py_or ab (UserRole.assigned_by ur) ->
            auth_user w' = auth_user w -> accounts_role w' = accounts_role w ->
            fk_ok v w' = false).
  { intros v w' Hu Hr Ha Hau Har. rewrite (fk_ok_frame _ w) by assumption.
    rewrite <- Hfk. unfold fk_ok. now rewrite Hu, Hr, Ha. }
  destruct (truthy_str note); simpl;
    (rewrite Hfk' by (destruct w; reflexivity)); destruct w; reflexivity.
Qed.

(** ** The ledger keeps its constraints *)

Lemma remove_role_run self role rid w :
  Role.pk role = Some rid ->
  remove_role self role w =
    (Ok tt, with_accounts_userrole
              (map (revoke_matching (Profile.user self) (Role.pk role) (clock (ticks w)))
                   (accounts_userrole w))
              (with_ticks (S (ticks w)) w)).
Proof. intros Hpk. unfold remove_role. rewrite Hpk. destruct w; reflexivity. Qed.

Lemma remove_role_unsaved self role w :
  Role.pk role = None ->
  remove_role self role w =
    (Raise (ValueError "Model instances passed to related filters must be saved."), w).
Proof. intros Hpk. unfold remove_role. now rewrite Hpk. Qed.

Lemma revoke_matching_pair u pk now u' r' x :
  userrole_for u' r' (revoke_matching u pk now x) = userrole_for u' r' x.
Proof. unfold revoke_matching. now destruct (_ && _ && _). Qed.

Lemma revoke_matching_id u pk now x :
  UserRole.id (revoke_matching u pk now x) = UserRole.id x.
Proof. unfold revoke_matching. now destruct (_ && _ && _). Qed.

Lemma wf_ledger_map (f : UserRole.t -> UserRole.t) (rows : list UserRole.t) :
  (forall x, UserRole.id (f x) = UserRole.id x) ->
  (forall u r x, In x rows -> userrole_for u r (f x) = userrole_for u r x) ->
  wf_ledger rows -> wf_ledger (map f rows).
Proof.
  intros Hid Hpair [Hpk Hut]. split.
  - unfold pk_unique. rewrite map_map.
    rewrite (map_ext _ UserRole.id) by apply Hid. exact Hpk.
  - intros u r. rewrite filter_map_commute by (intros; now apply Hpair).
    rewrite length_map. apply Hut.
Qed.

Lemma wf_ledger_snoc (rows : list UserRole.t) (ur : UserRole.t) :
  UserRole.id ur = next_pk (map UserRole.id rows) ->
  filter (userrole_for (UserRole.user ur) (UserRole.role ur)) rows = [] ->
  wf_ledger rows -> wf_ledger (rows ++ [ur]).
Proof.
  intros Hid Hnone [Hpk Hut]. split.
  - unfold pk_unique in *. rewrite map_app. simpl.
    apply NoDup_app; [assumption | repeat constructor; simpl; tauto |].
    intros k Hk [<-|[]]. rewrite Hid in Hk. now apply next_pk_fresh in Hk.
  - intros u r. rewrite filter_app, length_app. simpl.
    destruct (userrole_for u r ur) eqn:E; simpl; [|specialize (Hut u r); lia].
    unfold userrole_for in E. apply andb_true_iff in E as [Eu Er].
    apply Z.eqb_eq in Eu, Er. subst u r. rewrite Hnone. simpl. lia.
Qed.

Lemma remove_role_wf self role w :
  wf_ledger (accounts_userrole w) ->
  wf_ledger (accounts_userrole (snd (remove_role self role w))).
Proof.
  intros Hwf. destruct (Role.pk role) as [rid|] eqn:Hpk.
  - rewrite (remove_role_run _ _ rid) by assumption. rewrite Hpk.
    destruct w; simpl in *.
    apply wf_ledger_map; trivial.
    + intros x. apply revoke_matching_id.
    + intros u r x _. apply revoke_matching_pair.
  - now rewrite remove_role_unsaved.
Qed.

Lemma revoke_matching_fk u pk now x w :
  fk_ok (revoke_matching u pk now x) w = fk_ok x w.
Proof. unfold revoke_matching. now destruct (_ && _ && _). Qed.

Lemma remove_role_fk self role w :
  ledger_fk w -> ledger_fk (snd (remove_role self role w)).
Proof.
  intros Hfk. destruct (Role.pk role) as [rid|] eqn:Hpk.
  - rewrite (remove_role_run _ _ rid) by assumption.
    intros y Hy. destruct w; simpl in *.
    apply in_map_iff in Hy as (x & <- & Hx).
    rewrite revoke_matching_fk. exact (Hfk x Hx).
  - now rewrite remove_role_unsaved.
Qed.

Lemma unique_together_cases (rows : list UserRole.t) (u r : Z) :
  unique_together rows ->
  filter (userrole_for u r) rows = [] \/
  exists ur, filter (userrole_for u r) rows = [ur].
Proof.
  intros Hut. specialize (Hut u r).
  destruct (filter (userrole_for u r) rows) as [|a [|b l]]; simpl in Hut.
  - now left.
  - right. now exists a.
  - lia.
Qed.

(** A successful assignment: the pair's only row is the returned one, it is
    active, and a row that was there before is the one that stays. *)
Lemma userrole_for_true u r x :
  userrole_for u r x = true <-> UserRole.user x = u /\ UserRole.role x = r.
Proof. unfold userrole_for. now rewrite andb_true_iff, !Z.eqb_eq. Qed.

(** What an assignment that is not refused leaves: the pair's only row is
    the returned one, it is active, and a row that was there before is the
    one that stays. *)
Lemma add_role_stored self role rid ab note w :
  wf_ledger (accounts_userrole w) ->
  Role.pk role = Some rid -> rid <> 0 -> Role.is_active role = true ->
  (exists ur1 w1,
    add_role self role ab note w = (Ok ur1, w1) /\
    filter (userrole_for (Profile.user self) rid) (accounts_userrole w1) = [ur1] /\
    UserRole.is_active ur1 = true /\
    wf_ledger (accounts_userrole w1) /\
    (forall ur0,
        filter (userrole_for (Profile.user self) rid) (accounts_userrole w) = [ur0] ->
        UserRole.id ur1 = UserRole.id ur0 /\
        List.length (accounts_userrole w1) = List.length (accounts_userrole w)) /\
    fk_ok ur1 w = true /\
    (forall y, In y (accounts_userrole w1) -> y = ur1 \/ In y (accounts_userrole w)) /\
    auth_user w1 = auth_user w /\ accounts_role w1 = accounts_role w) \/
  (exists k,
    add_role self role ab note w
      = (Raise (IntegrityError UserRoleModel), with_ticks k w) /\
    (user_stored (Profile.user self) w = false \/ role_stored rid w = false \/
     assigner_stored ab w = false \/
     exists ur0, In ur0 (accounts_userrole w) /\ fk_ok ur0 w = false)).
Proof.
  intros Hwf Hpk Hnz Hact.
  destruct (unique_together_cases _ (Profile.user self) rid (proj2 Hwf)) as [Hnone|[ur Hone]].
  - set (ur := UserRole.mk (next_pk (map UserRole.id (accounts_userrole w)))
                 (Profile.user self) rid true (clock (ticks w)) None ab note).
    destruct (fk_ok ur w) eqn:Hfk.
    + left. exists ur, (with_accounts_userrole (accounts_userrole w ++ [ur])
                         (with_ticks (S (ticks w)) w)).
      split; [now apply add_role_created|].
      destruct w; simpl in *. split; [|split; [reflexivity|split; [|split; [|split; [|split]]]]].
      * rewrite filter_app, Hnone. simpl. unfold userrole_for. simpl.
        now rewrite !Z.eqb_refl.
      * now apply wf_ledger_snoc.
      * intros ur0 H. rewrite H in Hnone. discriminate.
      * exact Hfk.
      * intros y Hy. apply in_app_iff in Hy as [Hy|[Hy|[]]]; auto.
      * split; reflexivity.
    + right. exists (S (ticks w)).
      split; [now apply add_role_created_refused with (rid := rid)|].
      unfold fk_ok in Hfk. simpl in Hfk. rewrite !andb_false_iff in Hfk. tauto.
  - destruct (filter_singleton_In _ _ _ Hone) as [Hin Hp].
    apply userrole_for_true in Hp as [Hu Hr].
    destruct Hwf as [Hpku Hut].
    assert (Hpair : forall now u r x, In x (accounts_userrole w) ->
              userrole_for u r (replace_row (reactivated now ab note ur) x)
              = userrole_for u r x).
    { intros now u r x Hx.
      apply replace_row_pair with (rows := accounts_userrole w) (ur := ur); trivial. }
    set (ur' := reactivated (clock (S (ticks w))) ab note ur).
    destruct (fk_ok ur' w) eqn:Hfk.
    + left. exists ur', (with_accounts_userrole (map (replace_row ur') (accounts_userrole w))
                           (with_ticks (S (S (ticks w))) w)).
      split; [now apply add_role_existing with (rid := rid)|].
      destruct w; simpl in *.
      split; [|split; [reflexivity|split; [split|split; [|split; [|split]]]]].
      * rewrite filter_map_commute by (intros; now apply Hpair).
        rewrite Hone. simpl. unfold replace_row. simpl. now rewrite Z.eqb_refl.
      * unfold pk_unique. unfold ur'. now rewrite map_replace_row_id.
      * intros u r. rewrite filter_map_commute by (intros; now apply Hpair).
        rewrite length_map. apply Hut.
      * intros ur0 H. rewrite Hone in H. inversion H. subst ur0.
        split; [reflexivity | apply length_map].
      * exact Hfk.
      * intros y Hy. apply in_map_iff in Hy as (x & <- & Hx). unfold replace_row.
        destruct (_ =? _); auto.
      * split; reflexivity.
    + right. exists (S (S (ticks w))).
      split; [now apply add_role_existing_refused with (rid := rid) (ur := ur)|].
      unfold fk_ok in Hfk. simpl in Hfk. rewrite Hu, Hr in Hfk.
      rewrite !andb_false_iff in Hfk.
      destruct Hfk as [[H|H]|H]; auto.
      destruct ab as [a|]; simpl in H; auto.
      do 3 right. exists ur. split; [assumption|].
      unfold fk_ok. rewrite H. apply andb_false_r.
Qed.

(** A successful assignment, when the foreign keys hold. *)
Lemma add_role_ok self role rid ab note w :
  wf_ledger (accounts_userrole w) -> ledger_fk w ->
  Role.pk role = Some rid -> rid <> 0 -> Role.is_active role = true ->
  user_stored (Profile.user self) w = true -> role_stored rid w = true ->
  assigner_stored ab w = true ->
  exists ur1 w1,
    add_role self role ab note w = (Ok ur1, w1) /\
    filter (userrole_for (Profile.user self) rid) (accounts_userrole w1) = [ur1] /\
    UserRole.is_active ur1 = true /\
    wf_ledger (accounts_userrole w1) /\
    (forall ur0,
        filter (userrole_for (Profile.user self) rid) (accounts_userrole w) = [ur0] ->
        UserRole.id ur1 = UserRole.id ur0 /\
        List.length (accounts_userrole w1) = List.length (accounts_userrole w)) /\
    ledger_fk w1 /\
    auth_user w1 = auth_user w /\ accounts_role w1 = accounts_role w.
Proof.
  intros Hwf Hlfk Hpk Hnz Hact Hus Hrs Has.
  destruct (add_role_stored self role rid ab note w Hwf Hpk Hnz Hact)
    as [(ur1 & w1 & Hrun & Hone & Ha & Hwf1 & Hsame & Hfk & Hrows & Hau & Har)
       |(k & _ & [H|[H|[H|(ur0 & Hin & H)]]])].
  - exists ur1, w1. repeat (split; [assumption|]).
    split; [|now split].
    intros y Hy. rewrite (fk_ok_frame _ w) by assumption.
    destruct (Hrows y Hy) as [->|Hy']; [assumption | now apply Hlfk].
  - congruence.
  - congruence.
  - congruence.
  - rewrite (Hlfk ur0 Hin) in H. discriminate.
Qed.

Lemma add_role_wf self role ab note w :
  wf_ledger (accounts_userrole w) ->
  wf_ledger (accounts_userrole (snd (add_role self role ab note w))).
Proof.
  intros Hwf.
  destruct (truthy_pk (Role.pk role)) eqn:Et.
  - destruct (Role.is_active role) eqn:Ea.
    + destruct (Role.pk role) as [rid|] eqn:Epk; [|discriminate].
      assert (rid <> 0) by (simpl in Et; apply Z.eqb_neq; now destruct (rid =? 0)).
      destruct (add_role_stored self role rid ab note w)
        as [(ur1 & w1 & Hrun & _ & _ & Hwf1 & _)|(k & Hrun & _)]; trivial.
      * now rewrite Hrun.
      * rewrite Hrun. now destruct w.
    + now rewrite add_role_raises_inactive.
  - now rewrite add_role_raises_unsaved.
Qed.

Lemma ledger_run_wf ops : forall w,
  wf_ledger (accounts_userrole w) ->
  wf_ledger (accounts_userrole (ledger_run ops w)).
Proof.
  unfold ledger_run. induction ops as [|op ops IH]; simpl; intros w Hwf; [assumption|].
  apply IH. destruct op; simpl; [now apply add_role_wf | now apply remove_role_wf].
Qed.

Lemma Forall2_map_same {A} (R : A -> A -> Prop) (f : A -> A) (l : list A) :
  (forall x, In x l -> R x (f x)) -> Forall2 R l (map f l).
Proof.
  induction l as [|a l IH]; simpl; intros H; constructor.
  - apply H. now left.
  - apply IH. intros x Hx. apply H. now right.
Qed.

Lemma pk_is_Some k pk : pk_is k pk = true <-> pk = Some k.
Proof.
  destruct pk as [j|]; simpl; [|split; discriminate].
  rewrite Z.eqb_eq. split; [now intros -> | now intros [= ->]].
Qed.

(** ** The claims about the ledger *)

(** C1.  When [add_role] finds the pair's row inactive it reactivates it:
    the row is active again, [assigned_at] is the clock reading taken in the
    update branch, [assigned_by] is replaced only by a non-null argument and
    [note] only by a non-empty one.  [revoked_at], however, is not cleared:
    the row keeps the value it had (while [UserRole.activate] resets it).
    That is the run in which the database accepts the UPDATE, the user, the
    role and the resulting assigner being stored; in the other run the call
    ends in IntegrityError after both clock readings, nothing written. *)
Theorem add_role_reactivation self role rid ab note w ur :
  pk_unique (accounts_userrole w) ->
  Role.pk role = Some rid -> rid <> 0 -> Role.is_active role = true ->
  filter (userrole_for (Profile.user self) rid) (accounts_userrole w) = [ur] ->
  UserRole.is_active ur = false ->
  (user_stored (Profile.user self) w && role_stored rid w
     && assigner_stored (py_or ab (UserRole.assigned_by ur)) w = true ->
   exists ur' w',
     add_role self role ab note w = (Ok ur', w') /\
     filter (userrole_for (Profile.user self) rid) (accounts_userrole w') = [ur'] /\
     UserRole.id ur' = UserRole.id ur /\
     UserRole.is_active ur' = true /\
     UserRole.assigned_at ur' = clock (S (ticks w)) /\
     UserRole.revoked_at ur' = UserRole.revoked_at ur /\
     UserRole.assigned_by ur' =
       match ab with Some a => Some a | None => UserRole.assigned_by ur end /\
     UserRole.note ur' =
       match note with
       | Some s => if (s =? "")%string then UserRole.note ur else Some s
       | None => UserRole.note ur
       end) /\
  (user_stored (Profile.user self) w && role_stored rid w
     && assigner_stored (py_or ab (UserRole.assigned_by ur)) w = false ->
   add_role self role ab note w =
     (Raise (IntegrityError UserRoleModel), with_ticks (S (S (ticks w))) w)).
Proof.
  intros Hpku Hpk Hnz Hact Hone _.
  destruct (filter_singleton_In _ _ _ Hone) as [Hin Hp].
  apply userrole_for_true in Hp as [Hu Hr].
  assert (Hfk : fk_ok (reactivated (clock (S (ticks w))) ab note ur) w =
                user_stored (Profile.user self) w && role_stored rid w
                && assigner_stored (py_or ab (UserRole.assigned_by ur)) w)
    by (unfold fk_ok; simpl; now rewrite Hu, Hr).
  split; intros Hst; rewrite <- Hfk in Hst;
    [|now apply add_role_existing_refused with (rid := rid) (ur := ur)].
  eexists; eexists.
  split; [apply add_role_existing with (rid := rid) (ur := ur); assumption|].
  split.
  - destruct w; simpl in *.
    rewrite filter_map_commute.
    + rewrite Hone. simpl. unfold replace_row. simpl. now rewrite Z.eqb_refl.
    + intros x Hx.
      apply replace_row_pair with (rows := accounts_userrole0) (ur := ur); trivial.
  - repeat split; simpl.
    + now destruct ab.
    + destruct note as [s|]; simpl; [|reflexivity]. now destruct (s =? "")%string.
Qed.

(** [UserRole.activate], the sibling path, does clear [revoked_at] in the
    row it hands to [save]. *)
Lemma activate_clears_revoked_at self by_ w :
  fk_ok (UserRole.set_assigned_by (py_or by_ (UserRole.assigned_by self)) self) w = true ->
  exists ur' w',
    activate self by_ w = (Ok ur', w') /\
    UserRole.is_active ur' = true /\
    UserRole.assigned_at ur' = clock (ticks w) /\
    UserRole.revoked_at ur' = None.
Proof.
  intros Hfk.
  assert (Hfk' : forall v w', UserRole.user v = UserRole.user self ->
            UserRole.role v = UserRole.role self ->
            UserRole.assigned_by v = py_or by_ (UserRole.assigned_by self) ->
            auth_user w' = auth_user w -> accounts_role w' = accounts_role w ->
            fk_ok v w' = true).
  { intros v w' Hu Hr Ha Hau Har. rewrite (fk_ok_frame _ w) by assumption.
    rewrite <- Hfk. unfold fk_ok. simpl. now rewrite Hu, Hr, Ha. }
  unfold activate, bind, timezone_now, save, bind, gets, modify, ret. simpl.
  destruct by_; simpl; (rewrite Hfk' by (destruct w; reflexivity));
    destruct (existsb _ _); simpl; eexists; eexists; repeat split.
Qed.

(** C2.  On a ledger that satisfies its key constraints and foreign keys,
    for an assignable role whose row is stored, a stored user and assigners
    that are absent or stored: assigning twice leaves exactly one row for
    the pair, active, and the second call adds no row; assign, revoke,
    assign ends with the same row id and no second row; and no interleaving
    of assignments and revocations, accepted or refused, ever yields two
    rows for one (user, role) pair. *)
Theorem one_row_per_user_role self role rid w ab1 n1 ab2 n2 :
  wf_ledger (accounts_userrole w) -> ledger_fk w ->
  Role.pk role = Some rid -> rid <> 0 -> Role.is_active role = true ->
  user_stored (Profile.user self) w = true -> role_stored rid w = true ->
  assigner_stored ab1 w = true -> assigner_stored ab2 w = true ->
  exists ur1 w1 ur2 w2 w3 ur3 w4,
    add_role self role ab1 n1 w = (Ok ur1, w1) /\
    (* assign again *)
    add_role self role ab2 n2 w1 = (Ok ur2, w2) /\
    filter (userrole_for (Profile.user self) rid) (accounts_userrole w2) = [ur2] /\
    UserRole.is_active ur2 = true /\
    UserRole.id ur2 = UserRole.id ur1 /\
    List.length (accounts_userrole w2) = List.length (accounts_userrole w1) /\
    (* revoke, then assign again *)
    remove_role self role w1 = (Ok tt, w3) /\
    add_role self role ab2 n2 w3 = (Ok ur3, w4) /\
    filter (userrole_for (Profile.user self) rid) (accounts_userrole w4) = [ur3] /\
    UserRole.is_active ur3 = true /\
    UserRole.id ur3 = UserRole.id ur1 /\
    List.length (accounts_userrole w4) = List.length (accounts_userrole w1) /\
    (* whatever happens next *)
    (forall ops u r,
        (List.length (filter (userrole_for u r)
                             (accounts_userrole (ledger_run ops w))) <= 1)%nat).
Proof.
  intros Hwf Hlfk Hpk Hnz Hact Hus Hrs Ha1 Ha2.
  destruct (add_role_ok self role rid ab1 n1 w Hwf Hlfk Hpk Hnz Hact Hus Hrs Ha1)
    as (ur1 & w1 & Hrun1 & Hone1 & Hact1 & Hwf1 & _ & Hlfk1 & Hau1 & Har1).
  assert (Hus1 : user_stored (Profile.user self) w1 = true)
    by now rewrite (user_stored_frame _ w).
  assert (Hrs1 : role_stored rid w1 = true) by now rewrite (role_stored_frame _ w).
  assert (Ha21 : assigner_stored ab2 w1 = true)
    by now rewrite (assigner_stored_frame _ w).
  destruct (add_role_ok self role rid ab2 n2 w1 Hwf1 Hlfk1 Hpk Hnz Hact Hus1 Hrs1 Ha21)
    as (ur2 & w2 & Hrun2 & Hone2 & Hact2 & Hwf2 & Hsame2 & _).
  destruct (Hsame2 ur1 Hone1) as [Hid2 Hlen2].
  pose proof (remove_role_run self role rid w1 Hpk) as Hrun3.
  set (w3 := with_accounts_userrole
               (map (revoke_matching (Profile.user self) (Role.pk role) (clock (ticks w1)))
                    (accounts_userrole w1))
               (with_ticks (S (ticks w1)) w1)) in *.
  assert (Hled3 : accounts_userrole w3 =
                  map (revoke_matching (Profile.user self) (Role.pk role) (clock (ticks w1)))
                      (accounts_userrole w1)) by (destruct w1; reflexivity).
  assert (Hwf3 : wf_ledger (accounts_userrole w3)).
  { pose proof (remove_role_wf self role w1 Hwf1) as H. now rewrite Hrun3 in H. }
  assert (Hlfk3 : ledger_fk w3).
  { pose proof (remove_role_fk self role w1 Hlfk1) as H. now rewrite Hrun3 in H. }
  assert (Hus3 : user_stored (Profile.user self) w3 = true)
    by (rewrite (user_stored_frame _ w1); [assumption | now destruct w1]).
  assert (Hrs3 : role_stored rid w3 = true)
    by (rewrite (role_stored_frame _ w1); [assumption | now destruct w1]).
  assert (Ha23 : assigner_stored ab2 w3 = true)
    by (rewrite (assigner_stored_frame _ w1); [assumption | now destruct w1]).
  assert (Hone3 : filter (userrole_for (Profile.user self) rid) (accounts_userrole w3)
                  = [revoke_matching (Profile.user self) (Role.pk role) (clock (ticks w1)) ur1]).
  { rewrite Hled3, filter_map_commute by (intros; apply revoke_matching_pair).
    now rewrite Hone1. }
  destruct (add_role_ok self role rid ab2 n2 w3 Hwf3 Hlfk3 Hpk Hnz Hact Hus3 Hrs3 Ha23)
    as (ur3 & w4 & Hrun4 & Hone4 & Hact4 & Hwf4 & Hsame4 & _).
  destruct (Hsame4 _ Hone3) as [Hid4 Hlen4].
  exists ur1, w1, ur2, w2, w3, ur3, w4.
  repeat (split; [assumption|]).
  split; [now rewrite Hid4, revoke_matching_id|].
  split; [now rewrite Hlen4, Hled3, length_map|].
  intros ops u r. now apply ledger_run_wf.
Qed.

(** C7.  [add_role] with a role that has no primary key, or with an inactive
    role, raises and leaves the whole world, the ledger included, as it
    was. *)
Theorem add_role_rejects self role ab note w :
  Role.pk role = None \/ Role.is_active role = false ->
  exists msg, add_role self role ab note w = (Raise (ValueError msg), w).
Proof.
  intros H. destruct (truthy_pk (Role.pk role)) eqn:Et.
  - destruct H as [H|H]; [rewrite H in Et; discriminate|].
    eexists. now apply add_role_raises_inactive.
  - eexists. now apply add_role_raises_unsaved.
Qed.

(** C8.  [remove_role] with a saved role returns normally; row by row, a
    row of this user and role that is active comes out with
    [is_active = false] and [revoked_at] set to the clock reading, nothing
    else changed, and every other row comes out as it was; when the pair has
    no active row the ledger is unchanged; the other tables are never
    touched.  With a role that has no primary key the filter cannot be
    built: the call raises ValueError before the clock is read, and the
    world is as it was. *)
Theorem remove_role_revokes self role w :
  (Role.pk role <> None ->
   exists w',
    remove_role self role w = (Ok tt, w') /\
    Forall2 (fun x y =>
               (UserRole.user x = Profile.user self /\
                Role.pk role = Some (UserRole.role x) /\
                UserRole.is_active x = true ->
                y = UserRole.mk (UserRole.id x) (UserRole.user x) (UserRole.role x)
                                false (UserRole.assigned_at x) (Some (clock (ticks w)))
                                (UserRole.assigned_by x) (UserRole.note x)) /\
               (~ (UserRole.user x = Profile.user self /\
                   Role.pk role = Some (UserRole.role x) /\
                   UserRole.is_active x = true) ->
                y = x))
            (accounts_userrole w) (accounts_userrole w') /\
    ((forall x, In x (accounts_userrole w) ->
                ~ (UserRole.user x = Profile.user self /\
                   Role.pk role = Some (UserRole.role x) /\
                   UserRole.is_active x = true)) ->
     accounts_userrole w' = accounts_userrole w) /\
    auth_user w' = auth_user w /\
    accounts_profile w' = accounts_profile w /\
    accounts_role w' = accounts_role w /\
    blacklistedtoken w' = blacklistedtoken w) /\
  (Role.pk role = None ->
   remove_role self role w =
     (Raise (ValueError "Model instances passed to related filters must be saved."), w)).
Proof.
  split; [|apply remove_role_unsaved].
  intros Hsaved.
  assert (exists rid, Role.pk role = Some rid) as [rid Hpk]
    by (destruct (Role.pk role); [eauto | congruence]).
  clear Hsaved.
  eexists. split; [now apply remove_role_run with (rid := rid)|].
  assert (Hspec : forall x,
    (UserRole.user x =? Profile.user self) && pk_is (UserRole.role x) (Role.pk role)
      && UserRole.is_active x = true <->
    (UserRole.user x = Profile.user self /\ Role.pk role = Some (UserRole.role x) /\
     UserRole.is_active x = true)).
  { intros x. rewrite !andb_true_iff, Z.eqb_eq, pk_is_Some. tauto. }
  destruct w; simpl. split; [|split; [|repeat split]].
  - apply Forall2_map_same. intros x _. unfold revoke_matching.
    destruct (_ && _ && _) eqn:E.
    + split; [reflexivity|]. intros Hn. exfalso. apply Hn. now apply Hspec.
    + split; [|reflexivity]. intros Hm. apply Hspec in Hm. congruence.
  - intros Hnone. rewrite <- (map_id accounts_userrole0) at 2.
    apply map_ext_in. intros x Hx. unfold revoke_matching.
    destruct (_ && _ && _) eqn:E; [|reflexivity].
    exfalso. apply (Hnone x Hx). now apply Hspec.
Qed.

(** C3.  [has_role] answers true exactly when some ledger row of the user
    is active and points to a role row that carries the slug and is itself
    active; so it answers false as soon as every role with that slug is
    inactive, whatever the ledger rows say. *)
Theorem has_role_iff self role_slug w :
  (has_role self role_slug w = true <->
   exists x r,
     In x (accounts_userrole w) /\ In r (accounts_role w) /\
     UserRole.user x = Profile.user self /\
     Role.pk r = Some (UserRole.role x) /\
     Role.slug r = role_slug /\
     UserRole.is_active x = true /\
     Role.is_active r = true) /\
  ((forall r, In r (accounts_role w) -> Role.slug r = role_slug ->
              Role.is_active r = false) ->
   has_role self role_slug w = false).
Proof.
  clear clock make_password field_errors password_field login_field_errors.
  assert (Hiff : has_role self role_slug w = true <->
   exists x r,
     In x (accounts_userrole w) /\ In r (accounts_role w) /\
     UserRole.user x = Profile.user self /\
     Role.pk r = Some (UserRole.role x) /\
     Role.slug r = role_slug /\
     UserRole.is_active x = true /\
     Role.is_active r = true).
  { unfold has_role. rewrite existsb_exists. split.
    - intros (x & Hx & H). rewrite !andb_true_iff in H.
      destruct H as [[Hu Ha] Hr]. apply existsb_exists in Hr as (r & Hr & H).
      rewrite !andb_true_iff in H. destruct H as [[Hpk Hs] Hra].
      exists x, r. apply Z.eqb_eq in Hu. apply pk_is_Some in Hpk.
      apply String.eqb_eq in Hs. tauto.
    - intros (x & r & Hx & Hr & Hu & Hpk & Hs & Ha & Hra).
      exists x. split; [assumption|]. rewrite !andb_true_iff. repeat split.
      + now apply Z.eqb_eq.
      + assumption.
      + apply existsb_exists. exists r. split; [assumption|].
        rewrite !andb_true_iff. repeat split; trivial.
        * now apply pk_is_Some.
        * now apply String.eqb_eq. }
  split; [exact Hiff|].
  intros Hoff. destruct (has_role self role_slug w) eqn:E; [|reflexivity].
  destruct (proj1 Hiff eq_refl) as (x & r & _ & Hr & _ & _ & Hs & _ & Hra).
  rewrite (Hoff r Hr Hs) in Hra. discriminate.
Qed.

(** ** Registration *)

Lemma existsb_false_forall {A} (p : A -> bool) (l : list A) :
  (forall x, In x l -> p x = false) -> existsb p l = false.
Proof.
  intros H. destruct (existsb p l) eqn:E; [|reflexivity].
  apply existsb_exists in E as (x & Hx & Hp). rewrite (H x Hx) in Hp. discriminate.
Qed.

Lemma find_snoc_fresh {A} (p : A -> bool) (l : list A) (a : A) :
  (forall x, In x l -> p x = false) -> p a = true -> find p (l ++ [a]) = Some a.
Proof.
  induction l as [|x l IH]; simpl; intros Hl Ha; [now rewrite Ha|].
  rewrite (Hl x (or_introl eq_refl)). apply IH; [|assumption].
  intros y Hy. apply Hl. now right.
Qed.

Lemma is_valid_ok data w :
  valid_registration data w -> is_valid data w = (Ok (to_internal_value data), w).
Proof.
  intros (Hf & Hpw & Hem & _). unfold is_valid, bind, gets. simpl.
  rewrite Hf. unfold RegisterSerializer_validate. simpl.
  rewrite Hpw, String.eqb_refl. simpl. unfold bind, gets. simpl.
  rewrite existsb_false_forall; [reflexivity|].
  intros u Hu. apply String.eqb_neq. now apply Hem.
Qed.

Lemma user_stored_snoc (u : User.t) (w w' : World) :
  auth_user w' = (auth_user w ++ [u])%list -> user_stored (User.id u) w' = true.
Proof.
  intros H. unfold user_stored. rewrite H, existsb_app. simpl.
  now rewrite Z.eqb_refl, orb_true_r.
Qed.

Lemma no_profile_for_new_user data w :
  profile_fk w ->
  forall p, In p (accounts_profile w) ->
            (Profile.user p =? User.id (new_user data w)) = false.
Proof.
  intros Hfk p Hp. apply Z.eqb_neq. destruct (Hfk p Hp) as (u & Hu & <-).
  simpl. pose proof (next_pk_above (map User.id (auth_user w)) (User.id u)
                       (in_map User.id _ _ Hu)). lia.
Qed.

Lemma RegisterSerializer_create_ok data w :
  (forall u, In u (auth_user w) -> User.username u <> RegisterData.username data) ->
  profile_fk w ->
  RegisterSerializer_create data w = (Ok (new_user data w), registered data w).
Proof.
  intros Hun Hfk. unfold RegisterSerializer_create, bind, gets. simpl.
  rewrite existsb_false_forall
    by (intros u Hu; apply String.eqb_neq; now apply Hun).
  unfold modify, create_or_ensure_profile, Profile_objects_create, bind, gets. simpl.
  rewrite existsb_false_forall
    by (intros p Hp; now apply (no_profile_for_new_user data w Hfk)).
  rewrite (user_stored_snoc (new_user data w) w) by (now destruct w).
  destruct w; reflexivity.
Qed.

(** What is left of a registration once [is_valid] has returned: the
    request values occur stripped only. *)
Ltac validated data w Hvalid :=
  rewrite is_valid_ok by assumption;
  let Hun := fresh "Hun" in
  assert (Hun : forall u, In u (auth_user w) ->
                  User.username u <> RegisterData.username (to_internal_value data))
    by apply Hvalid;
  clear Hvalid; revert Hun; generalize (to_internal_value data);
  clear data; intros data Hun.

Lemma user_profile_registered data w :
  profile_fk w ->
  forall w', accounts_profile w' = accounts_profile (registered data w) ->
  user_profile (new_user data w) w' =
    (Ok (Profile.mk (User.id (new_user data w)) None None), w').
Proof.
  intros Hfk w' Hps. unfold user_profile, bind, gets. simpl. rewrite Hps.
  destruct w; simpl.
  rewrite find_snoc_fresh; [reflexivity| |apply Z.eqb_refl].
  intros p Hp. now apply (no_profile_for_new_user data _ Hfk).
Qed.


(** C9.  With valid input and no role of id 2, the lookup's DoesNotExist is
    swallowed and registration answers 201 with a refresh and an access
    token, the username, the email and the user's active role slugs; the
    user and the profile have been stored and the ledger is untouched.
    The values stored and answered are the validated ones, [attrs]. *)
Theorem register_without_default_role data w :
  valid_registration data w -> profile_fk w ->
  (forall r, In r (accounts_role w) -> Role.pk r <> Some 2) ->
  let attrs := to_internal_value data in
  exists refresh access w',
    RegisterView_create data w =
      (Ok (mkResponse HTTP_201_CREATED
             (RegisterBody refresh access
                           (RegisterData.username attrs) (RegisterData.email attrs)
                           (map Role.slug
                                (get_active_roles
                                   (Profile.mk (User.id (new_user attrs w)) None None) w')))),
       w') /\
    Token.token_type refresh = Refresh /\
    Token.token_type access = Access /\
    Token.user_id refresh = User.id (new_user attrs w) /\
    Token.user_id access = User.id (new_user attrs w) /\
    auth_user w' = (auth_user w ++ [new_user attrs w])%list /\
    accounts_profile w' =
      (accounts_profile w ++ [Profile.mk (User.id (new_user attrs w)) None None])%list /\
    accounts_userrole w' = accounts_userrole w /\
    accounts_role w' = accounts_role w.
Proof.
  intros Hvalid Hfk Hnone attrs. subst attrs.
  unfold RegisterView_create, bind.
  validated data w Hvalid.
  rewrite RegisterSerializer_create_ok by assumption.
  unfold try_except, bind, Role_objects_get, bind, gets.
  assert (Hf : filter (fun r => pk_is 2 (Role.pk r))
                      (accounts_role (registered data w)) = []).
  { destruct w; simpl in *. clear - Hnone.
    induction accounts_role0 as [|r l IH]; simpl; [reflexivity|].
    destruct (pk_is 2 (Role.pk r)) eqn:E.
    - apply pk_is_Some in E. exfalso. apply (Hnone r); [now left|assumption].
    - apply IH. intros x Hx. apply Hnone. now right. }
  rewrite Hf. simpl.
  unfold RefreshToken_for_user, bind, timezone_now, uuid4, ret, access_token, bind. simpl.
  rewrite user_profile_registered by (trivial; destruct w; reflexivity).
  unfold gets. destruct w; simpl.
  do 3 eexists. split; [reflexivity|]. repeat split.
Qed.

(** C10.  With valid input and a role of id 2 that is inactive, [add_role]
    raises ValueError, which the [except Role.DoesNotExist] clause does not
    catch: the request ends in that exception, with the user and the
    profile already stored and no token issued. *)
Theorem register_with_inactive_default_role data w r :
  valid_registration data w -> profile_fk w ->
  filter (fun x => pk_is 2 (Role.pk x)) (accounts_role w) = [r] ->
  Role.is_active r = false ->
  let attrs := to_internal_value data in
  exists w',
    RegisterView_create data w =
      (Raise (ValueError "cannot assign an inactive Role"), w') /\
    auth_user w' = (auth_user w ++ [new_user attrs w])%list /\
    accounts_profile w' =
      (accounts_profile w ++ [Profile.mk (User.id (new_user attrs w)) None None])%list /\
    accounts_userrole w' = accounts_userrole w /\
    jti_next w' = jti_next w.
Proof.
  intros Hvalid Hfk Hone Hoff attrs. subst attrs.
  destruct (filter_singleton_In _ _ _ Hone) as [_ Hpk]. apply pk_is_Some in Hpk.
  unfold RegisterView_create, bind.
  validated data w Hvalid.
  rewrite RegisterSerializer_create_ok by assumption.
  unfold try_except, bind, Role_objects_get, bind, gets.
  assert (Hf : filter (fun x => pk_is 2 (Role.pk x))
                      (accounts_role (registered data w)) = [r])
    by (destruct w; exact Hone).
  rewrite Hf. simpl.
  rewrite user_profile_registered by (trivial; destruct w; reflexivity).
  rewrite add_role_raises_inactive by (trivial; now rewrite Hpk).
  simpl. eexists. split; [reflexivity|]. destruct w; repeat split.
Qed.

(** ** Login *)

Lemma contains_at_nonempty s : contains_at s = true -> (s =? "")%string = false.
Proof. destruct s; [discriminate | reflexivity]. Qed.

(** C5, as the code has it.  Let [u] be the one stored user whose email is
    [e], with [e] containing "@".  Logging in with [e] gives the very same
    result and world as logging in with [u]'s username [n] and the same
    password, provided [n] is not itself redirected elsewhere: [n] holds no
    "@", or no user has [n] as email, or the one user who has is named
    [n]. *)
Theorem login_email_same_as_username w u p :
  filter (fun x => (User.email x =? User.email u)%string) (auth_user w) = [u] ->
  contains_at (User.email u) = true ->
  (contains_at (User.username u) = false \/
   filter (fun x => (User.email x =? User.username u)%string) (auth_user w) = [] \/
   exists v,
     filter (fun x => (User.email x =? User.username u)%string) (auth_user w) = [v] /\
     User.username v = User.username u) ->
  CustomTokenObtainPairSerializer_validate (LoginAttrs.mk (User.email u) p) w =
  CustomTokenObtainPairSerializer_validate (LoginAttrs.mk (User.username u) p) w.
Proof.
  intros He Hat Hn.
  assert (Hl : CustomTokenObtainPairSerializer_validate (LoginAttrs.mk (User.email u) p) w
               = TokenObtainPairSerializer_validate (User.username u) p w).
  { unfold CustomTokenObtainPairSerializer_validate. simpl.
    rewrite Hat, (contains_at_nonempty _ Hat). simpl.
    unfold bind at 1. unfold try_except, bind, User_objects_get_email, bind, gets.
    simpl. now rewrite He. }
  rewrite Hl. unfold CustomTokenObtainPairSerializer_validate. simpl.
  destruct (negb (User.username u =? "")%string && contains_at (User.username u)) eqn:Ec.
  - apply andb_true_iff in Ec as [_ Ec].
    destruct Hn as [Hn|[Hn|(v & Hn & Hv)]]; [congruence| |];
      unfold bind at 1; unfold try_except, bind, User_objects_get_email, bind, gets;
      simpl; rewrite Hn; simpl; [reflexivity | now rewrite Hv].
  - reflexivity.
Qed.

(** ** Token refresh *)

Lemma grows_ret {A} (a : A) : grows (ret a).
Proof. intros w. apply incl_refl. Qed.

Lemma grows_raise {A} (e : Exn) : grows (@raise A e).
Proof. intros w. apply incl_refl. Qed.

Lemma grows_gets {A} (f : World -> A) : grows (gets f).
Proof. intros w. apply incl_refl. Qed.

Lemma grows_bind {A B} (m : M A) (k : A -> M B) :
  grows m -> (forall a, grows (k a)) -> grows (bind m k).
Proof.
  intros Hm Hk w. unfold bind. specialize (Hm w).
  destruct (m w) as [[a|e] w1]; simpl in *; [|assumption].
  eapply incl_tran; [exact Hm | apply Hk].
Qed.

Lemma grows_try_except {A} (m : M A) handles (h : M A) :
  grows m -> grows h -> grows (try_except m handles h).
Proof.
  intros Hm Hh w. unfold try_except. specialize (Hm w).
  destruct (m w) as [[a|e] w1]; simpl in *; [assumption|].
  destruct (handles e); simpl; [|assumption].
  eapply incl_tran; [exact Hm | apply Hh].
Qed.

Lemma grows_modify (f : World -> World) :
  (forall w, incl (blacklistedtoken w) (blacklistedtoken (f w))) -> grows (modify f).
Proof. intros H w. apply H. Qed.

Lemma grows_timezone_now : grows timezone_now.
Proof. intros w. apply incl_refl. Qed.

Lemma grows_uuid4 : grows uuid4.
Proof. intros w. apply incl_refl. Qed.

Ltac grows_step :=
  first
    [ apply grows_ret | apply grows_raise | apply grows_gets
    | apply grows_timezone_now | apply grows_uuid4
    | apply grows_bind; [|intro]
    | apply grows_try_except
    | apply grows_modify; intro; first [apply incl_refl | apply incl_appl, incl_refl]
    | match goal with
      | |- grows (match ?x with _ => _ end) => destruct x
      end ].

Lemma grows_add_role self role ab note : grows (add_role self role ab note).
Proof. unfold add_role, get_or_create, save. repeat grows_step. Qed.

Lemma grows_user_profile user : grows (user_profile user).
Proof. unfold user_profile. repeat grows_step. Qed.

Lemma grows_RegisterView_create data : grows (RegisterView_create data).
Proof.
  unfold RegisterView_create, is_valid, RegisterSerializer_validate,
    RegisterSerializer_create, create_or_ensure_profile, Role_objects_get,
    RefreshToken_for_user, access_token.
  repeat first [apply grows_add_role | apply grows_user_profile | grows_step].
Qed.

Lemma grows_login attrs : grows (ObtainTokenPairView_post attrs).
Proof.
  unfold ObtainTokenPairView_post, CustomTokenObtainPairSerializer_validate,
    TokenObtainPairSerializer_validate, User_objects_get_email, authenticate,
    get_token, RefreshToken_for_user, access_token.
  repeat first [apply grows_user_profile | grows_step].
Qed.

Lemma grows_blacklist tok : grows (blacklist tok).
Proof.
  intros w. unfold blacklist, bind, gets, modify, ret. simpl.
  destruct (existsb _ _); simpl; [apply incl_refl|].
  destruct w; simpl. apply incl_appl, incl_refl.
Qed.

Lemma grows_RefreshToken_init raw : grows (RefreshToken_init raw).
Proof. unfold RefreshToken_init. repeat grows_step. Qed.

Lemma grows_refresh raw : grows (RefreshTokenView_post raw).
Proof.
  unfold RefreshTokenView_post, TokenRefreshSerializer_validate, access_token.
  repeat first [apply grows_blacklist | apply grows_RefreshToken_init | grows_step].
Qed.

Lemma grows_logout raw : grows (LogoutView_post raw).
Proof.
  unfold LogoutView_post.
  repeat first [apply grows_blacklist | apply grows_RefreshToken_init | grows_step].
Qed.

Lemma grows_urlpatterns rq : grows (urlpatterns rq).
Proof.
  destruct rq; simpl;
    [apply grows_RegisterView_create | apply grows_login
    | apply grows_refresh | apply grows_logout].
Qed.

Lemma serve_grows rqs : forall w,
  incl (blacklistedtoken w) (blacklistedtoken (serve rqs w)).
Proof.
  induction rqs as [|rq rqs IH]; simpl; intros w; [apply incl_refl|].
  eapply incl_tran; [apply grows_urlpatterns | apply IH].
Qed.

Lemma existsb_eqb_In (k : Z) (l : list Z) : existsb (Z.eqb k) l = true <-> In k l.
Proof.
  rewrite existsb_exists. split.
  - intros (x & Hx & E). apply Z.eqb_eq in E. now subst.
  - intros H. exists k. split; [assumption | apply Z.eqb_refl].
Qed.

Lemma refresh_blacklists raw w r w1 :
  RefreshTokenView_post raw w = (Ok r, w1) -> In (Token.jti raw) (blacklistedtoken w1).
Proof.
  unfold RefreshTokenView_post, TokenRefreshSerializer_validate, bind,
    RefreshToken_init, bind, timezone_now, gets. simpl.
  destruct (Token.token_type raw); [|discriminate].
  destruct (Token.exp raw <=? clock (ticks w)); [discriminate|].
  destruct (existsb (Z.eqb (Token.jti raw)) (blacklistedtoken w)) eqn:E; [discriminate|].
  unfold access_token, bind, uuid4, ret, blacklist, bind, gets, modify. simpl.
  rewrite E. simpl. intros [= _ <-]. destruct w; simpl.
  apply in_or_app. right. now left.
Qed.

Lemma refresh_rejects_blacklisted raw w :
  In (Token.jti raw) (blacklistedtoken w) ->
  exists w', RefreshTokenView_post raw w = (Raise InvalidToken, w').
Proof.
  intros Hin. apply existsb_eqb_In in Hin.
  unfold RefreshTokenView_post, TokenRefreshSerializer_validate, bind,
    RefreshToken_init, bind, timezone_now, gets. simpl.
  destruct (Token.token_type raw); [|eexists; reflexivity].
  destruct (Token.exp raw <=? clock (ticks w)); [eexists; reflexivity|].
  rewrite Hin. eexists; reflexivity.
Qed.

Lemma refresh_issues_pair raw w r w1 :
  RefreshTokenView_post raw w = (Ok r, w1) ->
  exists access refresh',
    r = mkResponse 200 (RefreshBody access (Some refresh')) /\
    Token.token_type access = Access /\
    Token.token_type refresh' = Refresh /\
    Token.user_id refresh' = Token.user_id raw.
Proof.
  unfold RefreshTokenView_post, TokenRefreshSerializer_validate, bind,
    RefreshToken_init, bind, timezone_now, gets. simpl.
  destruct (Token.token_type raw); [|discriminate].
  destruct (Token.exp raw <=? clock (ticks w)); [discriminate|].
  destruct (existsb (Z.eqb (Token.jti raw)) (blacklistedtoken w)) eqn:E; [discriminate|].
  unfold access_token, bind, uuid4, ret, blacklist, bind, gets, modify. simpl.
  rewrite E. simpl. intros [= <- _]. do 2 eexists. repeat split.
Qed.

(** C6.  A refresh that succeeds answers with a new access token and a new
    refresh token, and from then on presenting the redeemed token again
    raises the invalid-token error: at once, and after any further
    sequence of register, login, refresh and logout requests. *)
Theorem refresh_token_single_use raw w r w1 :
  RefreshTokenView_post raw w = (Ok r, w1) ->
  (exists access refresh',
     r = mkResponse 200 (RefreshBody access (Some refresh')) /\
     Token.token_type access = Access /\
     Token.token_type refresh' = Refresh /\
     Token.user_id refresh' = Token.user_id raw) /\
  forall rqs, exists w2,
    RefreshTokenView_post raw (serve rqs w1) = (Raise InvalidToken, w2).
Proof.
  intros Hok. split; [now apply refresh_issues_pair with (w := w) (w1 := w1)|].
  intros rqs. apply refresh_rejects_blacklisted.
  apply (serve_grows rqs w1). now apply refresh_blacklists with (w := w) (r := r).
Qed.

(** * Further properties of the code *)

(** ** Ordering by name *)

Lemma insert_by_name_perm r l : Permutation (r :: l) (insert_by_name r l).
Proof.
  induction l as [|x l IH]; simpl; [apply Permutation_refl|].
  destruct (String.leb (Role.name r) (Role.name x)); [apply Permutation_refl|].
  eapply Permutation_trans; [apply perm_swap | now apply perm_skip].
Qed.

Lemma order_by_name_perm l : Permutation l (order_by_name l).
Proof.
  unfold order_by_name. induction l as [|x l IH]; simpl; [constructor|].
  eapply Permutation_trans; [apply perm_skip, IH | apply insert_by_name_perm].
Qed.

Lemma In_order_by_name r l : In r (order_by_name l) <-> In r l.
Proof.
  split; apply Permutation_in;
    [apply Permutation_sym|]; apply order_by_name_perm.
Qed.

Lemma ascii_compare_trans a b c :
  Ascii.compare a b <> Gt -> Ascii.compare b c <> Gt -> Ascii.compare a c <> Gt.
Proof.
  unfold Ascii.compare. rewrite !N.compare_le_iff. intros. lia.
Qed.

Lemma ascii_compare_Eq_eq a b : Ascii.compare a b = Eq -> a = b.
Proof. apply Ascii.compare_eq_iff. Qed.

Lemma ascii_compare_Lt_trans a b c :
  Ascii.compare a b = Lt -> Ascii.compare b c = Lt -> Ascii.compare a c = Lt.
Proof.
  unfold Ascii.compare. rewrite !N.compare_lt_iff. intros. lia.
Qed.

Lemma string_compare_trans s1 : forall s2 s3,
  String.compare s1 s2 <> Gt -> String.compare s2 s3 <> Gt ->
  String.compare s1 s3 <> Gt.
Proof.
  induction s1 as [|a s1 IH]; intros [|b s2] [|c s3]; simpl; try congruence.
  destruct (Ascii.compare a b) eqn:Eab; try congruence;
    destruct (Ascii.compare b c) eqn:Ebc; try congruence; intros H12 H23.
  - apply ascii_compare_Eq_eq in Eab, Ebc. subst.
    assert (Ascii.compare c c = Eq) as ->
      by (unfold Ascii.compare; apply N.compare_refl).
    now apply IH with (s2 := s2).
  - apply ascii_compare_Eq_eq in Eab. subst. now rewrite Ebc.
  - apply ascii_compare_Eq_eq in Ebc. subst. now rewrite Eab.
  - now rewrite (ascii_compare_Lt_trans _ _ _ Eab Ebc).
Qed.

Lemma string_leb_trans s1 s2 s3 :
  String.leb s1 s2 = true -> String.leb s2 s3 = true -> String.leb s1 s3 = true.
Proof.
  unfold String.leb. intros H12 H23.
  pose proof (string_compare_trans s1 s2 s3) as H.
  destruct (String.compare s1 s2); destruct (String.compare s2 s3);
    destruct (String.compare s1 s3); try reflexivity; try discriminate;
    exfalso; apply H; congruence.
Qed.

Lemma insert_by_name_sorted r l :
  StronglySorted name_le l -> StronglySorted name_le (insert_by_name r l).
Proof.
  induction 1 as [|x l Hs IH Hall]; simpl.
  - repeat constructor.
  - destruct (String.leb (Role.name r) (Role.name x)) eqn:E.
    + constructor; [now constructor|]. constructor; [exact E|].
      eapply Forall_impl; [|exact Hall]. intros y Hy.
      unfold name_le in *. eapply string_leb_trans; eauto.
    + constructor; [assumption|].
      assert (Hxr : name_le x r).
      { unfold name_le. destruct (String.leb_total (Role.name x) (Role.name r));
          [assumption | congruence]. }
      apply (Permutation_Forall (insert_by_name_perm r l)). now constructor.
Qed.

Lemma order_by_name_sorted l : StronglySorted name_le (order_by_name l).
Proof.
  unfold order_by_name. induction l as [|x l IH]; simpl; [constructor|].
  now apply insert_by_name_sorted.
Qed.

(** ** Reading the ledger *)

Lemma In_get_active_roles self w r :
  In r (get_active_roles self w) <->
  In r (accounts_role w) /\ Role.is_active r = true /\
  exists x, In x (accounts_userrole w) /\
            UserRole.user x = Profile.user self /\
            UserRole.is_active x = true /\
            Role.pk r = Some (UserRole.role x).
Proof.
  unfold get_active_roles. rewrite in_flat_map. split.
  - intros (r' & Hr' & Hin). apply (proj1 (In_order_by_name _ _)) in Hr'.
    destruct (Role.is_active r') eqn:Ea; [|destruct Hin].
    apply in_map_iff in Hin as (x & <- & Hx).
    apply filter_In in Hx as [Hx Hp]. rewrite !andb_true_iff in Hp.
    destruct Hp as [[Hu Hxa] Hpk]. apply Z.eqb_eq in Hu. apply pk_is_Some in Hpk.
    split; [assumption|]. split; [assumption|]. exists x. auto.
  - intros (Hr & Ha & x & Hx & Hu & Hxa & Hpk).
    exists r. split; [now apply In_order_by_name|].
    rewrite Ha. apply in_map_iff. exists x. split; [reflexivity|].
    apply filter_In. split; [assumption|]. rewrite !andb_true_iff.
    repeat split; [now apply Z.eqb_eq | assumption | now apply pk_is_Some].
Qed.

(** X1.  [has_role] and [get_active_roles] agree: the user has the slug
    exactly when one of the roles listed for the user carries it. *)
Theorem has_role_iff_listed self role_slug w :
  has_role self role_slug w = true <->
  exists r, In r (get_active_roles self w) /\ Role.slug r = role_slug.
Proof.
  clear clock make_password field_errors password_field login_field_errors.
  unfold has_role. rewrite existsb_exists. split.
  - intros (x & Hx & H). rewrite !andb_true_iff in H.
    destruct H as [[Hu Ha] Hr]. apply existsb_exists in Hr as (r & Hr & H).
    rewrite !andb_true_iff in H. destruct H as [[Hpk Hs] Hra].
    apply Z.eqb_eq in Hu. apply pk_is_Some in Hpk. apply String.eqb_eq in Hs.
    exists r. split; [|assumption]. apply In_get_active_roles.
    repeat split; trivial. now exists x.
  - intros (r & Hin & Hs). apply In_get_active_roles in Hin
      as (Hr & Ha & x & Hx & Hu & Hxa & Hpk).
    exists x. split; [assumption|]. rewrite !andb_true_iff. repeat split.
    + now apply Z.eqb_eq.
    + assumption.
    + apply existsb_exists. exists r. split; [assumption|].
      rewrite !andb_true_iff. repeat split; trivial.
      * now apply pk_is_Some.
      * now apply String.eqb_eq.
Qed.

Lemma chunks_NoDup {A} (f : A -> list A) (l : list A) :
  NoDup l -> (forall x, f x = [] \/ f x = [x]) -> NoDup (flat_map f l).
Proof.
  intros Hnd Hf. induction Hnd as [|a l Hnotin Hnd IH]; simpl; [constructor|].
  destruct (Hf a) as [->| ->]; simpl; [assumption|].
  constructor; [|assumption]. intros Hin. apply in_flat_map in Hin as (y & Hy & Hin).
  destruct (Hf y) as [E|E]; rewrite E in Hin; simpl in Hin; [tauto|].
  destruct Hin as [->|[]]. contradiction.
Qed.

Lemma chunks_sorted {A} (R : A -> A -> Prop) (f : A -> list A) (l : list A) :
  StronglySorted R l -> (forall x, f x = [] \/ f x = [x]) ->
  StronglySorted R (flat_map f l).
Proof.
  intros Hs Hf. induction Hs as [|a l Hs IH Hall]; simpl; [constructor|].
  destruct (Hf a) as [->| ->]; simpl; [assumption|].
  constructor; [assumption|]. apply Forall_forall. intros y Hin.
  apply in_flat_map in Hin as (z & Hz & Hin).
  destruct (Hf z) as [E|E]; rewrite E in Hin; simpl in Hin; [tauto|].
  destruct Hin as [->|[]]. rewrite Forall_forall in Hall. now apply Hall.
Qed.

Lemma filter_sub_length {A} (p q : A -> bool) (l : list A) :
  (forall x, p x = true -> q x = true) ->
  (List.length (filter p l) <= List.length (filter q l))%nat.
Proof.
  intros Hpq. induction l as [|a l IH]; simpl; [lia|].
  destruct (p a) eqn:Ep.
  - rewrite (Hpq a Ep). simpl. lia.
  - destruct (q a); simpl; lia.
Qed.

(** X2.  When the ledger satisfies [unique_together] and the role table
    holds no row twice, [get_active_roles] lists no role twice (the
    queryset has no [distinct()], the constraint does the work), every
    listed role is active, and the list is in ascending name order. *)
Theorem get_active_roles_distinct_sorted self w :
  unique_together (accounts_userrole w) ->
  NoDup (accounts_role w) ->
  NoDup (get_active_roles self w) /\
  Forall (fun r => Role.is_active r = true) (get_active_roles self w) /\
  StronglySorted name_le (get_active_roles self w).
Proof.
  intros Hut Hnd.
  assert (Hchunk : forall r,
    (if Role.is_active r then
       map (fun _ => r)
           (filter (fun x => (UserRole.user x =? Profile.user self)
                             && UserRole.is_active x
                             && pk_is (UserRole.role x) (Role.pk r))
                   (accounts_userrole w))
     else []) = [] \/
    (if Role.is_active r then
       map (fun _ => r)
           (filter (fun x => (UserRole.user x =? Profile.user self)
                             && UserRole.is_active x
                             && pk_is (UserRole.role x) (Role.pk r))
                   (accounts_userrole w))
     else []) = [r]).
  { intros r. destruct (Role.is_active r); [|now left].
    destruct (Role.pk r) as [rid|] eqn:Epk.
    - pose proof (filter_sub_length
                    (fun x => (UserRole.user x =? Profile.user self)
                              && UserRole.is_active x
                              && pk_is (UserRole.role x) (Some rid))
                    (userrole_for (Profile.user self) rid)
                    (accounts_userrole w)) as Hlen.
      specialize (Hut (Profile.user self) rid).
      destruct (filter _ (accounts_userrole w)) as [|a [|b l]] in Hlen |- *.
      + now left.
      + now right.
      + simpl in Hlen. exfalso.
        assert (2 <= 1)%nat; [|lia].
        etransitivity; [|exact Hut]. etransitivity; [|apply Hlen].
        * simpl. lia.
        * intros x Hx. rewrite !andb_true_iff in Hx. destruct Hx as [[Hu _] Hp].
          unfold userrole_for. rewrite Hu. simpl in Hp.
          rewrite Z.eqb_sym. exact Hp.
    - left. clear Hut. induction (accounts_userrole w) as [|a l IH]; simpl; [reflexivity|].
      rewrite !andb_false_r. exact IH. }
  split; [|split].
  - unfold get_active_roles. apply chunks_NoDup; [|exact Hchunk].
    apply (Permutation_NoDup (order_by_name_perm _) Hnd).
  - apply Forall_forall. intros r Hr. now apply In_get_active_roles in Hr.
  - unfold get_active_roles. apply chunks_sorted; [|exact Hchunk].
    apply order_by_name_sorted.
Qed.

(** ** Assigning and revoking, seen through the queries *)

(** X3.  The first assignment of a pair: when the ledger has no row for
    (user, role), the role is saved and active, and the user, the role row
    and the assigner (when there is one) are stored, [add_role] appends
    one row and changes nothing else.  The row has a fresh id, is active,
    has [assigned_at] equal to the clock reading, no [revoked_at], and
    [assigned_by] and [note] exactly as passed (an empty note included). *)
Theorem add_role_first_assignment self role rid ab note w :
  Role.pk role = Some rid -> rid <> 0 -> Role.is_active role = true ->
  (forall x, In x (accounts_userrole w) ->
             ~ (UserRole.user x = Profile.user self /\ UserRole.role x = rid)) ->
  user_stored (Profile.user self) w = true -> role_stored rid w = true ->
  assigner_stored ab w = true ->
  exists ur w',
    add_role self role ab note w = (Ok ur, w') /\
    accounts_userrole w' = (accounts_userrole w ++ [ur])%list /\
    ~ In (UserRole.id ur) (map UserRole.id (accounts_userrole w)) /\
    ur = UserRole.mk (UserRole.id ur) (Profile.user self) rid true
                     (clock (ticks w)) None ab note /\
    auth_user w' = auth_user w /\
    accounts_profile w' = accounts_profile w /\
    accounts_role w' = accounts_role w /\
    blacklistedtoken w' = blacklistedtoken w.
Proof.
  intros Hpk Hnz Hact Hnone Hus Hrs Has.
  assert (Hf : filter (userrole_for (Profile.user self) rid) (accounts_userrole w) = []).
  { induction (accounts_userrole w) as [|a l IH]; simpl; [reflexivity|].
    destruct (userrole_for (Profile.user self) rid a) eqn:E.
    - exfalso. apply (Hnone a); [now left|]. unfold userrole_for in E.
      apply andb_true_iff in E as [E1 E2]. now rewrite Z.eqb_eq in E1, E2.
    - apply IH. intros x Hx. apply Hnone. now right. }
  eexists; eexists.
  split; [apply add_role_created with (rid := rid); trivial;
          apply fk_ok_true; simpl; auto|].
  destruct w; simpl. repeat split. apply next_pk_fresh.
Qed.


(** X5.  Assignment takes effect: after [add_role] with a saved, active
    role whose row in the role table is active, on a ledger whose foreign
    keys hold, for a stored user and an assigner that is absent or stored,
    the user has the role's slug and the role is among the user's active
    roles. *)
Theorem add_role_then_has_role self role rid ab note w r :
  wf_ledger (accounts_userrole w) -> ledger_fk w ->
  Role.pk role = Some rid -> rid <> 0 -> Role.is_active role = true ->
  In r (accounts_role w) -> Role.pk r = Some rid -> Role.is_active r = true ->
  user_stored (Profile.user self) w = true -> assigner_stored ab w = true ->
  has_role self (Role.slug r) (snd (add_role self role ab note w)) = true /\
  In r (get_active_roles self (snd (add_role self role ab note w))).
Proof.
  intros Hwf Hlfk Hpk Hnz Hact Hr Hrpk Hra Hus Has.
  assert (Hrs : role_stored rid w = true).
  { unfold role_stored. apply existsb_exists. exists r. split; [assumption|].
    now apply pk_is_Some. }
  destruct (add_role_ok self role rid ab note w Hwf Hlfk Hpk Hnz Hact Hus Hrs Has)
    as (ur1 & w1 & Hrun & Hone & Hact1 & _ & _ & _ & _ & Hroles).
  rewrite Hrun. simpl.
  destruct (filter_singleton_In _ _ _ Hone) as [Hin Hp].
  unfold userrole_for in Hp. apply andb_true_iff in Hp as [Hu Hrr].
  apply Z.eqb_eq in Hu, Hrr.
  assert (Hlisted : In r (get_active_roles self w1)).
  { apply In_get_active_roles. rewrite Hroles. repeat split; trivial.
    exists ur1. repeat split; trivial. now rewrite Hrr. }
  split; [|exact Hlisted].
  unfold has_role. apply existsb_exists. exists ur1. split; [assumption|].
  rewrite Hu, Hact1, Z.eqb_refl. simpl.
  apply existsb_exists. exists r. rewrite Hroles. split; [assumption|].
  rewrite Hrpk, Hra, String.eqb_refl, Hrr. simpl. now rewrite Z.eqb_refl.
Qed.

Lemma In_revoke_matching u pk now x :
  revoke_matching u pk now x = x \/
  (UserRole.user x = u /\ pk = Some (UserRole.role x) /\ UserRole.is_active x = true /\
   UserRole.is_active (revoke_matching u pk now x) = false).
Proof.
  unfold revoke_matching.
  destruct (_ && _ && _) eqn:E; [right | now left].
  rewrite !andb_true_iff, Z.eqb_eq, pk_is_Some in E. tauto.
Qed.

Lemma revoke_matching_other u pk now x :
  ~ (UserRole.user x = u /\ pk = Some (UserRole.role x) /\ UserRole.is_active x = true) ->
  revoke_matching u pk now x = x.
Proof.
  intros H. destruct (In_revoke_matching u pk now x) as [E|E]; [exact E|].
  exfalso. apply H. tauto.
Qed.

(** X6.  Revocation takes effect, and only where it should: after
    [remove_role self role], a role is listed for a profile exactly when
    it was listed before and it is not the revoked role of the revoking
    user.  In particular the user no longer has a slug that only the
    revoked role carries. *)
Theorem remove_role_then_listed self role w :
  (forall p r,
      In r (get_active_roles p (snd (remove_role self role w))) <->
      In r (get_active_roles p w) /\
      ~ (Profile.user p = Profile.user self /\ Role.pk r = Role.pk role)) /\
  (forall s,
      (forall r, In r (accounts_role w) -> Role.slug r = s -> Role.pk r = Role.pk role) ->
      has_role self s (snd (remove_role self role w)) = false).
Proof.
  assert (Hcases : Role.pk role = None \/ exists rid, Role.pk role = Some rid)
    by (destruct (Role.pk role); eauto).
  destruct Hcases as [Hunsaved|[rid Hsaved]].
  { rewrite remove_role_unsaved by assumption. simpl. split.
    - intros p r. split; [|tauto]. intros Hin. split; [assumption|].
      intros [_ Hr]. apply In_get_active_roles in Hin as (_ & _ & x & _ & _ & _ & Hx).
      congruence.
    - intros s Hs. destruct (has_role self s w) eqn:E; [|reflexivity]. exfalso.
      unfold has_role in E. apply existsb_exists in E as (y & _ & H).
      rewrite !andb_true_iff in H. destruct H as [_ Hr].
      apply existsb_exists in Hr as (r & Hr & H).
      rewrite !andb_true_iff in H. destruct H as [[Hp Hslug] _].
      apply pk_is_Some in Hp. apply String.eqb_eq in Hslug.
      rewrite (Hs r Hr Hslug) in Hp. congruence. }
  rewrite (remove_role_run _ _ rid w Hsaved). simpl.
  set (f := revoke_matching (Profile.user self) (Role.pk role) (clock (ticks w))).
  assert (Hled : accounts_userrole
                   (with_accounts_userrole (map f (accounts_userrole w))
                                           (with_ticks (S (ticks w)) w))
                 = map f (accounts_userrole w)) by (destruct w; reflexivity).
  assert (Hroles : accounts_role
                     (with_accounts_userrole (map f (accounts_userrole w))
                                             (with_ticks (S (ticks w)) w))
                   = accounts_role w) by (destruct w; reflexivity).
  assert (Hlisted : forall p r,
      In r (get_active_roles p
              (with_accounts_userrole (map f (accounts_userrole w))
                                      (with_ticks (S (ticks w)) w))) <->
      In r (get_active_roles p w) /\
      ~ (Profile.user p = Profile.user self /\ Role.pk r = Role.pk role)).
  { intros p r. rewrite !In_get_active_roles, Hled, Hroles. split.
    - intros (Hr & Ha & y & Hy & Hu & Hya & Hpk).
      apply in_map_iff in Hy as (x & <- & Hx).
      destruct (In_revoke_matching (Profile.user self) (Role.pk role)
                  (clock (ticks w)) x) as [E|(_ & _ & _ & E)];
        fold f in E; [|congruence].
      rewrite E in *. split.
      + repeat split; trivial. exists x. auto.
      + intros [Hp Hrole]. unfold f, revoke_matching in E.
        assert (Hm : (UserRole.user x =? Profile.user self)
                     && pk_is (UserRole.role x) (Role.pk role)
                     && UserRole.is_active x = true).
        { rewrite !andb_true_iff, Z.eqb_eq, pk_is_Some. repeat split; congruence. }
        rewrite Hm in E. rewrite <- E in Hya. simpl in Hya. discriminate.
    - intros [(Hr & Ha & x & Hx & Hu & Hxa & Hpk) Hnot].
      repeat split; trivial. exists x. repeat split; trivial.
      apply in_map_iff. exists x. split; [|assumption].
      apply revoke_matching_other. intros (H1 & H2 & _). apply Hnot.
      split; congruence. }
  split; [exact Hlisted|].
  intros s Hs.
  destruct (has_role self s _) eqn:E; [|reflexivity]. exfalso.
  unfold has_role in E. apply existsb_exists in E as (y & Hy & H).
  rewrite !andb_true_iff in H. destruct H as [[Hu Hya] Hr].
  apply existsb_exists in Hr as (r & Hr & H).
  rewrite !andb_true_iff in H. destruct H as [[Hpk Hslug] Hra].
  apply Z.eqb_eq in Hu. apply pk_is_Some in Hpk. apply String.eqb_eq in Hslug.
  rewrite Hroles in Hr. rewrite Hled in Hy.
  assert (Hin : In r (get_active_roles self
              (with_accounts_userrole (map f (accounts_userrole w))
                                      (with_ticks (S (ticks w)) w)))).
  { apply In_get_active_roles. rewrite Hled, Hroles. repeat split; trivial.
    exists y. auto. }
  apply Hlisted in Hin as [_ Hnot]. apply Hnot. split; [reflexivity|].
  now apply Hs.
Qed.

Lemma save_existing ur w :
  fk_ok ur w = true ->
  existsb (fun x => UserRole.id x =? UserRole.id ur) (accounts_userrole w) = true ->
  save ur w =
    (Ok tt, with_accounts_userrole (map (replace_row ur) (accounts_userrole w)) w).
Proof. intros Hfk H. unfold save, bind, gets. simpl. now rewrite Hfk, H. Qed.

Lemma save_refused ur w :
  fk_ok ur w = false -> save ur w = (Raise (IntegrityError UserRoleModel), w).
Proof. intros Hfk. unfold save, bind, gets. simpl. now rewrite Hfk. Qed.

(** A row written back with another assigner keeps its foreign keys when
    the new assigner is stored. *)
Lemma fk_ok_reassigned (x v : UserRole.t) (by_ : option Z) w w' :
  fk_ok x w = true -> assigner_stored by_ w = true ->
  auth_user w' = auth_user w -> accounts_role w' = accounts_role w ->
  UserRole.user v = UserRole.user x -> UserRole.role v = UserRole.role x ->
  UserRole.assigned_by v = py_or by_ (UserRole.assigned_by x) ->
  fk_ok v w' = true.
Proof.
  intros Hfk Hby Hau Har Hu Hr Ha. rewrite (fk_ok_frame _ w) by assumption.
  apply fk_ok_true in Hfk as (H1 & H2 & H3). apply fk_ok_true.
  rewrite Hu, Hr, Ha. repeat split; trivial. now apply assigner_stored_py_or.
Qed.

Lemma map_replace_row_self (rows : list UserRole.t) (x ur : UserRole.t) :
  pk_unique rows -> In x rows -> UserRole.id ur = UserRole.id x ->
  In ur (map (replace_row ur) rows) /\
  (forall y, In y rows -> y <> x -> In y (map (replace_row ur) rows)) /\
  (forall y, In y (map (replace_row ur) rows) -> y = ur \/ (In y rows /\ y <> x)).
Proof.
  intros Hpk Hx Hid. repeat split.
  - apply in_map_iff. exists x. split; [|assumption].
    unfold replace_row. now rewrite Hid, Z.eqb_refl.
  - intros y Hy Hne. apply in_map_iff. exists y. split; [|assumption].
    unfold replace_row. destruct (UserRole.id y =? UserRole.id ur) eqn:E; [|reflexivity].
    apply Z.eqb_eq in E. rewrite Hid in E. exfalso. apply Hne.
    eapply pk_unique_inj; eauto.
  - intros y Hy. apply in_map_iff in Hy as (z & <- & Hz). unfold replace_row.
    destruct (UserRole.id z =? UserRole.id ur) eqn:E; [now left|right].
    split; [assumption|]. intros ->. rewrite Hid, Z.eqb_refl in E. discriminate.
Qed.

Lemma replace_row_twice (rows : list UserRole.t) (a b : UserRole.t) :
  UserRole.id b = UserRole.id a ->
  map (replace_row b) (map (replace_row a) rows) = map (replace_row b) rows.
Proof.
  intros Hid. rewrite map_map. apply map_ext. intros y. unfold replace_row.
  rewrite Hid. destruct (UserRole.id y =? UserRole.id a) eqn:E; [|now rewrite E].
  now rewrite Z.eqb_refl.
Qed.

(** X7.  [UserRole.revoke] followed by [UserRole.activate] on a stored
    row whose foreign keys hold, by users that are absent or stored:
    revoke stores the row inactive with [revoked_at] set to the clock
    reading; activate stores it active again with [revoked_at] cleared and
    [assigned_at] set to the new reading.  A [by] argument replaces
    [assigned_by] in both methods, so the revoker overwrites the
    assigner.  Only that row changes; no row is added. *)
Theorem revoke_then_activate x by1 by2 w :
  pk_unique (accounts_userrole w) -> In x (accounts_userrole w) ->
  fk_ok x w = true ->
  assigner_stored by1 w = true -> assigner_stored by2 w = true ->
  exists ur1 w1 ur2 w2,
    revoke x by1 w = (Ok ur1, w1) /\
    ur1 = UserRole.mk (UserRole.id x) (UserRole.user x) (UserRole.role x) false
                      (UserRole.assigned_at x) (Some (clock (ticks w)))
                      (py_or by1 (UserRole.assigned_by x)) (UserRole.note x) /\
    accounts_userrole w1 = map (replace_row ur1) (accounts_userrole w) /\
    In ur1 (accounts_userrole w1) /\
    activate ur1 by2 w1 = (Ok ur2, w2) /\
    ur2 = UserRole.mk (UserRole.id x) (UserRole.user x) (UserRole.role x) true
                      (clock (S (ticks w))) None
                      (py_or by2 (py_or by1 (UserRole.assigned_by x))) (UserRole.note x) /\
    accounts_userrole w2 = map (replace_row ur2) (accounts_userrole w) /\
    In ur2 (accounts_userrole w2).
Proof.
  intros Hpk Hx Hfk Hby1 Hby2.
  set (ur1 := UserRole.mk (UserRole.id x) (UserRole.user x) (UserRole.role x) false
                (UserRole.assigned_at x) (Some (clock (ticks w)))
                (py_or by1 (UserRole.assigned_by x)) (UserRole.note x)).
  set (ur2 := UserRole.mk (UserRole.id x) (UserRole.user x) (UserRole.role x) true
                (clock (S (ticks w))) None
                (py_or by2 (py_or by1 (UserRole.assigned_by x))) (UserRole.note x)).
  set (w1 := with_accounts_userrole (map (replace_row ur1) (accounts_userrole w))
               (with_ticks (S (ticks w)) w)).
  set (w2 := with_accounts_userrole (map (replace_row ur2) (accounts_userrole w))
               (with_ticks (S (S (ticks w))) w)).
  assert (Hex : existsb (fun y => UserRole.id y =? UserRole.id x) (accounts_userrole w) = true)
    by (eapply existsb_id_In; eauto).
  assert (Hrun1 : revoke x by1 w = (Ok ur1, w1)).
  { unfold revoke, bind, timezone_now, ret. simpl.
    assert (Hs : forall v, UserRole.id v = UserRole.id x ->
              UserRole.user v = UserRole.user x -> UserRole.role v = UserRole.role x ->
              UserRole.assigned_by v = py_or by1 (UserRole.assigned_by x) ->
              save v (with_ticks (S (ticks w)) w) =
              (Ok tt, with_accounts_userrole (map (replace_row v) (accounts_userrole w))
                        (with_ticks (S (ticks w)) w))).
    { intros v Hv Hu Hr Ha. rewrite save_existing; [now destruct w| |].
      - apply (fk_ok_reassigned x v by1 w); trivial; now destruct w.
      - destruct w; simpl in *. now rewrite Hv. }
    destruct by1; simpl; rewrite Hs by reflexivity; reflexivity. }
  assert (Hfk1 : fk_ok ur1 w = true)
    by (apply (fk_ok_reassigned x ur1 by1 w); trivial).
  assert (Hled1 : accounts_userrole w1 = map (replace_row ur1) (accounts_userrole w))
    by (destruct w; reflexivity).
  assert (Hin1 : In ur1 (accounts_userrole w1)).
  { rewrite Hled1. exact (proj1 (map_replace_row_self _ x ur1 Hpk Hx eq_refl)). }
  assert (Hrun2 : activate ur1 by2 w1 = (Ok ur2, w2)).
  { unfold activate, bind, timezone_now, ret. simpl.
    assert (Hs : forall v, UserRole.id v = UserRole.id x ->
              UserRole.user v = UserRole.user x -> UserRole.role v = UserRole.role x ->
              UserRole.assigned_by v = py_or by2 (UserRole.assigned_by ur1) ->
              save v (with_ticks (S (ticks w1)) w1) =
              (Ok tt, with_accounts_userrole (map (replace_row v) (accounts_userrole w))
                        (with_ticks (S (S (ticks w))) w))).
    { intros v Hv Hu Hr Ha. rewrite save_existing.
      - subst w1. destruct w; simpl.
        now rewrite (replace_row_twice _ ur1 v Hv).
      - apply (fk_ok_reassigned ur1 v by2 w); trivial;
          subst w1; now destruct w.
      - subst w1. destruct w; simpl in *. rewrite Hv.
        apply existsb_id_In with (ur := ur1); [|reflexivity].
        exact (proj1 (map_replace_row_self _ x ur1 Hpk Hx eq_refl)). }
    destruct by2; simpl; rewrite Hs by reflexivity; destruct w; reflexivity. }
  assert (Hled2 : accounts_userrole w2 = map (replace_row ur2) (accounts_userrole w))
    by (destruct w; reflexivity).
  exists ur1, w1, ur2, w2. repeat split; trivial.
  rewrite Hled2. exact (proj1 (map_replace_row_self _ x ur2 Hpk Hx eq_refl)).
Qed.

(** ** Registration and login together *)

Lemma keeps_ret {A} (a : A) : keeps_accounts (ret a).
Proof. intros w. auto. Qed.

Lemma keeps_raise {A} (e : Exn) : keeps_accounts (@raise A e).
Proof. intros w. auto. Qed.

Lemma keeps_gets {A} (f : World -> A) : keeps_accounts (gets f).
Proof. intros w. auto. Qed.

Lemma keeps_bind {A B} (m : M A) (k : A -> M B) :
  keeps_accounts m -> (forall a, keeps_accounts (k a)) -> keeps_accounts (bind m k).
Proof.
  intros Hm Hk w. unfold bind. specialize (Hm w).
  destruct (m w) as [[a|e] w1]; simpl in *; [|assumption].
  destruct (Hk a w1) as (H1 & H2 & H3). destruct Hm as (G1 & G2 & G3).
  repeat split; congruence.
Qed.

Lemma keeps_try_except {A} (m : M A) handles (h : M A) :
  keeps_accounts m -> keeps_accounts h -> keeps_accounts (try_except m handles h).
Proof.
  intros Hm Hh w. unfold try_except. specialize (Hm w).
  destruct (m w) as [[a|e] w1]; simpl in *; [assumption|].
  destruct (handles e); simpl; [|assumption].
  destruct (Hh w1) as (H1 & H2 & H3). destruct Hm as (G1 & G2 & G3).
  repeat split; congruence.
Qed.

Lemma keeps_modify (f : World -> World) :
  (forall w, auth_user (f w) = auth_user w /\
             accounts_profile (f w) = accounts_profile w /\
             accounts_role (f w) = accounts_role w) ->
  keeps_accounts (modify f).
Proof. intros H w. apply H. Qed.

Lemma keeps_timezone_now : keeps_accounts timezone_now.
Proof. intros w. auto. Qed.

Lemma keeps_uuid4 : keeps_accounts uuid4.
Proof. intros w. auto. Qed.

Ltac keeps_step :=
  first
    [ apply keeps_ret | apply keeps_raise | apply keeps_gets
    | apply keeps_timezone_now | apply keeps_uuid4
    | apply keeps_bind; [|intro]
    | apply keeps_try_except
    | apply keeps_modify; intro; repeat split; reflexivity
    | match goal with
      | |- keeps_accounts (match ?x with _ => _ end) => destruct x
      end ].

Lemma keeps_add_role self role ab note : keeps_accounts (add_role self role ab note).
Proof. unfold add_role, get_or_create, save. repeat keeps_step. Qed.

Lemma keeps_user_profile user : keeps_accounts (user_profile user).
Proof. unfold user_profile. repeat keeps_step. Qed.

Lemma keeps_login attrs : keeps_accounts (ObtainTokenPairView_post attrs).
Proof.
  unfold ObtainTokenPairView_post, CustomTokenObtainPairSerializer_validate,
    TokenObtainPairSerializer_validate, User_objects_get_email, authenticate,
    get_token, RefreshToken_for_user, access_token.
  repeat first [apply keeps_user_profile | keeps_step].
Qed.

Lemma keeps_refresh raw : keeps_accounts (RefreshTokenView_post raw).
Proof.
  unfold RefreshTokenView_post, TokenRefreshSerializer_validate, access_token,
    RefreshToken_init, blacklist.
  repeat keeps_step.
Qed.

Lemma keeps_logout raw : keeps_accounts (LogoutView_post raw).
Proof.
  unfold LogoutView_post, RefreshToken_init, blacklist. repeat keeps_step.
Qed.

Lemma is_valid_cases data w :
  (is_valid data w = (Ok (to_internal_value data), w) /\
   RegisterData.password (to_internal_value data)
     = RegisterData.password2 (to_internal_value data) /\
   (forall u, In u (auth_user w) ->
              User.email u <> RegisterData.email (to_internal_value data))) \/
  (exists e, is_valid data w = (Raise e, w)).
Proof.
  unfold is_valid, bind, gets. simpl.
  destruct (field_errors (auth_user w) data); [|right; eexists; reflexivity].
  unfold RegisterSerializer_validate. simpl.
  destruct (strip (RegisterData.password data)
            =? strip (RegisterData.password2 data))%string eqn:Ep;
    simpl; [|right; eexists; reflexivity].
  unfold bind, gets. simpl.
  destruct (existsb _ (auth_user w)) eqn:Ee; [right; eexists; reflexivity|].
  left. split; [reflexivity|]. split; [now apply String.eqb_eq|].
  intros u Hu He. apply String.eqb_eq in He.
  assert (existsb (fun u0 => (User.email u0 =? strip (RegisterData.email data))%string)
                  (auth_user w) = true); [|congruence].
  apply existsb_exists. now exists u.
Qed.

Lemma RegisterSerializer_create_cases data w :
  profile_fk w ->
  (RegisterSerializer_create data w = (Ok (new_user data w), registered data w) /\
   (forall u, In u (auth_user w) -> User.username u <> RegisterData.username data)) \/
  RegisterSerializer_create data w = (Raise (IntegrityError UserModel), w).
Proof.
  intros Hfk. unfold RegisterSerializer_create, bind, gets. simpl.
  destruct (existsb _ (auth_user w)) eqn:Ee; [now right|]. left.
  unfold modify, create_or_ensure_profile, Profile_objects_create, bind, gets. simpl.
  rewrite existsb_false_forall
    by (intros p Hp; now apply (no_profile_for_new_user data w Hfk)).
  rewrite (user_stored_snoc (new_user data w) w) by (now destruct w).
  split; [destruct w; reflexivity|].
  intros u Hu He. apply String.eqb_eq in He.
  assert (existsb (fun u0 => (User.username u0 =? RegisterData.username data)%string)
                  (auth_user w) = true); [|congruence].
  apply existsb_exists. now exists u.
Qed.

(** What a registration request does to the account tables, whatever it
    answers. *)
Lemma register_effect data w :
  profile_fk w ->
  let attrs := to_internal_value data in
  accounts_role (snd (RegisterView_create data w)) = accounts_role w /\
  ((auth_user (snd (RegisterView_create data w)) = auth_user w /\
    accounts_profile (snd (RegisterView_create data w)) = accounts_profile w) \/
   ((forall u, In u (auth_user w) -> User.email u <> RegisterData.email attrs) /\
    (forall u, In u (auth_user w) -> User.username u <> RegisterData.username attrs) /\
    auth_user (snd (RegisterView_create data w))
      = (auth_user w ++ [new_user attrs w])%list /\
    accounts_profile (snd (RegisterView_create data w))
      = (accounts_profile w ++ [Profile.mk (User.id (new_user attrs w)) None None])%list)).
Proof.
  intros Hfk attrs. remember (RegisterView_create data w) as res eqn:Eres.
  unfold RegisterView_create in Eres. unfold bind at 1 in Eres.
  destruct (is_valid_cases data w) as [(Hv & _ & Hem)|[e Hv]]; rewrite Hv in Eres;
    [|subst res; simpl; auto].
  fold attrs in Eres, Hem.
  unfold bind at 1 in Eres.
  destruct (RegisterSerializer_create_cases attrs w Hfk) as [[Hc Hun]|Hc];
    rewrite Hc in Eres; [|subst res; simpl; auto].
  match type of Eres with
  | res = ?m (registered attrs w) => assert (Hk : keeps_accounts m)
  end.
  { unfold Role_objects_get, RefreshToken_for_user, access_token.
    repeat first [apply keeps_add_role | apply keeps_user_profile | keeps_step]. }
  destruct (Hk (registered attrs w)) as (H1 & H2 & H3). rewrite <- Eres in H1, H2, H3.
  split; [rewrite H3; now destruct w|]. right.
  split; [assumption|]. split; [assumption|].
  rewrite H1, H2. destruct w; split; reflexivity.
Qed.

Lemma NoDup_snoc {A} (l : list A) (a : A) : NoDup l -> ~ In a l -> NoDup (l ++ [a]).
Proof.
  intros Hnd Hnot. apply NoDup_app; [assumption | repeat constructor; simpl; tauto |].
  intros x Hx [<-|[]]. contradiction.
Qed.

(** X8.  Whatever requests arrive (register, login, refresh, logout, valid
    or not), the account tables keep their shape: user ids, usernames and
    emails stay unique, every profile belongs to a user, and every user
    has exactly one profile. *)
Theorem serve_keeps_accounts rqs : forall w,
  accounts_ok w -> accounts_ok (serve rqs w).
Proof.
  induction rqs as [|rq rqs IH]; simpl; intros w Hok; [assumption|].
  apply IH. clear IH.
  assert (Hsame : forall w',
            auth_user w' = auth_user w -> accounts_profile w' = accounts_profile w ->
            accounts_ok w').
  { intros w' Hu Hp. unfold accounts_ok, profile_fk. rewrite Hu, Hp. exact Hok. }
  destruct rq as [data|attrs|raw|raw]; simpl.
  - destruct Hok as (Hid & Hun & Hem & Hfk & Hpu & Hall).
    destruct (register_effect data w Hfk) as (_ & [[Hu Hp]|(Hemf & Hunf & Hu & Hp)]).
    + apply Hsame; assumption.
    + unfold accounts_ok, profile_fk. rewrite Hu, Hp, !map_app. simpl.
      split; [|split; [|split; [|split; [|split]]]].
      * apply NoDup_snoc; [assumption | apply next_pk_fresh].
      * apply NoDup_snoc; [assumption|]. intros Hin.
        apply in_map_iff in Hin as (u & Heq & Hin). now apply (Hunf u).
      * apply NoDup_snoc; [assumption|]. intros Hin.
        apply in_map_iff in Hin as (u & Heq & Hin). now apply (Hemf u).
      * intros p Hin. apply in_app_or in Hin as [Hin|[<-|[]]].
        -- destruct (Hfk p Hin) as (u & Hin' & E). exists u.
           split; [apply in_or_app; now left | assumption].
        -- exists (new_user (to_internal_value data) w). split; [|reflexivity].
           apply in_or_app. right. now left.
      * apply NoDup_snoc; [assumption|]. intros Hin.
        apply in_map_iff in Hin as (p & Heq & Hin).
        pose proof (no_profile_for_new_user (to_internal_value data) w Hfk p Hin) as Hne.
        apply Z.eqb_neq in Hne. apply Hne. exact Heq.
      * intros u Hin. apply in_app_or in Hin as [Hin|[<-|[]]].
        -- destruct (Hall u Hin) as (p & Hin' & E). exists p.
           split; [apply in_or_app; now left | assumption].
        -- exists (Profile.mk (User.id (new_user (to_internal_value data) w)) None None).
           split; [|reflexivity]. apply in_or_app. right. now left.
  - destruct (keeps_login attrs w) as (Hu & Hp & _). now apply Hsame.
  - destruct (keeps_refresh raw w) as (Hu & Hp & _). now apply Hsame.
  - destruct (keeps_logout raw w) as (Hu & Hp & _). now apply Hsame.
Qed.

Lemma Permutation_filter {A} (p : A -> bool) (l l' : list A) :
  Permutation l l' -> Permutation (filter p l) (filter p l').
Proof.
  induction 1 as [|a l l' _ IH|a b l|l1 l2 l3 _ IH1 _ IH2]; simpl.
  - constructor.
  - destruct (p a); [now constructor | assumption].
  - destruct (p a), (p b); try apply Permutation_refl. apply perm_swap.
  - eapply Permutation_trans; eassumption.
Qed.

Lemma filter_andb {A} (p q : A -> bool) (l : list A) :
  filter (fun x => p x && q x) l = filter q (filter p l).
Proof.
  induction l as [|a l IH]; simpl; [reflexivity|].
  destruct (p a); simpl; [|assumption]. destruct (q a); now rewrite IH.
Qed.

Lemma flat_map_as_filter {A} (g : A -> list A) (p : A -> bool) (l : list A) :
  (forall a, In a l -> g a = if p a then [a] else []) ->
  flat_map g l = filter p l.
Proof.
  induction l as [|a l IH]; simpl; intros H; [reflexivity|].
  rewrite (H a (or_introl eq_refl)), IH by (intros b Hb; apply H; now right).
  now destruct (p a).
Qed.

(** A user with one active mapping, to the one role of id [rid]. *)
Lemma get_active_roles_only self w r x rid :
  filter (fun r' => pk_is rid (Role.pk r')) (accounts_role w) = [r] ->
  Role.is_active r = true ->
  filter (fun y => (UserRole.user y =? Profile.user self) && UserRole.is_active y)
         (accounts_userrole w) = [x] ->
  UserRole.role x = rid ->
  get_active_roles self w = [r].
Proof.
  intros Hr Hact Hx Hrole. unfold get_active_roles.
  rewrite flat_map_as_filter with (p := fun r' => pk_is rid (Role.pk r')).
  - apply Permutation_length_1_inv. rewrite <- Hr.
    apply Permutation_filter, order_by_name_perm.
  - intros r' Hin. apply (proj1 (In_order_by_name _ _)) in Hin.
    rewrite (filter_andb
               (fun y => (UserRole.user y =? Profile.user self) && UserRole.is_active y)
               (fun y => pk_is (UserRole.role y) (Role.pk r'))).
    rewrite Hx. simpl. rewrite Hrole.
    destruct (pk_is rid (Role.pk r')) eqn:E.
    + assert (r' = r) as ->.
      { assert (Hin' : In r' (filter (fun r' => pk_is rid (Role.pk r')) (accounts_role w)))
          by (apply filter_In; auto).
        rewrite Hr in Hin'. destruct Hin' as [<-|[]]. reflexivity. }
      now rewrite Hact.
    + now destruct (Role.is_active r').
Qed.

Lemma no_userrole_for_new_user data w :
  userrole_fk w ->
  forall x, In x (accounts_userrole w) ->
            (UserRole.user x =? User.id (new_user data w)) = false.
Proof.
  intros Hfk x Hx. apply Z.eqb_neq. destruct (Hfk x Hx) as (u & Hu & <-).
  simpl. pose proof (next_pk_above (map User.id (auth_user w)) (User.id u)
                       (in_map User.id _ _ Hu)). lia.
Qed.

Lemma filter_none {A} (p : A -> bool) (l : list A) :
  (forall x, In x l -> p x = false) -> filter p l = [].
Proof.
  induction l as [|a l IH]; simpl; intros H; [reflexivity|].
  rewrite (H a (or_introl eq_refl)). apply IH. intros x Hx. apply H. now right.
Qed.

(** X9.  The main path of registration: with valid input and an active
    role of id 2, the new user is given that role.  The answer is 201 with
    the two tokens, the username, the email and exactly that role's slug;
    the ledger gains one active row (new user, role 2) with no assigner
    and no note, and the new user has the role from then on.  The values
    stored and answered are the validated ones, [attrs]. *)
Theorem register_with_default_role data w r :
  valid_registration data w -> profile_fk w -> userrole_fk w ->
  filter (fun x => pk_is 2 (Role.pk x)) (accounts_role w) = [r] ->
  Role.is_active r = true ->
  let attrs := to_internal_value data in
  exists refresh access ur w',
    RegisterView_create data w =
      (Ok (mkResponse HTTP_201_CREATED
             (RegisterBody refresh access
                           (RegisterData.username attrs) (RegisterData.email attrs)
                           [Role.slug r])),
       w') /\
    accounts_userrole w' = (accounts_userrole w ++ [ur])%list /\
    ur = UserRole.mk (next_pk (map UserRole.id (accounts_userrole w)))
                     (User.id (new_user attrs w)) 2 true (clock (ticks w))
                     None None None /\
    auth_user w' = (auth_user w ++ [new_user attrs w])%list /\
    accounts_profile w' =
      (accounts_profile w ++ [Profile.mk (User.id (new_user attrs w)) None None])%list /\
    has_role (Profile.mk (User.id (new_user attrs w)) None None) (Role.slug r) w' = true.
Proof.
  intros Hvalid Hfk Hufk Hone Hact attrs. subst attrs.
  assert (Hv : is_valid data w = (Ok (to_internal_value data), w))
    by now apply is_valid_ok.
  assert (Hun : forall u, In u (auth_user w) ->
                  User.username u <> RegisterData.username (to_internal_value data))
    by apply Hvalid.
  clear Hvalid.
  remember (RegisterView_create data w) as res eqn:Eres.
  unfold RegisterView_create, bind in Eres.
  rewrite Hv in Eres. clear Hv.
  revert Hun Eres. generalize (to_internal_value data). clear data. intros data Hun Eres.
  destruct (filter_singleton_In _ _ _ Hone) as [Hrin Hpk]. apply pk_is_Some in Hpk.
  set (ur := UserRole.mk (next_pk (map UserRole.id (accounts_userrole w)))
                         (User.id (new_user data w)) 2 true (clock (ticks w))
                         None None None).
  set (p := Profile.mk (User.id (new_user data w)) None None).
  assert (Hnorow : filter (userrole_for (User.id (new_user data w)) 2)
                          (accounts_userrole (registered data w)) = []).
  { replace (accounts_userrole (registered data w)) with (accounts_userrole w)
      by (destruct w; reflexivity).
    apply filter_none. intros x Hx. unfold userrole_for.
    now rewrite (no_userrole_for_new_user data w Hufk x Hx). }
  assert (Hfks : fk_ok (UserRole.mk
                          (next_pk (map UserRole.id (accounts_userrole (registered data w))))
                          (Profile.user p) 2 true (clock (ticks (registered data w)))
                          None None None)
                       (registered data w) = true).
  { apply fk_ok_true. simpl. repeat split.
    - apply (user_stored_snoc (new_user data w) w). now destruct w.
    - unfold role_stored. apply existsb_exists. exists r.
      split; [now destruct w | now apply pk_is_Some].  }
  pose proof (add_role_created p r 2 None None (registered data w) Hpk
                ltac:(lia) Hact Hnorow Hfks) as Hadd.
  rewrite RegisterSerializer_create_ok in Eres by assumption.
  unfold try_except, bind, Role_objects_get, bind, gets in Eres.
  assert (Hf : filter (fun x => pk_is 2 (Role.pk x))
                      (accounts_role (registered data w)) = [r])
    by (destruct w; exact Hone).
  rewrite Hf in Eres. simpl in Eres.
  rewrite user_profile_registered in Eres by (trivial; destruct w; reflexivity).
  fold p in Eres. rewrite Hadd in Eres.
  unfold RefreshToken_for_user, bind, timezone_now, uuid4, ret, access_token, bind in Eres.
  simpl in Eres.
  rewrite user_profile_registered in Eres by (trivial; destruct w; reflexivity).
  fold p in Eres. unfold gets in Eres.
  match type of Eres with
  | res = (Ok (mkResponse _ (RegisterBody _ _ _ _ (map Role.slug (get_active_roles p ?wf)))), _) =>
      assert (Hroles : get_active_roles p wf = [r]);
      [ apply get_active_roles_only with (x := ur) (rid := 2);
        [ destruct w; exact Hone | exact Hact | | reflexivity ]
      | assert (Hled : accounts_userrole wf = (accounts_userrole w ++ [ur])%list)
          by (destruct w; reflexivity);
        assert (Hrl : accounts_role wf = accounts_role w) by (destruct w; reflexivity) ]
  end.
  { destruct w; simpl in *. rewrite filter_app. simpl.
    rewrite filter_none; [now rewrite Z.eqb_refl|].
    intros x Hx.
    pose proof (no_userrole_for_new_user data _ Hufk x Hx) as Hne. simpl in Hne.
    now rewrite Hne. }
  rewrite Hroles in Eres. simpl in Eres. subst res.
  do 4 eexists. split; [reflexivity|].
  split; [exact Hled|]. split; [reflexivity|].
  split; [destruct w; reflexivity|]. split; [destruct w; reflexivity|].
  unfold has_role. rewrite Hled, Hrl. apply existsb_exists. exists ur.
  split; [apply in_or_app; right; now left|]. simpl. rewrite Z.eqb_refl. simpl.
  apply existsb_exists. exists r. split; [assumption|].
  now rewrite Hpk, Hact, String.eqb_refl.
Qed.

(** The pair [TokenObtainPairSerializer.validate] issues for a user that
    authenticates, and the world it leaves. *)
Lemma token_pair_issued n pw w u p :
  find (fun x => (User.username x =? n)%string) (auth_user w) = Some u ->
  check_password pw (User.password u) = true -> User.is_active u = true ->
  find (fun q => Profile.user q =? User.id u) (accounts_profile w) = Some p ->
  let claims := Some (User.username u, User.email u,
                      map Role.slug (get_active_roles p w)) in
  TokenObtainPairSerializer_validate n pw w =
    (Ok (mkResponse 200
           (TokenBody
              (Token.mk Refresh (jti_next w) (User.id u)
                        (clock (ticks w) + 24 * 60 * 60) claims)
              (Token.mk Access (Z.succ (jti_next w)) (User.id u)
                        (clock (ticks w) + 30 * 60) claims))),
     with_jti_next (Z.succ (Z.succ (jti_next w))) (with_ticks (S (ticks w)) w)).
Proof.
  intros Hfind Hpw Hact Hprof claims.
  unfold TokenObtainPairSerializer_validate, bind, authenticate, bind, gets. simpl.
  rewrite Hfind, Hpw, Hact. simpl.
  unfold get_token, bind, RefreshToken_for_user, bind, timezone_now, uuid4, ret,
    user_profile, bind, gets, access_token, bind, uuid4, ret. simpl.
  rewrite Hprof. subst claims. destruct w; reflexivity.
Qed.

(** X10.  Login that succeeds: [validate] runs on the attributes the
    serializer's fields return.  For an identifier without "@" naming an
    active user whose password verifies and who has a profile, the answer
    is 200 with a refresh token expiring one day after the clock reading
    and an access token expiring thirty minutes after it.  Both tokens
    carry the user's id and the same snapshot of username, email and active
    role slugs; no table is written, only the clock position and the token
    id source advance. *)
Theorem login_issues_snapshot attrs w u p :
  contains_at (LoginAttrs.username attrs) = false ->
  find (fun x => (User.username x =? LoginAttrs.username attrs)%string) (auth_user w)
    = Some u ->
  check_password (LoginAttrs.password attrs) (User.password u) = true ->
  User.is_active u = true ->
  find (fun q => Profile.user q =? User.id u) (accounts_profile w) = Some p ->
  exists refresh access w',
    CustomTokenObtainPairSerializer_validate attrs w = (Ok (mkResponse 200 (TokenBody refresh access)), w') /\
    Token.token_type refresh = Refresh /\ Token.token_type access = Access /\
    Token.user_id refresh = User.id u /\ Token.user_id access = User.id u /\
    Token.exp refresh = clock (ticks w) + 86400 /\
    Token.exp access = clock (ticks w) + 1800 /\
    Token.jti refresh <> Token.jti access /\
    Token.claims refresh =
      Some (User.username u, User.email u, map Role.slug (get_active_roles p w)) /\
    Token.claims access = Token.claims refresh /\
    auth_user w' = auth_user w /\ accounts_profile w' = accounts_profile w /\
    accounts_role w' = accounts_role w /\ accounts_userrole w' = accounts_userrole w /\
    blacklistedtoken w' = blacklistedtoken w.
Proof.
  intros Hat Hfind Hpw Hact Hprof.
  unfold CustomTokenObtainPairSerializer_validate.
  rewrite Hat, andb_false_r. unfold bind at 1. unfold ret at 1.
  rewrite (token_pair_issued _ _ w u p Hfind Hpw Hact Hprof).
  do 3 eexists. split; [reflexivity|]. simpl.
  repeat split; try (destruct w; reflexivity). lia.
Qed.

(** X11.  Login that fails is generic.  [validate] runs on the attributes
    the serializer's fields return (the identifier arrives stripped): for
    an identifier without "@", when no user of that name has both a
    verifying password and an active account (unknown name, wrong password
    or disabled account alike), [validate] raises the same
    AuthenticationFailed and the world is left exactly as it was. *)
Theorem login_failure_generic attrs w :
  contains_at (LoginAttrs.username attrs) = false ->
  (forall u, In u (auth_user w) ->
             User.username u = LoginAttrs.username attrs ->
             check_password (LoginAttrs.password attrs) (User.password u) = false \/
             User.is_active u = false) ->
  CustomTokenObtainPairSerializer_validate attrs w = (Raise AuthenticationFailed, w).
Proof.
  intros Hat Hbad.
  unfold CustomTokenObtainPairSerializer_validate.
  rewrite Hat, andb_false_r. unfold bind at 1. unfold ret at 1.
  unfold TokenObtainPairSerializer_validate, bind, authenticate, bind, gets. simpl.
  destruct (find _ (auth_user w)) as [u|] eqn:Ef; [|reflexivity].
  apply find_some in Ef as [Hin Hn]. apply String.eqb_eq in Hn.
  destruct (Hbad u Hin Hn) as [-> | ->]; [reflexivity|].
  now rewrite andb_false_r.
Qed.

(** X12.  An identifier with "@" that is the email of two or more users
    makes [User.objects.get] raise MultipleObjectsReturned, which the
    [except User.DoesNotExist] clause lets through: the login ends in that
    exception, whatever the password, and nothing is written. *)
Theorem login_shared_email attrs w :
  contains_at (LoginAttrs.username attrs) = true ->
  (2 <= List.length (filter (fun u => (User.email u =? LoginAttrs.username attrs)%string)
                            (auth_user w)))%nat ->
  CustomTokenObtainPairSerializer_validate attrs w = (Raise (MultipleObjectsReturned UserModel), w).
Proof.
  intros Hat Hlen.
  unfold CustomTokenObtainPairSerializer_validate.
  rewrite Hat, (contains_at_nonempty _ Hat). simpl.
  unfold bind at 1. unfold try_except, bind, User_objects_get_email, bind, gets. simpl.
  destruct (filter _ (auth_user w)) as [|a [|b l]]; simpl in Hlen; try lia.
  reflexivity.
Qed.

Lemma register_accounts_valid data w :
  valid_registration data w -> profile_fk w ->
  let attrs := to_internal_value data in
  auth_user (snd (RegisterView_create data w))
    = (auth_user w ++ [new_user attrs w])%list /\
  accounts_profile (snd (RegisterView_create data w))
    = (accounts_profile w ++ [Profile.mk (User.id (new_user attrs w)) None None])%list.
Proof.
  intros Hvalid Hfk attrs.
  destruct (register_effect data w Hfk) as (_ & [[Hu Hp]|(_ & _ & Hu & Hp)]);
    [|now split].
  exfalso.
  remember (RegisterView_create data w) as res eqn:Eres.
  unfold RegisterView_create in Eres. unfold bind at 1 in Eres.
  rewrite is_valid_ok in Eres by assumption. unfold bind at 1 in Eres. fold attrs in Eres.
  rewrite RegisterSerializer_create_ok in Eres by (trivial; apply Hvalid).
  match type of Eres with
  | res = ?m (registered attrs w) => assert (Hk : keeps_accounts m)
  end.
  { unfold Role_objects_get, RefreshToken_for_user, access_token.
    repeat first [apply keeps_add_role | apply keeps_user_profile | keeps_step]. }
  destruct (Hk (registered attrs w)) as (H1 & _). rewrite <- Eres in H1.
  rewrite Hu in H1. destruct w; simpl in H1.
  apply (f_equal (@List.length _)) in H1. rewrite length_app in H1. simpl in H1. lia.
Qed.

(** X13.  Registration and login fit together.  After a registration with
    valid input, whatever the registration request answered (the default
    role may have made it raise), the new account can log in with the
    password it registered, the validated values [attrs] reaching the
    login serializer's [validate]: by username when the username has no
    "@", and by email when the email has one.  Both ways give the same
    answer, with tokens for the new user's id. *)
Theorem register_then_login data w :
  valid_registration data w -> profile_fk w ->
  let attrs := to_internal_value data in
  exists refresh access w'',
    Token.user_id refresh = User.id (new_user attrs w) /\
    Token.user_id access = User.id (new_user attrs w) /\
    (contains_at (RegisterData.username attrs) = false ->
     CustomTokenObtainPairSerializer_validate
       (LoginAttrs.mk (RegisterData.username attrs) (RegisterData.password attrs))
       (snd (RegisterView_create data w))
     = (Ok (mkResponse 200 (TokenBody refresh access)), w'')) /\
    (contains_at (RegisterData.email attrs) = true ->
     CustomTokenObtainPairSerializer_validate
       (LoginAttrs.mk (RegisterData.email attrs) (RegisterData.password attrs))
       (snd (RegisterView_create data w))
     = (Ok (mkResponse 200 (TokenBody refresh access)), w'')).
Proof.
  intros Hvalid Hfk attrs. subst attrs.
  destruct (register_accounts_valid data w Hvalid Hfk) as [Hu Hp].
  destruct Hvalid as (_ & _ & Hem & Hun).
  set (w' := snd (RegisterView_create data w)) in *.
  change (strip (RegisterData.email data))
    with (RegisterData.email (to_internal_value data)) in Hem.
  change (strip (RegisterData.username data))
    with (RegisterData.username (to_internal_value data)) in Hun.
  clearbody w'. revert Hu Hp Hem Hun. generalize (to_internal_value data).
  clear data. intros data Hu Hp Hem Hun.
  assert (Hfind : find (fun x => (User.username x =? RegisterData.username data)%string)
                       (auth_user w') = Some (new_user data w)).
  { rewrite Hu. apply find_snoc_fresh; [|apply String.eqb_refl].
    intros u Hin. apply String.eqb_neq. now apply Hun. }
  assert (Hprof : find (fun q => Profile.user q =? User.id (new_user data w))
                       (accounts_profile w')
                  = Some (Profile.mk (User.id (new_user data w)) None None)).
  { rewrite Hp. apply find_snoc_fresh; [|apply Z.eqb_refl].
    intros q Hq. now apply (no_profile_for_new_user data w Hfk). }
  assert (Hpw : check_password (RegisterData.password data)
                               (User.password (new_user data w)) = true)
    by apply String.eqb_refl.
  pose proof (token_pair_issued (RegisterData.username data) (RegisterData.password data)
                w' _ _ Hfind Hpw eq_refl Hprof) as Hrun.
  cbv zeta in Hrun.
  do 3 eexists. split; [|split; [|split]].
  3: { intros Hat.
       unfold CustomTokenObtainPairSerializer_validate. simpl.
       rewrite Hat, andb_false_r. unfold bind at 1. unfold ret at 1. exact Hrun. }
  3: { intros Hat.
       unfold CustomTokenObtainPairSerializer_validate. simpl.
       rewrite Hat, (contains_at_nonempty _ Hat). simpl.
       unfold bind at 1. unfold try_except, bind, User_objects_get_email, bind, gets.
       simpl.
       assert (Hf : filter (fun u => (User.email u =? RegisterData.email data)%string)
                           (auth_user w') = [new_user data w]).
       { rewrite Hu, filter_app. simpl. rewrite String.eqb_refl.
         rewrite filter_none; [reflexivity|].
         intros u Hin. apply String.eqb_neq. now apply Hem. }
       rewrite Hf. simpl. exact Hrun. }
  all: reflexivity.
Qed.

(** ** Logout *)

(** X14.  [LogoutView.post] answers every request whose body is a JSON
    object, with 205 or with 400, and lets no exception out of the [try].
    Without a refresh token it answers 400 and leaves the world as it was;
    a 205 means the presented token is in the blacklist store afterwards;
    no account or ledger table is touched either way.  A body that is not
    a JSON object has no [get]: the lookup before the [try] raises
    AttributeError, which leaves [post], the world as it was. *)
Theorem logout_always_answers w :
  (forall raw, exists resp w',
    LogoutView_post (Dict raw) w = (Ok resp, w') /\
    (status_code resp = HTTP_205_RESET_CONTENT \/
     status_code resp = HTTP_400_BAD_REQUEST) /\
    (raw = None ->
     w' = w /\
     resp = mkResponse HTTP_400_BAD_REQUEST (DetailBody "Refresh token required.")) /\
    (status_code resp = HTTP_205_RESET_CONTENT ->
     exists tok, raw = Some tok /\ In (Token.jti tok) (blacklistedtoken w')) /\
    auth_user w' = auth_user w /\ accounts_profile w' = accounts_profile w /\
    accounts_role w' = accounts_role w /\ accounts_userrole w' = accounts_userrole w) /\
  LogoutView_post NotADict w = (Raise AttributeError, w).
Proof.
  split; [|reflexivity]. intros raw.
  destruct raw as [tok|]; simpl.
  - unfold try_except, bind, RefreshToken_init, bind, timezone_now, gets. simpl.
    destruct (Token.token_type tok);
      [|do 2 eexists; split; [reflexivity|];
        repeat split; try (now right); try discriminate; destruct w; reflexivity].
    destruct (Token.exp tok <=? clock (ticks w));
      [do 2 eexists; split; [reflexivity|];
       repeat split; try (now right); try discriminate; destruct w; reflexivity|].
    destruct (existsb (Z.eqb (Token.jti tok)) (blacklistedtoken w)) eqn:E; simpl;
      [do 2 eexists; split; [reflexivity|];
       repeat split; try (now right); try discriminate; destruct w; reflexivity|].
    unfold blacklist, bind, gets, modify, ret. simpl. rewrite E. simpl.
    do 2 eexists. split; [reflexivity|].
    split; [now left|]. split; [discriminate|].
    split; [|destruct w; repeat split].
    intros _. exists tok. split; [reflexivity|].
    destruct w; simpl. apply in_or_app. right. now left.
  - do 2 eexists. split; [reflexivity|].
    split; [now right|]. split; [auto|]. split; [discriminate|]. repeat split.
Qed.

Lemma logout_rejects_blacklisted tok w :
  In (Token.jti tok) (blacklistedtoken w) ->
  exists w',
    LogoutView_post (Dict (Some tok)) w =
      (Ok (mkResponse HTTP_400_BAD_REQUEST (DetailBody "Invalid or expired token.")), w').
Proof.
  intros Hin. apply existsb_eqb_In in Hin. simpl.
  unfold try_except, bind, RefreshToken_init, bind, timezone_now, gets. simpl.
  destruct (Token.token_type tok); [|eexists; reflexivity].
  destruct (Token.exp tok <=? clock (ticks w)); [eexists; reflexivity|].
  rewrite Hin. eexists; reflexivity.
Qed.

(** X15.  Logging out retires the refresh token: once [LogoutView.post]
    has answered 205 for a token, then at once and after any further
    sequence of requests a refresh with that token raises the
    invalid-token error and a second logout with it answers 400. *)
Theorem logout_retires_token tok w resp w1 :
  LogoutView_post (Dict (Some tok)) w = (Ok resp, w1) ->
  status_code resp = HTTP_205_RESET_CONTENT ->
  forall rqs,
    (exists w2,
       RefreshTokenView_post tok (serve rqs w1) = (Raise InvalidToken, w2)) /\
    (exists w3,
       LogoutView_post (Dict (Some tok)) (serve rqs w1) =
         (Ok (mkResponse HTTP_400_BAD_REQUEST (DetailBody "Invalid or expired token.")),
          w3)).
Proof.
  intros Hrun Hst rqs.
  assert (Hin : In (Token.jti tok) (blacklistedtoken w1)).
  { revert Hrun. simpl.
    unfold try_except, bind, RefreshToken_init, bind, timezone_now, gets. simpl.
    destruct (Token.token_type tok);
      [|intros [= <- _]; discriminate].
    destruct (Token.exp tok <=? clock (ticks w));
      [intros [= <- _]; discriminate|].
    destruct (existsb (Z.eqb (Token.jti tok)) (blacklistedtoken w)) eqn:E; simpl;
      [intros [= <- _]; discriminate|].
    unfold blacklist, bind, gets, modify, ret. simpl. rewrite E. simpl.
    intros [= _ <-]. destruct w; simpl. apply in_or_app. right. now left. }
  pose proof (serve_grows rqs w1 _ Hin) as Hlater.
  split; [now apply refresh_rejects_blacklisted | now apply logout_rejects_blacklisted].
Qed.

(** ** The admin actions *)

Lemma Forall2_diag {A} (R : A -> A -> Prop) (l : list A) :
  (forall x, In x l -> R x x) -> Forall2 R l l.
Proof.
  induction l as [|a l IH]; intros H; constructor.
  - apply H. now left.
  - apply IH. intros x Hx. apply H. now right.
Qed.

Lemma Forall2_map_l_impl {A} (R R' : A -> A -> Prop) (f : A -> A) (l : list A) :
  forall l',
    (forall x y, In x l -> R' (f x) y -> R x y) ->
    Forall2 R' (map f l) l' -> Forall2 R l l'.
Proof.
  induction l as [|a l IH]; simpl; intros l' Himp H; inversion H; subst; constructor.
  - apply Himp; [now left | assumption].
  - apply IH; [|assumption]. intros x0 y0 Hx. apply Himp. now right.
Qed.

(** [save] of a stored row written back with another assigner. *)
Lemma save_reassigned x by_ v w :
  In x (accounts_userrole w) -> fk_ok x w = true -> assigner_stored by_ w = true ->
  UserRole.id v = UserRole.id x ->
  UserRole.user v = UserRole.user x -> UserRole.role v = UserRole.role x ->
  UserRole.assigned_by v = py_or by_ (UserRole.assigned_by x) ->
  save v (with_ticks (S (ticks w)) w) =
    (Ok tt, with_accounts_userrole (map (replace_row v) (accounts_userrole w))
              (with_ticks (S (ticks w)) w)).
Proof.
  intros Hx Hfk Hby Hv Hu Hr Ha. rewrite save_existing; [now destruct w| |].
  - apply (fk_ok_reassigned x v by_ w); trivial; now destruct w.
  - destruct w; simpl in *. rewrite Hv. eapply existsb_id_In; eauto.
Qed.

Lemma revoke_run x by_ w :
  In x (accounts_userrole w) -> fk_ok x w = true -> assigner_stored by_ w = true ->
  let ur := UserRole.mk (UserRole.id x) (UserRole.user x) (UserRole.role x) false
                        (UserRole.assigned_at x) (Some (clock (ticks w)))
                        (py_or by_ (UserRole.assigned_by x)) (UserRole.note x) in
  revoke x by_ w =
    (Ok ur, with_accounts_userrole (map (replace_row ur) (accounts_userrole w))
              (with_ticks (S (ticks w)) w)).
Proof.
  intros Hx Hfk Hby ur. unfold revoke, bind, timezone_now, ret. simpl.
  subst ur. destruct by_; simpl;
    rewrite (save_reassigned x _ _ w Hx Hfk Hby) by reflexivity; reflexivity.
Qed.

Lemma activate_run x by_ w :
  In x (accounts_userrole w) -> fk_ok x w = true -> assigner_stored by_ w = true ->
  let ur := UserRole.mk (UserRole.id x) (UserRole.user x) (UserRole.role x) true
                        (clock (ticks w)) None
                        (py_or by_ (UserRole.assigned_by x)) (UserRole.note x) in
  activate x by_ w =
    (Ok ur, with_accounts_userrole (map (replace_row ur) (accounts_userrole w))
              (with_ticks (S (ticks w)) w)).
Proof.
  intros Hx Hfk Hby ur. unfold activate, bind, timezone_now, ret. simpl.
  subst ur. destruct by_; simpl;
    rewrite (save_reassigned x _ _ w Hx Hfk Hby) by reflexivity; reflexivity.
Qed.

(** The shared loop, for a method that stores [step now ur] under the key
    of [ur]. *)
Lemma for_each_mapping_spec (test : UserRole.t -> bool)
    (method : UserRole.t -> option Z -> M UserRole.t)
    (step : Time -> UserRole.t -> UserRole.t) (request_user : Z)
    (us : list User.t) (rs : list Role.t) (good : UserRole.t -> Prop) :
  (forall ur w, auth_user w = us -> accounts_role w = rs -> good ur ->
     In ur (accounts_userrole w) ->
     method ur (Some request_user) w =
       (Ok (step (clock (ticks w)) ur),
        with_accounts_userrole
          (map (replace_row (step (clock (ticks w)) ur)) (accounts_userrole w))
          (with_ticks (S (ticks w)) w))) ->
  (forall t ur, UserRole.id (step t ur) = UserRole.id ur) ->
  forall queryset count w,
    auth_user w = us -> accounts_role w = rs ->
    (forall ur, In ur queryset -> good ur) ->
    pk_unique (accounts_userrole w) ->
    NoDup (map UserRole.id queryset) ->
    incl queryset (accounts_userrole w) ->
    exists w',
      for_each_mapping test method request_user queryset count w =
        (Ok (count + Z.of_nat (List.length (filter test queryset))), w') /\
      Forall2 (fun x y =>
                 (In x queryset /\ test x = true -> exists k, y = step (clock k) x) /\
                 (~ (In x queryset /\ test x = true) -> y = x))
              (accounts_userrole w) (accounts_userrole w') /\
      auth_user w' = auth_user w /\ accounts_profile w' = accounts_profile w /\
      accounts_role w' = accounts_role w /\ blacklistedtoken w' = blacklistedtoken w.
Proof.
  intros Hm Hid.
  induction queryset as [|ur rest IH]; intros count w Hus Hrs Hgood Hpk Hnd Hincl.
  - exists w. simpl. split; [unfold ret; do 2 f_equal; lia|].
    split; [|auto]. apply Forall2_diag. intros x _. split; [intros [[] _]|auto].
  - simpl. inversion Hnd as [|? ? Hnotin Hnd']; subst.
    assert (Hur : In ur (accounts_userrole w)) by (apply Hincl; now left).
    assert (Hrest : incl rest (accounts_userrole w))
      by (intros y Hy; apply Hincl; now right).
    assert (Hgood' : forall y, In y rest -> good y)
      by (intros y Hy; apply Hgood; now right).
    destruct (test ur) eqn:Et.
    + unfold bind.
      rewrite (Hm ur w eq_refl eq_refl (Hgood ur (or_introl eq_refl)) Hur).
      set (ur' := step (clock (ticks w)) ur).
      set (w1 := with_accounts_userrole (map (replace_row ur') (accounts_userrole w))
                   (with_ticks (S (ticks w)) w)).
      assert (Hled1 : accounts_userrole w1 = map (replace_row ur') (accounts_userrole w))
        by (destruct w; reflexivity).
      assert (Hkeep : forall y, In y rest -> replace_row ur' y = y).
      { intros y Hy. unfold replace_row.
        destruct (UserRole.id y =? UserRole.id ur') eqn:E; [|reflexivity].
        apply Z.eqb_eq in E. unfold ur' in E. rewrite Hid in E.
        exfalso. apply Hnotin. rewrite <- E. now apply in_map. }
      destruct (IH (count + 1) w1) as (w' & Hrun & Hall & H1 & H2 & H3 & H4).
      * now destruct w.
      * now destruct w.
      * assumption.
      * rewrite Hled1. unfold pk_unique. now rewrite map_replace_row_id.
      * assumption.
      * intros y Hy. rewrite Hled1. apply in_map_iff. exists y.
        split; [now apply Hkeep | now apply Hrest].
      * exists w'. split; [rewrite Hrun; simpl; do 2 f_equal; lia|].
        split; [|destruct w; simpl in *; auto].
        rewrite Hled1 in Hall.
        apply Forall2_map_l_impl with (2 := Hall). intros x y Hx [Hy1 Hy2].
        unfold replace_row in Hy1, Hy2.
        destruct (UserRole.id x =? UserRole.id ur') eqn:E.
        -- apply Z.eqb_eq in E. unfold ur' in E at 1. rewrite Hid in E.
           assert (x = ur) by (apply (pk_unique_inj (accounts_userrole w)); assumption).
           subst x.
           assert (Hnot : ~ (In ur' rest /\ test ur' = true)).
           { intros [Hin _]. apply Hnotin.
             replace (UserRole.id ur) with (UserRole.id ur') by apply Hid.
             now apply in_map. }
           split; [intros _; exists (ticks w); now apply Hy2|].
           intros Hn. exfalso. apply Hn. split; [now left | assumption].
        -- split.
           ++ intros [[Heq|Hin] Ht]; [|now apply Hy1].
              subst x. unfold ur' in E. rewrite Hid, Z.eqb_refl in E. discriminate.
           ++ intros Hn. apply Hy2. intros [Hin Ht]. apply Hn. split; [now right|assumption].
    + destruct (IH count w eq_refl eq_refl Hgood' Hpk Hnd' Hrest)
        as (w' & Hrun & Hall & Hrestt).
      exists w'. split; [exact Hrun|]. split; [|exact Hrestt].
      eapply Forall2_impl; [|exact Hall]. intros x y [Hy1 Hy2]. split.
      * intros [[Heq|Hin] Ht]; [subst x; congruence | now apply Hy1].
      * intros Hn. apply Hy2. intros [Hin Ht]. apply Hn. split; [now right|assumption].
Qed.

(** X16.  [revoke_mappings] on a selection of stored rows, by a stored
    administrator, on a ledger whose foreign keys hold: the count it
    reports is the number of selected rows that were active; row by row,
    each selected active row is stored inactive with [revoked_at] set to a
    clock reading and [assigned_by] overwritten with the administrator,
    and every other row (unselected, or already inactive) is stored as it
    was. *)
Theorem revoke_mappings_effect request_user queryset w :
  pk_unique (accounts_userrole w) ->
  NoDup (map UserRole.id queryset) ->
  incl queryset (accounts_userrole w) ->
  ledger_fk w -> user_stored request_user w = true ->
  exists w',
    revoke_mappings request_user queryset w =
      (Ok (Z.of_nat (List.length (filter UserRole.is_active queryset))), w') /\
    Forall2 (fun x y =>
               (In x queryset /\ UserRole.is_active x = true ->
                exists k,
                  y = UserRole.mk (UserRole.id x) (UserRole.user x) (UserRole.role x)
                                  false (UserRole.assigned_at x) (Some (clock k))
                                  (Some request_user) (UserRole.note x)) /\
               (~ (In x queryset /\ UserRole.is_active x = true) -> y = x))
            (accounts_userrole w) (accounts_userrole w') /\
    accounts_role w' = accounts_role w.
Proof.
  intros Hpk Hnd Hincl Hlfk Hadmin.
  destruct (for_each_mapping_spec UserRole.is_active revoke
              (fun t x => UserRole.mk (UserRole.id x) (UserRole.user x) (UserRole.role x)
                                      false (UserRole.assigned_at x) (Some t)
                                      (Some request_user) (UserRole.note x))
              request_user (auth_user w) (accounts_role w)
              (fun ur => fk_ok ur w = true))
    with (queryset := queryset) (count := 0) (w := w)
    as (w' & Hrun & Hall & _ & _ & Hroles & _); trivial.
  - intros ur w0 Hus Hrs Hfk Hin. rewrite revoke_run; trivial.
    + now rewrite (fk_ok_frame _ w).
    + simpl. now rewrite (user_stored_frame _ w).
  - intros ur Hin. apply Hlfk. now apply Hincl.
  - exists w'. split; [exact Hrun|]. split; [exact Hall | exact Hroles].
Qed.

(** X17.  [activate_mappings] on a selection of stored rows, by a stored
    administrator, on a ledger whose foreign keys hold: the count is the
    number of selected rows that were inactive; each of them is stored
    active with [assigned_at] set to a clock reading, [revoked_at] cleared
    and [assigned_by] overwritten with the administrator; every other row
    is stored as it was. *)
Theorem activate_mappings_effect request_user queryset w :
  pk_unique (accounts_userrole w) ->
  NoDup (map UserRole.id queryset) ->
  incl queryset (accounts_userrole w) ->
  ledger_fk w -> user_stored request_user w = true ->
  exists w',
    activate_mappings request_user queryset w =
      (Ok (Z.of_nat (List.length
                       (filter (fun ur => negb (UserRole.is_active ur)) queryset))), w') /\
    Forall2 (fun x y =>
               (In x queryset /\ UserRole.is_active x = false ->
                exists k,
                  y = UserRole.mk (UserRole.id x) (UserRole.user x) (UserRole.role x)
                                  true (clock k) None
                                  (Some request_user) (UserRole.note x)) /\
               (~ (In x queryset /\ UserRole.is_active x = false) -> y = x))
            (accounts_userrole w) (accounts_userrole w') /\
    accounts_role w' = accounts_role w.
Proof.
  intros Hpk Hnd Hincl Hlfk Hadmin.
  destruct (for_each_mapping_spec (fun ur => negb (UserRole.is_active ur)) activate
              (fun t x => UserRole.mk (UserRole.id x) (UserRole.user x) (UserRole.role x)
                                      true t None
                                      (Some request_user) (UserRole.note x))
              request_user (auth_user w) (accounts_role w)
              (fun ur => fk_ok ur w = true))
    with (queryset := queryset) (count := 0) (w := w)
    as (w' & Hrun & Hall & _ & _ & Hroles & _); trivial.
  - intros ur w0 Hus Hrs Hfk Hin. rewrite activate_run; trivial.
    + now rewrite (fk_ok_frame _ w).
    + simpl. now rewrite (user_stored_frame _ w).
  - intros ur Hin. apply Hlfk. now apply Hincl.
  - exists w'. split; [exact Hrun|]. split; [|exact Hroles].
    eapply Forall2_impl; [|exact Hall]. intros x y [H1 H2]. split.
    + intros [Hin Hoff]. apply H1. split; [assumption|]. now rewrite Hoff.
    + intros Hn. apply H2. intros [Hin Hoff]. apply Hn. split; [assumption|].
      now destruct (UserRole.is_active x).
Qed.

Lemma roles_update_run selected b w :
  roles_update selected b w =
    (Ok (Z.of_nat (List.length (filter (role_selected selected) (accounts_role w)))),
     with_accounts_role
       (map (fun r => if role_selected selected r then Role_set_is_active b r else r)
            (accounts_role w)) w).
Proof. reflexivity. Qed.

(** X18.  [deactivate_roles] soft-disables: it reports the number of
    selected role rows, writes no ledger row, and afterwards a role is
    listed for a profile exactly when it was listed before and was not
    selected; a slug carried only by selected roles is held by no one. *)
Theorem deactivate_roles_effect selected w :
  exists w',
    deactivate_roles selected w =
      (Ok (Z.of_nat (List.length (filter (role_selected selected) (accounts_role w)))),
       w') /\
    accounts_userrole w' = accounts_userrole w /\
    auth_user w' = auth_user w /\ accounts_profile w' = accounts_profile w /\
    (forall p r,
        In r (get_active_roles p w') <->
        In r (get_active_roles p w) /\ role_selected selected r = false) /\
    (forall p s,
        (forall r, In r (accounts_role w) -> Role.slug r = s ->
                   role_selected selected r = true) ->
        has_role p s w' = false).
Proof.
  eexists. split; [apply roles_update_run|].
  set (f := fun r => if role_selected selected r then Role_set_is_active false r else r).
  assert (Hled : accounts_userrole (with_accounts_role (map f (accounts_role w)) w)
                 = accounts_userrole w) by (destruct w; reflexivity).
  assert (Hrl : accounts_role (with_accounts_role (map f (accounts_role w)) w)
                = map f (accounts_role w)) by (destruct w; reflexivity).
  split; [exact Hled|]. split; [now destruct w|]. split; [now destruct w|]. split.
  - intros p r. rewrite !In_get_active_roles, Hled, Hrl. split.
    + intros (Hr & Ha & Hx). apply in_map_iff in Hr as (r0 & Hf & Hr0).
      unfold f in Hf. destruct (role_selected selected r0) eqn:Es.
      * subst r. simpl in Ha. discriminate.
      * subst r0. auto.
    + intros [(Hr & Ha & Hx) Hs]. repeat split; trivial.
      apply in_map_iff. exists r. split; [|assumption]. unfold f. now rewrite Hs.
  - intros p s Hs.
    destruct (has_role p s _) eqn:E; [|reflexivity]. exfalso.
    unfold has_role in E. apply existsb_exists in E as (x & _ & H).
    rewrite !andb_true_iff in H. destruct H as [_ Hr].
    apply existsb_exists in Hr as (r & Hr & H).
    rewrite !andb_true_iff in H. destruct H as [[_ Hslug] Hra].
    apply String.eqb_eq in Hslug. rewrite Hrl in Hr.
    apply in_map_iff in Hr as (r0 & Hf & Hr0). unfold f in Hf.
    destruct (role_selected selected r0) eqn:Es.
    + subst r. simpl in Hra. discriminate.
    + subst r0. rewrite (Hs r Hr0 Hslug) in Es. discriminate.
Qed.

(** X19.  Soft-disabling loses nothing: when the selected roles were all
    active, [deactivate_roles] followed by [activate_roles] on the same
    selection gives back the very same world, so every user holds again
    exactly the roles held before. *)
Theorem deactivate_then_activate_roles selected w :
  (forall r, In r (accounts_role w) -> role_selected selected r = true ->
             Role.is_active r = true) ->
  snd (activate_roles selected (snd (deactivate_roles selected w))) = w /\
  (forall p s,
      has_role p s (snd (activate_roles selected (snd (deactivate_roles selected w))))
      = has_role p s w).
Proof.
  intros Hact.
  assert (Hw : snd (activate_roles selected (snd (deactivate_roles selected w))) = w).
  { unfold activate_roles, deactivate_roles. rewrite !roles_update_run. simpl.
    destruct w; simpl in *. unfold with_accounts_role. simpl. f_equal.
    rewrite map_map. rewrite <- (map_id accounts_role0) at 2.
    apply map_ext_in. intros r Hr.
    destruct (role_selected selected r) eqn:Es.
    - assert (role_selected selected (Role_set_is_active false r) = true) as ->
        by exact Es.
      specialize (Hact r Hr Es). destruct r; simpl in *. now subst.
    - now rewrite Es. }
  split; [exact Hw|]. intros p s. now rewrite Hw.
Qed.

(** ** The profile signal *)

(** X20.  The ensure branch of [create_or_ensure_profile] (an existing,
    stored user saved again) succeeds and leaves the user with a profile;
    it is idempotent, running it again changes nothing; it never adds a
    second profile for a user; and the creation branch, run when the
    profile is already there, raises IntegrityError and writes nothing. *)
Theorem ensure_profile_idempotent instance w :
  user_stored (User.id instance) w = true ->
  exists w1 p,
    create_or_ensure_profile instance false w = (Ok tt, w1) /\
    user_profile instance w1 = (Ok p, w1) /\
    Profile.user p = User.id instance /\
    create_or_ensure_profile instance false w1 = (Ok tt, w1) /\
    create_or_ensure_profile instance true w1 = (Raise (IntegrityError ProfileModel), w1) /\
    (NoDup (map Profile.user (accounts_profile w)) ->
     NoDup (map Profile.user (accounts_profile w1))) /\
    auth_user w1 = auth_user w.
Proof.
  intros Hst.
  unfold create_or_ensure_profile, Profile_objects_create, user_profile, bind, gets.
  simpl.
  destruct (existsb (fun p => Profile.user p =? User.id instance) (accounts_profile w))
    eqn:E.
  - destruct (find (fun p => Profile.user p =? User.id instance) (accounts_profile w))
      as [p|] eqn:Ef.
    + exists w, p. rewrite E, Ef. apply find_some in Ef as [_ Hp].
      apply Z.eqb_eq in Hp. repeat split; auto.
    + apply existsb_exists in E as (p & Hin & Hp).
      pose proof (find_none _ _ Ef p Hin) as Hn. congruence.
  - exists (with_accounts_profile
              (accounts_profile w ++ [Profile.mk (User.id instance) None None]) w),
           (Profile.mk (User.id instance) None None).
    assert (Hfind : find (fun p => Profile.user p =? User.id instance)
                         (accounts_profile w ++ [Profile.mk (User.id instance) None None])
                    = Some (Profile.mk (User.id instance) None None)).
    { apply find_snoc_fresh; [|apply Z.eqb_refl].
      intros p Hp. destruct (Profile.user p =? User.id instance) eqn:Ep; [|reflexivity].
      assert (existsb (fun p => Profile.user p =? User.id instance) (accounts_profile w)
              = true); [|congruence].
      apply existsb_exists. now exists p. }
    assert (Hex : existsb (fun p => Profile.user p =? User.id instance)
                          (accounts_profile w ++ [Profile.mk (User.id instance) None None])
                  = true).
    { apply existsb_exists. exists (Profile.mk (User.id instance) None None).
      split; [apply in_or_app; right; now left | apply Z.eqb_refl]. }
    unfold user_stored in *. destruct w; simpl in *.
    rewrite E, Hst, Hfind. unfold modify, with_accounts_profile. simpl. rewrite Hex. simpl.
    repeat split. intros Hnd. rewrite map_app. simpl.
    apply NoDup_snoc; [assumption|]. intros Hin.
    apply in_map_iff in Hin as (p & Hp & Hin).
    assert (existsb (fun p => Profile.user p =? User.id instance) accounts_profile0 = true);
      [|congruence].
    apply existsb_exists. exists p. split; [assumption | now apply Z.eqb_eq].
Qed.

(** ** Saving roles *)

Lemma role_pks_In rs k : In k (role_pks rs) <-> In (Some k) (map Role.pk rs).
Proof.
  unfold role_pks. rewrite in_flat_map, in_map_iff. split.
  - intros (r & Hr & Hk). exists r. split; [|assumption].
    destruct (Role.pk r); simpl in Hk; [|tauto]. destruct Hk as [->|[]]. reflexivity.
  - intros (r & Hpk & Hr). exists r. split; [assumption|]. rewrite Hpk. now left.
Qed.

Lemma role_clashes_false self rs :
  existsb (role_clashes self) rs = false ->
  forall r, In r rs -> Role.name r <> Role.name self /\ Role.slug r <> Role.slug self.
Proof.
  intros He r Hr.
  assert (Hc : role_clashes self r = false).
  { destruct (role_clashes self r) eqn:E; [|reflexivity].
    assert (existsb (role_clashes self) rs = true); [|congruence].
    apply existsb_exists. now exists r. }
  unfold role_clashes in Hc. apply orb_false_iff in Hc as [Hn Hs].
  now rewrite String.eqb_neq in Hn, Hs.
Qed.

Lemma NoDup_map_replace {B} (g : Role.t -> B) (rs : list Role.t) (k : Z) (self : Role.t) :
  NoDup (map Role.pk rs) -> NoDup (map g rs) ->
  (forall r, In r rs -> pk_is k (Role.pk r) = false -> g r <> g self) ->
  NoDup (map g (map (fun r => if pk_is k (Role.pk r) then self else r) rs)).
Proof.
  induction rs as [|a rs IH]; simpl; intros Hpk Hg Hne; [constructor|].
  inversion Hpk as [|? ? Hpa Hpk']; inversion Hg as [|? ? Hga Hg']; subst.
  assert (IH' := IH Hpk' Hg' (fun r Hr => Hne r (or_intror Hr))).
  constructor; [|exact IH'].
  rewrite map_map. intros Hin. apply in_map_iff in Hin as (r & Heq & Hr).
  destruct (pk_is k (Role.pk a)) eqn:Ea; destruct (pk_is k (Role.pk r)) eqn:Er.
  - apply pk_is_Some in Ea, Er. apply Hpa. rewrite Ea, <- Er. now apply in_map.
  - apply (Hne r (or_intror Hr) Er). exact Heq.
  - apply (Hne a (or_introl eq_refl) Ea). now symmetry.
  - apply Hga. rewrite <- Heq. now apply in_map.
Qed.

(** X21.  [Role.save] keeps the role table well formed: whatever instance
    is saved, and whether the save succeeds or is refused, primary keys,
    names and slugs stay unique and every stored role has a key; no other
    table is written. *)
Theorem Role_save_keeps_constraints slugify self w :
  roles_ok (accounts_role w) ->
  roles_ok (accounts_role (snd (Role_save slugify self w))) /\
  accounts_userrole (snd (Role_save slugify self w)) = accounts_userrole w /\
  auth_user (snd (Role_save slugify self w)) = auth_user w /\
  accounts_profile (snd (Role_save slugify self w)) = accounts_profile w.
Proof.
  clear clock make_password field_errors password_field login_field_errors.
  intros (Hpk & Hsome & Hname & Hslug). unfold Role_save.
  set (self' := if (Role.slug self =? "")%string
                then Role_set_slug (slugify (Role.name self)) self else self).
  unfold bind, gets. simpl.
  destruct (Role.pk self') as [k|] eqn:Epk.
  - destruct (existsb (role_clashes self')
                (filter (fun r => negb (pk_is k (Role.pk r))) (accounts_role w))) eqn:Ec;
      [simpl; repeat split; assumption|].
    assert (Hother : forall r, In r (accounts_role w) -> pk_is k (Role.pk r) = false ->
              Role.name r <> Role.name self' /\ Role.slug r <> Role.slug self').
    { intros r Hr Hk. apply (role_clashes_false self' _ Ec).
      apply filter_In. split; [assumption|]. now rewrite Hk. }
    destruct (existsb (fun r => pk_is k (Role.pk r)) (accounts_role w)) eqn:Ex.
    + destruct w; simpl in *. split; [|auto]. repeat split.
      * apply NoDup_map_replace; trivial. intros r Hr Hk Heq.
        rewrite Epk in Heq. apply pk_is_Some in Heq. congruence.
      * intros r Hr. apply in_map_iff in Hr as (r0 & Hf & Hr0).
        destruct (pk_is k (Role.pk r0)); subst r; [congruence | now apply Hsome].
      * apply NoDup_map_replace; trivial. intros r Hr Hk. now apply Hother.
      * apply NoDup_map_replace; trivial. intros r Hr Hk. now apply Hother.
    + assert (Hfresh : forall r, In r (accounts_role w) -> pk_is k (Role.pk r) = false).
      { intros r Hr. destruct (pk_is k (Role.pk r)) eqn:E; [|reflexivity].
        assert (existsb (fun r => pk_is k (Role.pk r)) (accounts_role w) = true);
          [|congruence].
        apply existsb_exists. now exists r. }
      destruct w; simpl in *. split; [|auto]. unfold roles_ok.
      rewrite !map_app. simpl. repeat split.
      * apply NoDup_snoc; [assumption|]. intros Hin.
        apply in_map_iff in Hin as (r & Heq & Hr).
        pose proof (Hfresh r Hr) as Hk. rewrite Epk in Heq.
        apply pk_is_Some in Heq. congruence.
      * intros r Hr. apply in_app_or in Hr as [Hr|[<-|[]]];
          [now apply Hsome | congruence].
      * apply NoDup_snoc; [assumption|]. intros Hin.
        apply in_map_iff in Hin as (r & Heq & Hr).
        now apply (proj1 (Hother r Hr (Hfresh r Hr))).
      * apply NoDup_snoc; [assumption|]. intros Hin.
        apply in_map_iff in Hin as (r & Heq & Hr).
        now apply (proj2 (Hother r Hr (Hfresh r Hr))).
  - destruct (existsb (role_clashes self') (accounts_role w)) eqn:Ec;
      [simpl; repeat split; assumption|].
    pose proof (role_clashes_false self' _ Ec) as Hother.
    destruct w; simpl in *. split; [|auto]. unfold roles_ok.
      rewrite !map_app. simpl. repeat split.
    + apply NoDup_snoc; [assumption|]. intros Hin.
      apply role_pks_In in Hin. now apply next_pk_fresh in Hin.
    + intros r Hr. apply in_app_or in Hr as [Hr|[<-|[]]];
        [now apply Hsome | discriminate].
    + apply NoDup_snoc; [assumption|]. intros Hin.
      apply in_map_iff in Hin as (r & Heq & Hr). now apply (proj1 (Hother r Hr)).
    + apply NoDup_snoc; [assumption|]. intros Hin.
      apply in_map_iff in Hin as (r & Heq & Hr). now apply (proj2 (Hother r Hr)).
Qed.

(** X22.  Saving a new role (no primary key).  If its name, or the slug it
    ends up with, repeats a stored role's, the save raises IntegrityError
    and writes nothing.  Otherwise the role is stored under a fresh key
    with its name unchanged and with the slug it was given, or, when that
    was empty, the slug derived from the name; on a well-formed table
    [Role.objects.get] by the new key returns exactly the stored row. *)
Theorem Role_save_new slugify self w :
  Role.pk self = None ->
  let slug' := if (Role.slug self =? "")%string
               then slugify (Role.name self) else Role.slug self in
  ((exists r, In r (accounts_role w) /\
              (Role.name r = Role.name self \/ Role.slug r = slug')) ->
   Role_save slugify self w = (Raise (IntegrityError RoleModel), w)) /\
  ((forall r, In r (accounts_role w) ->
              Role.name r <> Role.name self /\ Role.slug r <> slug') ->
   exists k r w',
     Role_save slugify self w = (Ok r, w') /\
     r = Role.mk (Some k) (Role.name self) slug' (Role.description self)
                 (Role.is_active self) /\
     ~ In (Some k) (map Role.pk (accounts_role w)) /\
     accounts_role w' = (accounts_role w ++ [r])%list /\
     (roles_ok (accounts_role w) -> Role_objects_get k w' = (Ok r, w'))).
Proof.
  clear make_password field_errors.
  intros Hpk slug'. unfold Role_save.
  set (self' := if (Role.slug self =? "")%string
                then Role_set_slug (slugify (Role.name self)) self else self).
  assert (Hs' : Role.pk self' = None /\ Role.name self' = Role.name self /\
                Role.slug self' = slug' /\
                Role.description self' = Role.description self /\
                Role.is_active self' = Role.is_active self).
  { unfold self', slug'. destruct (Role.slug self =? "")%string; simpl; auto. }
  destruct Hs' as (Hpk' & Hn' & Hsl' & Hd' & Ha').
  unfold bind, gets. simpl. rewrite Hpk'. split.
  - intros (r & Hr & Hclash).
    assert (existsb (role_clashes self') (accounts_role w) = true) as ->; [|reflexivity].
    apply existsb_exists. exists r. split; [assumption|]. unfold role_clashes.
    rewrite Hn', Hsl'. apply orb_true_iff.
    destruct Hclash as [H|H]; [left | right]; now apply String.eqb_eq.
  - intros Hfree.
    assert (existsb (role_clashes self') (accounts_role w) = false) as ->.
    { apply existsb_false_forall. intros r Hr. unfold role_clashes.
      rewrite Hn', Hsl'. apply orb_false_iff.
      destruct (Hfree r Hr). split; now apply String.eqb_neq. }
    simpl. do 3 eexists. split; [reflexivity|].
    split; [unfold Role_set_pk; now rewrite Hn', Hsl', Hd', Ha'|].
    assert (Hnew : ~ In (Some (next_pk (role_pks (accounts_role w))))
                        (map Role.pk (accounts_role w))).
    { intros Hin. apply role_pks_In in Hin. now apply next_pk_fresh in Hin. }
    split; [exact Hnew|]. split; [now destruct w|].
    intros (Hnd & _). unfold Role_objects_get, bind, gets.
    assert (Hf : filter (fun r0 => pk_is (next_pk (role_pks (accounts_role w))) (Role.pk r0))
                        (accounts_role w) = []).
    { apply filter_none. intros r0 Hr0.
      destruct (pk_is _ (Role.pk r0)) eqn:E; [|reflexivity].
      apply pk_is_Some in E. exfalso. apply Hnew. rewrite <- E. now apply in_map. }
    destruct w; simpl in *. rewrite filter_app, Hf. simpl.
    now rewrite Z.eqb_refl.
Qed.

End Accounts.

(** * The theorems at the sample data *)

Lemma add_role_reactivation_witness :
  (exists ur' w',
     add_role clock0 profile_alice role_member None None world_revoked = (Ok ur', w') /\
     UserRole.is_active ur' = true /\
     UserRole.assigned_at ur' = 1001 /\
     UserRole.revoked_at ur' = Some 5 /\
     UserRole.assigned_by ur' = Some 7 /\
     UserRole.note ur' = Some "old") /\
  add_role clock0 profile_alice role_member (Some 5) None world_revoked
  = (Raise (IntegrityError UserRoleModel), with_ticks 2 world_revoked).
Proof.
  split.
  - destruct (add_role_reactivation clock0 profile_alice role_member 2 None None
                world_revoked row_revoked)
      as [Hok _].
    + repeat constructor. simpl. tauto.
    + reflexivity.
    + lia.
    + reflexivity.
    + reflexivity.
    + reflexivity.
    + destruct (Hok eq_refl) as (ur' & w' & Hrun & _ & _ & Ha & Ht & Hr & Hb & Hn).
      exists ur', w'. repeat split; assumption.
  - destruct (add_role_reactivation clock0 profile_alice role_member 2 (Some 5) None
                world_revoked row_revoked)
      as [_ Hrefused].
    + repeat constructor. simpl. tauto.
    + reflexivity.
    + lia.
    + reflexivity.
    + reflexivity.
    + reflexivity.
    + exact (Hrefused eq_refl).
Defined.

Lemma one_row_per_user_role_witness :
  exists ur1 w1 ur3 w4,
    add_role clock0 profile_alice role_member None None world_unassigned = (Ok ur1, w1) /\
    add_role clock0 profile_alice role_member (Some 7) (Some "again")
             (snd (remove_role clock0 profile_alice role_member w1)) = (Ok ur3, w4) /\
    UserRole.id ur3 = UserRole.id ur1 /\
    List.length (accounts_userrole w4) = List.length (accounts_userrole w1).
Proof.
  destruct (one_row_per_user_role clock0 profile_alice role_member 2 world_unassigned
              None None (Some 7) (Some "again"))
    as (ur1 & w1 & ur2 & w2 & w3 & ur3 & w4 & H1 & _ & _ & _ & _ & _ & H3 & H4 & _ & _
        & Hid & Hlen & _).
  - split; [constructor | intros u r; simpl; lia].
  - intros x [].
  - reflexivity.
  - lia.
  - reflexivity.
  - reflexivity.
  - reflexivity.
  - reflexivity.
  - reflexivity.
  - exists ur1, w1, ur3, w4. rewrite H3. simpl. repeat split; assumption.
Defined.

Lemma has_role_iff_witness :
  UserRole.is_active row_active = true /\
  has_role profile_alice "member" world_role_off = false /\
  has_role profile_alice "member" world_active = true.
Proof.
  split; [reflexivity|]. split.
  - apply (proj2 (has_role_iff profile_alice "member" world_role_off)).
    intros r [<-|[]] _. reflexivity.
  - apply (proj1 (has_role_iff profile_alice "member" world_active)).
    exists row_active, role_member. simpl. repeat split; auto.
Defined.



(** The claim C5 as worded fails: carol's own username is dave's email, so
    "a@x.io" with carol's password is checked against dave's account and
    refused, while carol's email with the same password logs her in. *)
Lemma login_username_shadowed_by_email :
  In carol (auth_user world_shadowed) /\
  (exists refresh access w',
     CustomTokenObtainPairSerializer_validate clock0 hasher0
       (LoginAttrs.mk (User.email carol) "pc") world_shadowed
     = (Ok (mkResponse 200 (TokenBody refresh access)), w') /\
     Token.user_id refresh = User.id carol) /\
  CustomTokenObtainPairSerializer_validate clock0 hasher0
    (LoginAttrs.mk (User.username carol) "pc") world_shadowed
  = (Raise AuthenticationFailed, world_shadowed).
Proof.
  split; [now left|]. split.
  - do 3 eexists. split; reflexivity.
  - reflexivity.
Qed.

Lemma login_email_same_as_username_witness :
  CustomTokenObtainPairSerializer_validate clock0 hasher0
    (LoginAttrs.mk "alice@x.io" "pa") world_active =
  CustomTokenObtainPairSerializer_validate clock0 hasher0
    (LoginAttrs.mk "alice" "pa") world_active.
Proof.
  apply (login_email_same_as_username clock0 hasher0 world_active alice "pa").
  - reflexivity.
  - reflexivity.
  - left. reflexivity.
Defined.

Lemma refresh_token_single_use_witness :
  exists w2,
    RefreshTokenView_post clock0 refresh_alice
      (serve clock0 hasher0 field_errors0 password_field0 login_field_errors0
             [PostLogin (LoginAttrs.mk "alice" "pa")]
             (snd (RefreshTokenView_post clock0 refresh_alice world_active)))
    = (Raise InvalidToken, w2).
Proof.
  pose proof (refresh_token_single_use clock0 hasher0 field_errors0
                password_field0 login_field_errors0
                refresh_alice world_active) as H.
  specialize (H _ _ eq_refl).
  exact (proj2 H [PostLogin (LoginAttrs.mk "alice" "pa")]).
Defined.

Lemma add_role_rejects_witness :
  (exists msg, add_role clock0 profile_alice role_member_off None None world_revoked
               = (Raise (ValueError msg), world_revoked)) /\
  (exists msg, add_role clock0 profile_alice role_unsaved None None world_revoked
               = (Raise (ValueError msg), world_revoked)).
Proof.
  split.
  - apply add_role_rejects. right. reflexivity.
  - apply add_role_rejects. left. reflexivity.
Defined.

Lemma remove_role_revokes_witness :
  (exists w',
     remove_role clock0 profile_alice role_member world_active = (Ok tt, w') /\
     accounts_userrole w' = [UserRole.mk 1 1 2 false 3 (Some 1000) (Some 7) None]) /\
  accounts_userrole (snd (remove_role clock0 profile_alice role_member world_revoked))
  = accounts_userrole world_revoked /\
  remove_role clock0 profile_alice role_unsaved world_active
  = (Raise (ValueError "Model instances passed to related filters must be saved."),
     world_active).
Proof.
  split; [|split].
  - destruct (remove_role_revokes clock0 profile_alice role_member world_active)
      as [Hsaved _].
    destruct Hsaved as (w' & Hrun & Hrows & _); [discriminate|].
    exists w'. split; [exact Hrun|].
    inversion Hrows as [|x y l l' [Hrev _] Hrest Hx Hy]. subst.
    inversion Hrest. subst.
    now rewrite Hrev by (repeat split).
  - destruct (remove_role_revokes clock0 profile_alice role_member world_revoked)
      as [Hsaved _].
    destruct Hsaved as (w' & Hrun & _ & Hnoop & _); [discriminate|].
    rewrite Hrun. apply Hnoop.
    intros x [<-|[]] (_ & _ & H). discriminate.
  - destruct (remove_role_revokes clock0 profile_alice role_unsaved world_active)
      as [_ Hunsaved].
    exact (Hunsaved eq_refl).
Defined.

Lemma register_without_default_role_witness :
  exists refresh access roles w',
    RegisterView_create clock0 hasher0 field_errors0 signup_bob world_no_roles
    = (Ok (mkResponse 201 (RegisterBody refresh access "bob" "bob@x.io" roles)), w') /\
    accounts_userrole w' = [].
Proof.
  destruct (register_without_default_role clock0 hasher0 field_errors0
              signup_bob world_no_roles)
    as (refresh & access & w' & Hrun & _ & _ & _ & _ & _ & _ & Hled & _).
  - repeat split.
    + intros u [<-|[]]; vm_compute; discriminate.
    + intros u [<-|[]]; vm_compute; discriminate.
  - intros p [<-|[]]. exists alice. split; [now left | reflexivity].
  - intros r [].
  - do 4 eexists. split; [exact Hrun | exact Hled].
Defined.

Lemma register_with_inactive_default_role_witness :
  exists w',
    RegisterView_create clock0 hasher0 field_errors0 signup_bob world_role_off
    = (Raise (ValueError "cannot assign an inactive Role"), w') /\
    auth_user w' = [alice; root; sam; User.mk 10 "bob" "bob@x.io" (hasher0 "pb") "Bob" "" true].
Proof.
  destruct (register_with_inactive_default_role clock0 hasher0 field_errors0
              signup_bob world_role_off role_member_off)
    as (w' & Hrun & Hus & _).
  - repeat split.
    + intros u [<-|[<-|[<-|[]]]]; vm_compute; discriminate.
    + intros u [<-|[<-|[<-|[]]]]; vm_compute; discriminate.
  - intros p [<-|[<-|[<-|[]]]];
      [exists alice | exists root | exists sam]; simpl; tauto.
  - reflexivity.
  - reflexivity.
  - exists w'. split; [exact Hrun | exact Hus].
Defined.

(** * The further properties at the sample data *)

Lemma has_role_iff_listed_witness :
  has_role profile_alice "member" world_active = true.
Proof.
  apply (proj2 (has_role_iff_listed profile_alice "member" world_active)).
  exists role_member. split; [vm_compute; now left | reflexivity].
Defined.

Lemma get_active_roles_distinct_sorted_witness :
  get_active_roles profile_alice world_three_roles
  = [role_admin; role_editor; role_member] /\
  NoDup (get_active_roles profile_alice world_three_roles) /\
  Forall (fun r => Role.is_active r = true)
         (get_active_roles profile_alice world_three_roles) /\
  StronglySorted name_le (get_active_roles profile_alice world_three_roles).
Proof.
  split; [reflexivity|].
  apply (get_active_roles_distinct_sorted profile_alice world_three_roles).
  - intros u r. cbn -[Z.eqb]. unfold userrole_for. cbn -[Z.eqb].
    destruct (Z.eqb_spec 1 u); destruct (Z.eqb_spec 7 u);
      destruct (Z.eqb_spec 2 r); destruct (Z.eqb_spec 3 r); destruct (Z.eqb_spec 4 r);
      cbn -[Z.eqb]; lia.
  - repeat constructor; simpl; intuition discriminate.
Defined.

Lemma add_role_first_assignment_witness :
  exists ur w',
    add_role clock0 profile_alice role_member (Some 7) (Some "") world_unassigned
      = (Ok ur, w') /\
    accounts_userrole w' = [ur] /\
    UserRole.note ur = Some "" /\ UserRole.assigned_at ur = 1000.
Proof.
  destruct (add_role_first_assignment clock0 profile_alice role_member 2
              (Some 7) (Some "") world_unassigned)
    as (ur & w' & Hrun & Hled & _ & Hur & _).
  - reflexivity.
  - lia.
  - reflexivity.
  - intros x [].
  - reflexivity.
  - reflexivity.
  - reflexivity.
  - exists ur, w'. split; [exact Hrun|]. split; [exact Hled|].
    rewrite Hur. split; reflexivity.
Defined.


Lemma add_role_then_has_role_witness :
  has_role profile_alice "member"
           (snd (add_role clock0 profile_alice role_member None None world_revoked)) = true.
Proof.
  assert (Hwf : wf_ledger (accounts_userrole world_revoked)).
  { split; [repeat constructor; simpl; tauto|].
    intros u r. simpl. destruct (userrole_for u r row_revoked); simpl; lia. }
  destruct (add_role_then_has_role clock0 profile_alice role_member 2 None None
              world_revoked role_member Hwf) as [Hhas _].
  - intros x [<-|[]]. reflexivity.
  - reflexivity.
  - lia.
  - reflexivity.
  - now left.
  - reflexivity.
  - reflexivity.
  - reflexivity.
  - reflexivity.
  - exact Hhas.
Defined.

Lemma remove_role_then_listed_witness :
  has_role profile_alice "member"
           (snd (remove_role clock0 profile_alice role_member world_active)) = false.
Proof.
  apply (proj2 (remove_role_then_listed clock0 profile_alice role_member world_active)).
  intros r [<-|[]] _. reflexivity.
Defined.

Lemma revoke_then_activate_witness :
  exists ur1 w1 ur2 w2,
    revoke clock0 row_active (Some 9) world_active = (Ok ur1, w1) /\
    activate clock0 ur1 None w1 = (Ok ur2, w2) /\
    UserRole.is_active ur2 = true /\
    UserRole.revoked_at ur2 = None /\
    UserRole.assigned_by ur2 = Some 9.
Proof.
  destruct (revoke_then_activate clock0 row_active (Some 9) None world_active)
    as (ur1 & w1 & ur2 & w2 & H1 & _ & _ & _ & H2 & Hur2 & _).
  - repeat constructor. simpl. tauto.
  - now left.
  - reflexivity.
  - reflexivity.
  - reflexivity.
  - exists ur1, w1, ur2, w2. subst ur2. repeat split; assumption.
Defined.

Lemma serve_keeps_accounts_witness :
  accounts_ok
    (serve clock0 hasher0 field_errors0 password_field0 login_field_errors0
           [PostRegister signup_bob; PostRegister signup_taken_email;
            PostLogin (LoginAttrs.mk "bob" "pb"); PostLogout (Dict None);
            PostLogout NotADict]
           world_no_roles).
Proof.
  apply (serve_keeps_accounts clock0 hasher0 field_errors0
           password_field0 login_field_errors0).
  unfold accounts_ok, profile_fk. simpl.
  repeat split; try (repeat constructor; simpl; tauto).
  - intros p [<-|[]]. exists alice. split; [now left | reflexivity].
  - intros u [<-|[]]. exists profile_alice. split; [now left | reflexivity].
Defined.

Lemma register_with_default_role_witness :
  exists refresh access w',
    RegisterView_create clock0 hasher0 field_errors0 signup_bob world_active
    = (Ok (mkResponse 201 (RegisterBody refresh access "bob" "bob@x.io" ["member"])), w').
Proof.
  destruct (register_with_default_role clock0 hasher0 field_errors0
              signup_bob world_active role_member)
    as (refresh & access & ur & w' & Hrun & _).
  - repeat split.
    + intros u [<-|[<-|[<-|[]]]]; vm_compute; discriminate.
    + intros u [<-|[<-|[<-|[]]]]; vm_compute; discriminate.
  - intros p [<-|[<-|[<-|[]]]];
      [exists alice | exists root | exists sam]; simpl; tauto.
  - intros x [<-|[]]. exists alice. split; [now left | reflexivity].
  - reflexivity.
  - reflexivity.
  - exists refresh, access, w'. exact Hrun.
Defined.

Lemma login_issues_snapshot_witness :
  exists refresh access w',
    CustomTokenObtainPairSerializer_validate clock0 hasher0
      (LoginAttrs.mk "alice" "pa") world_active
    = (Ok (mkResponse 200 (TokenBody refresh access)), w') /\
    Token.claims refresh = Some ("alice", "alice@x.io", ["member"]) /\
    Token.exp access = 2800.
Proof.
  destruct (login_issues_snapshot clock0 hasher0 (LoginAttrs.mk "alice" "pa")
              world_active alice profile_alice)
    as (refresh & access & w' & Hrun & _ & _ & _ & _ & _ & Hexp & _ & Hcl & _);
    try reflexivity.
  exists refresh, access, w'. split; [exact Hrun|]. split; [exact Hcl | exact Hexp].
Defined.

Lemma login_failure_generic_witness :
  CustomTokenObtainPairSerializer_validate clock0 hasher0
    (LoginAttrs.mk "alice" "wrong") world_active
  = (Raise AuthenticationFailed, world_active) /\
  CustomTokenObtainPairSerializer_validate clock0 hasher0
    (LoginAttrs.mk "nobody" "pa") world_active
  = (Raise AuthenticationFailed, world_active).
Proof.
  split.
  - apply (login_failure_generic clock0 hasher0 (LoginAttrs.mk "alice" "wrong")
             world_active).
    + reflexivity.
    + intros u [<-|[<-|[<-|[]]]] H; try discriminate H. left. reflexivity.
  - apply (login_failure_generic clock0 hasher0 (LoginAttrs.mk "nobody" "pa")
             world_active).
    + reflexivity.
    + intros u [<-|[<-|[<-|[]]]] H; discriminate H.
Defined.

Lemma login_shared_email_witness :
  CustomTokenObtainPairSerializer_validate clock0 hasher0
    (LoginAttrs.mk "team@x.io" "pe") world_shared_email
  = (Raise (MultipleObjectsReturned UserModel), world_shared_email).
Proof.
  apply (login_shared_email clock0 hasher0 (LoginAttrs.mk "team@x.io" "pe")
           world_shared_email).
  - reflexivity.
  - simpl. lia.
Defined.

Lemma register_then_login_witness :
  exists refresh access w'',
    CustomTokenObtainPairSerializer_validate clock0 hasher0 (LoginAttrs.mk "bob" "pb")
      (snd (RegisterView_create clock0 hasher0 field_errors0 signup_blanks world_role_off))
    = (Ok (mkResponse 200 (TokenBody refresh access)), w'') /\
    CustomTokenObtainPairSerializer_validate clock0 hasher0 (LoginAttrs.mk "bob@x.io" "pb")
      (snd (RegisterView_create clock0 hasher0 field_errors0 signup_blanks world_role_off))
    = (Ok (mkResponse 200 (TokenBody refresh access)), w'').
Proof.
  destruct (register_then_login clock0 hasher0 field_errors0 signup_blanks world_role_off)
    as (refresh & access & w'' & _ & _ & Hn & He).
  - repeat split.
    + intros u [<-|[<-|[<-|[]]]]; vm_compute; discriminate.
    + intros u [<-|[<-|[<-|[]]]]; vm_compute; discriminate.
  - intros p [<-|[<-|[<-|[]]]];
      [exists alice | exists root | exists sam]; simpl; tauto.
  - exists refresh, access, w''. split; [apply Hn | apply He]; reflexivity.
Defined.

Lemma logout_always_answers_witness :
  LogoutView_post clock0 (Dict None) world_active
  = (Ok (mkResponse 400 (DetailBody "Refresh token required.")), world_active) /\
  (exists w',
     LogoutView_post clock0 (Dict (Some refresh_alice)) world_active
     = (Ok (mkResponse 205 (DetailBody "Successfully logged out.")), w') /\
     In 40 (blacklistedtoken w')) /\
  (exists w',
     LogoutView_post clock0 (Dict (Some refresh_alice))
       (snd (LogoutView_post clock0 (Dict (Some refresh_alice)) world_active))
     = (Ok (mkResponse 400 (DetailBody "Invalid or expired token.")), w')) /\
  LogoutView_post clock0 NotADict world_active = (Raise AttributeError, world_active).
Proof.
  destruct (logout_always_answers clock0 world_active) as [Hdict Hnot].
  split; [|split; [|split]].
  - destruct (Hdict None) as (resp & w' & Hrun & _ & Hnone & _).
    destruct (Hnone eq_refl) as [Hw Hr]. rewrite Hw, Hr in Hrun. exact Hrun.
  - destruct (Hdict (Some refresh_alice)) as (resp & w' & Hrun & _ & _ & H205 & _).
    assert (Hresp : resp = mkResponse 205 (DetailBody "Successfully logged out."))
      by (vm_compute in Hrun; congruence).
    subst resp. exists w'. split; [exact Hrun|].
    destruct (H205 eq_refl) as (tok & Htok & Hin).
    injection Htok as <-. exact Hin.
  - destruct (logout_always_answers clock0
                (snd (LogoutView_post clock0 (Dict (Some refresh_alice)) world_active)))
      as [Hagain _].
    destruct (Hagain (Some refresh_alice)) as (resp & w' & Hrun & _).
    exists w'. rewrite Hrun. f_equal. f_equal.
    vm_compute in Hrun. congruence.
  - exact Hnot.
Defined.

Lemma logout_retires_token_witness :
  exists w2,
    RefreshTokenView_post clock0 refresh_alice
      (serve clock0 hasher0 field_errors0 password_field0 login_field_errors0
             [PostLogin (LoginAttrs.mk "alice" "pa")]
             (snd (LogoutView_post clock0 (Dict (Some refresh_alice)) world_active)))
    = (Raise InvalidToken, w2).
Proof.
  pose proof (logout_retires_token clock0 hasher0 field_errors0
                password_field0 login_field_errors0
                refresh_alice world_active) as H.
  specialize (H _ _ eq_refl eq_refl).
  exact (proj1 (H [PostLogin (LoginAttrs.mk "alice" "pa")])).
Defined.

Lemma revoke_mappings_effect_witness :
  exists w',
    revoke_mappings clock0 9 [row_active] world_active = (Ok 1, w').
Proof.
  destruct (revoke_mappings_effect clock0 9 [row_active] world_active)
    as (w' & Hrun & _).
  - repeat constructor. simpl. tauto.
  - repeat constructor. simpl. tauto.
  - intros x Hx. exact Hx.
  - intros x [<-|[]]. reflexivity.
  - reflexivity.
  - exists w'. exact Hrun.
Defined.

Lemma activate_mappings_effect_witness :
  exists w',
    activate_mappings clock0 9 [row_revoked] world_revoked = (Ok 1, w').
Proof.
  destruct (activate_mappings_effect clock0 9 [row_revoked] world_revoked)
    as (w' & Hrun & _).
  - repeat constructor. simpl. tauto.
  - repeat constructor. simpl. tauto.
  - intros x Hx. exact Hx.
  - intros x [<-|[]]. reflexivity.
  - reflexivity.
  - exists w'. exact Hrun.
Defined.

Lemma deactivate_roles_effect_witness :
  exists w',
    deactivate_roles [2] world_active = (Ok 1, w') /\
    has_role profile_alice "member" w' = false.
Proof.
  destruct (deactivate_roles_effect [2] world_active)
    as (w' & Hrun & _ & _ & _ & _ & Hoff).
  exists w'. split; [exact Hrun|]. apply Hoff.
  intros r [<-|[]] _. reflexivity.
Defined.

Lemma deactivate_then_activate_roles_witness :
  snd (activate_roles [2] (snd (deactivate_roles [2] world_active))) = world_active.
Proof.
  destruct (deactivate_then_activate_roles [2] world_active) as [Hw _].
  - intros r [<-|[]] _. reflexivity.
  - exact Hw.
Defined.

Lemma ensure_profile_idempotent_witness :
  exists w1 p,
    create_or_ensure_profile alice false world_orphan = (Ok tt, w1) /\
    user_profile alice w1 = (Ok p, w1) /\
    NoDup (map Profile.user (accounts_profile w1)).
Proof.
  destruct (ensure_profile_idempotent alice world_orphan)
    as (w1 & p & H1 & H2 & _ & _ & _ & Hnd & _); [reflexivity|].
  exists w1, p. split; [exact H1|]. split; [exact H2|].
  apply Hnd. constructor.
Defined.

Lemma Role_save_keeps_constraints_witness :
  roles_ok (accounts_role (snd (Role_save slugify0 role_new world_active))).
Proof.
  apply (Role_save_keeps_constraints slugify0 role_new world_active).
  unfold roles_ok. simpl. repeat split; try (repeat constructor; simpl; tauto).
  intros r [<-|[]]. discriminate.
Defined.

Lemma Role_save_new_witness :
  exists k r w',
    Role_save slugify0 role_new world_active = (Ok r, w') /\
    Role.slug r = "content-editor" /\
    Role_objects_get k w' = (Ok r, w').
Proof.
  destruct (proj2 (Role_save_new slugify0 role_new world_active eq_refl))
    as (k & r & w' & Hrun & Hr & _ & _ & Hget).
  - intros r [<-|[]]. split; discriminate.
  - exists k, r, w'. split; [exact Hrun|]. split; [rewrite Hr; reflexivity|].
    apply Hget. unfold roles_ok. simpl.
    repeat split; try (repeat constructor; simpl; tauto).
    intros r0 [<-|[]]. discriminate.
Defined.
